(** * Forum.PRCF user management: profiles, usernames, roles and TOTP setup

    A shallow embedding of the repository's user-management code:

    - [usernameFormSchema]   (src/components/profile/UsernameEditForm.tsx)
    - [update_username]      (supabase/migrations/add_update_username_rpc.sql)
    - [set_totp_enabled]     (supabase/migrations/add_totp_related_profile_settings.sql)
    - [useAuth]              (hooks/useAuth)
    - [TotpSetupDialog]      (src/components/profile/TotpSetupDialog.tsx)
    - [handleDisableTotp]    (ProfilePage)
    - the create-user Edge Function.

    Text is a list of Unicode code points.  The database table [profiles]
    is a finite map from the primary key [id] to the remaining columns. *)

From Stdlib Require Import String Ascii.
From stdpp Require Import gmap list fin_maps.

Local Open Scope N_scope.

(** ** Text *)

Module Text.

(** A text value is its sequence of code points. *)
Abbreviation text := (list N).

(** A string literal of the source, byte by byte.  The literals the code
    compares with are ASCII, where bytes and code points are the same; the
    others are messages that are only passed on. *)
Definition txt (s : string) : text :=
  map N_of_ascii (list_ascii_of_string s).
Arguments txt : simpl never.

(** JavaScript's [s.length] counts UTF-16 code units: a code point above
    the Basic Multilingual Plane takes two. *)
Definition utf16_units (c : N) : N := if c <? 65536 then 1 else 2.

Definition js_length (s : text) : N :=
  foldr (fun c n => utf16_units c + n) 0 s.

(** PostgreSQL's [char_length] counts characters. *)
Definition char_length (s : text) : N := N.of_nat (length s).

Definition in_range (lo hi c : N) : bool := (lo <=? c) && (c <=? hi).

(** The character class [[a-zA-Z0-9_.]]. *)
Definition username_char (c : N) : bool :=
  in_range 97 122 c || in_range 65 90 c || in_range 48 57 c
  || (c =? 95) || (c =? 46).

(** [^[a-zA-Z0-9_.]+$]: one or more characters, all of the class.  Neither
    JavaScript (without the m flag) nor PostgreSQL lets [$] match before a
    final newline. *)
Definition username_regex (s : text) : bool :=
  match s with
  | [] => false
  | _ :: _ => forallb username_char s
  end.

(** [[0-9]], the complement of [\D]. *)
Definition is_digit (c : N) : bool := in_range 48 57 c.

(** JavaScript's [\s] (and the characters [trim] removes). *)
Definition is_space (c : N) : bool :=
  in_range 9 13 c || (c =? 32) || (c =? 160) || (c =? 5760)
  || in_range 8192 8202 c || (c =? 8232) || (c =? 8233) || (c =? 8239)
  || (c =? 8287) || (c =? 12288) || (c =? 65279).

(** ASCII lower-casing, what [toLowerCase] and [lower] do on the ASCII
    letters. *)
Definition lower_char (c : N) : N := if in_range 65 90 c then c + 32 else c.
Definition toLowerCase (s : text) : text := map lower_char s.

(** JavaScript's [s.toLowerCase()], as far as a search for ASCII text can
    tell.  Besides A-Z two code points have a lower-case form with an
    ASCII code point in it: U+0130 (i followed by U+0307) and U+212A, the
    Kelvin sign (k).  The lower-case forms of all other code points are
    outside ASCII; those code points are left as they are. *)
Definition js_lower_char (c : N) : text :=
  if c =? 304 then [105; 775]
  else if c =? 8490 then [107]
  else [lower_char c].

Definition js_toLowerCase (s : text) : text := concat (map js_lower_char s).

Fixpoint starts_with (p s : text) : bool :=
  match p, s with
  | [], _ => true
  | _ :: _, [] => false
  | a :: p', b :: s' => (a =? b) && starts_with p' s'
  end.

(** [s.includes(p)] *)
Fixpoint includes (s p : text) : bool :=
  starts_with p s ||
  match s with
  | [] => false
  | _ :: s' => includes s' p
  end.

End Text.
Import Text.

(** ** Username validation, client side (UsernameEditForm.tsx) *)

Module UsernameEditForm.

Inductive issue := TooShort | TooLong | InvalidChars.

(** [z.string().min(3, ..).max(30, ..).regex(/^[a-zA-Z0-9_.]+$/, ..)]:
    zod runs every check and collects the issues. *)
Definition usernameFormSchema (username : text) : list issue :=
  (if js_length username <? 3 then [TooShort] else [])
  ++ (if 30 <? js_length username then [TooLong] else [])
  ++ (if username_regex username then [] else [InvalidChars]).

(** The form submits only a value with no issue. *)
Definition accepts (username : text) : bool :=
  bool_decide (usernameFormSchema username = []).

End UsernameEditForm.

(** ** The profiles table and its RPCs (supabase/migrations) *)

Module Db.

(** [id UUID]: a 128-bit number. *)
Abbreviation uuid := N.

(** A row of [public.profiles] without its primary key [id]; the columns
    are the ones the source names.  [None] is SQL's NULL. *)
Record profile := Profile {
  email : option text;
  username : option text;
  full_name : option text;
  avatar_url : option text;
  status : option text;
  role : option text;
  is_totp_enabled : bool;   (* BOOLEAN NOT NULL DEFAULT FALSE *)
}.

Definition set_username (v : option text) (p : profile) : profile :=
  {| email := email p; username := v; full_name := full_name p;
     avatar_url := avatar_url p; status := status p; role := role p;
     is_totp_enabled := is_totp_enabled p |}.

Definition set_is_totp_enabled (v : bool) (p : profile) : profile :=
  {| email := email p; username := username p; full_name := full_name p;
     avatar_url := avatar_url p; status := status p; role := role p;
     is_totp_enabled := v |}.

(** The table, keyed by its primary key. *)
Abbreviation table := (gmap N profile).

(** *** SQL's three-valued logic *)

Definition sql_eq {A} `{EqDecision A} (a b : option A) : option bool :=
  match a, b with
  | Some x, Some y => Some (bool_decide (x = y))
  | _, _ => None
  end.

Definition sql_ne {A} `{EqDecision A} (a b : option A) : option bool :=
  negb <$> sql_eq a b.

Definition sql_lt (a b : option N) : option bool :=
  match a, b with
  | Some x, Some y => Some (x <? y)
  | _, _ => None
  end.

Definition sql_and (a b : option bool) : option bool :=
  match a, b with
  | Some false, _ | _, Some false => Some false
  | Some true, Some true => Some true
  | _, _ => None
  end.

(** [new_username !~ '^[a-zA-Z0-9_.]+$'] *)
Definition sql_not_match (s : option text) : option bool :=
  (fun t => negb (username_regex t)) <$> s.

(** IF and WHERE take a condition only when it is true, not when NULL. *)
Definition holds (c : option bool) : bool :=
  match c with Some true => true | _ => false end.

(** *** Exceptions and the statement monad *)

Inductive exn :=
| UsernameTooShort    (* 'Le nom d''utilisateur doit contenir au moins 3 caractères.' *)
| UsernameTooLong     (* 'Le nom d''utilisateur ne peut pas dépasser 30 caractères.' *)
| UsernameBadChars    (* '... ne peut contenir que des lettres ...' *)
| UsernameTaken       (* 'Ce nom d''utilisateur est déjà pris.' *)
| ProfileNotFound     (* 'User profile not found or not authorized ...' *)
| NotNullViolation    (* raised by the NOT NULL constraint *)
| TooManyRows.        (* query returned more than one row *)

Inductive res (A : Type) :=
| Done (a : A)
| Raised (e : exn).
Arguments Done {A} a.
Arguments Raised {A} e.

(** A PL/pgSQL body threads the table through its statements; with the
    result comes the table as the statements have left it. *)
Definition sql (A : Type) : Type := table -> res A * table.

Definition ret {A} (a : A) : sql A := fun t => (Done a, t).
Definition raise {A} (e : exn) : sql A := fun t => (Raised e, t).
Definition bind {A B} (m : sql A) (k : A -> sql B) : sql B :=
  fun t => match m t with
           | (Done a, t') => k a t'
           | (Raised e, t') => (Raised e, t')
           end.

Declare Scope sql_scope.
Delimit Scope sql_scope with sql.
Notation "x <- m ;; k" := (bind m (fun x => k))
  (at level 100, m at next level, right associativity) : sql_scope.
Notation "m ;; k" := (bind m (fun _ => k))
  (at level 100, right associativity) : sql_scope.

(** [IF c THEN RAISE EXCEPTION e; END IF;] *)
Definition raise_if (c : option bool) (e : exn) : sql unit :=
  if holds c then raise e else ret tt.

(** [EXISTS (SELECT 1 FROM public.profiles WHERE c)] *)
Definition exists_row (c : uuid -> profile -> option bool) : sql bool :=
  fun t => (Done (bool_decide (map_Exists (fun i p => holds (c i p) = true) t)), t).

(** [UPDATE public.profiles SET .. WHERE c RETURNING *]: every row the
    condition takes is rewritten by [set]; when [set] refuses one of
    them (NULL for a NOT NULL column) the statement fails and writes
    nothing.  The rows written are returned. *)
Definition update_where (c : uuid -> profile -> option bool)
    (set : profile -> option profile) : sql (list (uuid * profile)) :=
  fun t =>
    let written : table :=
      map_imap (fun i p => if holds (c i p) then set p else None) t in
    if bool_decide (map_Exists (fun i p => holds (c i p) = true /\ set p = None) t)
    then (Raised NotNullViolation, t)
    else (Done (map_to_list written), written ∪ t).

(** [.. INTO updated_profile]: NULL when no row comes back. *)
Definition into_row (rows : list (uuid * profile)) : sql (option (uuid * profile)) :=
  match rows with
  | [] => ret None
  | [row] => ret (Some row)
  | _ => raise TooManyRows
  end.

(** What [UPDATE .. WHERE id = i RETURNING * INTO ..] comes to on a table
    keyed by [id]: the row of key [i], if there is one, is rewritten and
    returned; none when [i] is NULL. *)
Definition update_by_id (i : option uuid) (f : profile -> profile)
  : sql (option (uuid * profile)) :=
  fun t => match i with
           | None => (Done None, t)
           | Some k =>
               match t !! k with
               | None => (Done None, t)
               | Some p => (Done (Some (k, f p)), <[k := f p]> t)
               end
           end.

(** What the caller of an RPC finds in the database afterwards: an
    exception rolls back whatever the function wrote. *)
Definition committed {A} (before : table) (r : res A * table) : table :=
  match r with
  | (Done _, t) => t
  | (Raised _, _) => before
  end.

Section Rpc.
(** [lower] is the database's, and depends on its locale outside
    ASCII. *)
Variable lower : text -> text.

Local Open Scope sql_scope.

(** [WHERE lower(username) = lower(new_username) AND id <> current_user_id] *)
Definition other_with_name (current_user_id : option uuid)
    (new_username : option text) (id : uuid) (p : profile) : option bool :=
  sql_and (sql_eq (lower <$> username p) (lower <$> new_username))
          (sql_ne (Some id) current_user_id).

(** add_update_username_rpc.sql, lines 27-67.  [auth_uid] is what
    [auth.uid()] returns, NULL without a session. *)
Definition update_username (auth_uid : option uuid)
    (new_username : option text) : sql (option (uuid * profile)) :=
  let current_user_id := auth_uid in
  raise_if (sql_lt (char_length <$> new_username) (Some 3)) UsernameTooShort ;;
  raise_if (sql_lt (Some 30) (char_length <$> new_username)) UsernameTooLong ;;
  raise_if (sql_not_match new_username) UsernameBadChars ;;
  taken <- exists_row (other_with_name current_user_id new_username) ;;
  raise_if (Some taken) UsernameTaken ;;
  rows <- update_where (fun id _ => sql_eq (Some id) current_user_id)
                       (fun p => Some (set_username new_username p)) ;;
  updated_profile <- into_row rows ;;
  ret updated_profile.

End Rpc.

(** The exceptions of the checks that do not read the table. *)
Definition format_exn (e : exn) : bool :=
  match e with
  | UsernameTooShort | UsernameTooLong | UsernameBadChars => true
  | _ => false
  end.

Local Open Scope sql_scope.

(** add_totp_related_profile_settings.sql, lines 46-61. *)
Definition set_totp_enabled (auth_uid : option uuid)
    (p_is_enabled : option bool) : sql unit :=
  rows <- update_where (fun id _ => sql_eq (Some id) auth_uid)
                       (fun p => (fun b => set_is_totp_enabled b p) <$> p_is_enabled) ;;
  let found := negb (bool_decide (rows = [])) in
  raise_if (Some (negb found)) ProfileNotFound ;;
  ret tt.

End Db.

(** ** Roles: the useAuth hook and the UserManagementPage gate *)

Module Auth.

(** What [useUser()] provides; [user] is the Supabase user (its id),
    [profile] the caller's row of [profiles] once loaded. *)
Record UserContext := {
  user : option Db.uuid;
  profile : option Db.profile;
  isLoadingAuth : bool;
}.

Record AuthInfo := {
  authUser : option Db.uuid;
  authProfile : option Db.profile;
  authIsLoading : bool;
  role : option text;
  isUser : bool;
  isModerator : bool;
  isAdmin : bool;
  isSuperAdmin : bool;
  canModerate : bool;     (* MODERATOR, ADMIN, SUPER_ADMIN *)
  canAdminister : bool;   (* ADMIN, SUPER_ADMIN *)
}.

(** [role === 'LITERAL'], false for null. *)
Definition role_is (r : option text) (literal : string) : bool :=
  bool_decide (r = Some (txt literal)).

(** hooks/useAuth, lines 20-49. *)
Definition useAuth (context : UserContext) : AuthInfo :=
  let role := profile context ≫= Db.role in   (* context.profile?.role ?? null *)
  let isUser := role_is role "USER" in
  let isModerator := role_is role "MODERATOR" in
  let isAdmin := role_is role "ADMIN" in
  let isSuperAdmin := role_is role "SUPER_ADMIN" in
  let canModerate := isModerator || isAdmin || isSuperAdmin in
  let canAdminister := isAdmin || isSuperAdmin in
  {| authUser := user context;
     authProfile := profile context;
     authIsLoading := isLoadingAuth context;
     role := role;
     isUser := isUser;
     isModerator := isModerator;
     isAdmin := isAdmin;
     isSuperAdmin := isSuperAdmin;
     canModerate := canModerate;
     canAdminister := canAdminister |}.

(** The outcome of UserManagementPage's effect on the same context. *)
Inductive gate := FetchUsers | AccessDenied | NotAuthenticated | AuthLoading | NoChange.

(** UserManagementPage, useEffect, lines 325-348. *)
Definition roleGate (context : UserContext) : gate :=
  match isLoadingAuth context, user context, profile context with
  | false, Some _, Some contextProfile =>
      if role_is (Db.role contextProfile) "admin"
         || role_is (Db.role contextProfile) "SUPER_ADMIN"
      then FetchUsers
      else AccessDenied
  | false, None, _ => NotAuthenticated
  | true, _, _ => AuthLoading
  | false, Some _, None => NoChange
  end.

End Auth.

(** ** Answers of the backend to the client's calls *)

Module Backend.

(** An error object of supabase-js: the fields the client reads. *)
Record js_error := JsError {
  message : option text;
  code : option text;
  status : option N;
  details : option text;
}.

(** What a call answers: [{ data, error: null }], or an error (returned
    as [{ error }] and re-thrown by the caller, or thrown). *)
Inductive answer (A : Type) :=
| Ok (data : A)
| Err (e : js_error).
Arguments Ok {A} data.
Arguments Err {A} e.

(** Where the client treats a returned error and a thrown one
    differently: [{ data, error: null }], [{ error }], or an exception. *)
Inductive reply (A : Type) :=
| Fine (data : A)
| Returned (e : js_error)
| Thrown (e : js_error).
Arguments Fine {A} data.
Arguments Returned {A} e.
Arguments Thrown {A} e.

(** A JavaScript string in a condition: null and the empty string are
    falsy. *)
Definition truthy (s : option text) : option text :=
  match s with
  | Some (c :: s') => Some (c :: s')
  | _ => None
  end.

(** [err.message || fallback] *)
Definition message_or (e : js_error) (fallback : string) : text :=
  match truthy (message e) with
  | Some m => m
  | None => txt fallback
  end.

End Backend.
Import Backend.

(** ** The TOTP setup dialog (TotpSetupDialog.tsx) *)

Module TotpSetupDialog.

(** ['enroll' | 'verify' | 'recoveryCodes' | 'completed'] *)
Inductive Step := Enroll | Verify | RecoveryCodes | Completed.

#[global] Instance Step_eq_dec : EqDecision Step.
Proof. solve_decision. Defined.

(** The component's state, with the [isOpen] prop that ProfilePage keeps
    in [isTotpSetupDialogOpen]. *)
Record state := State {
  isOpen : bool;
  isLoading : bool;
  error : option text;
  factorId : option text;
  qrCodeSvg : option text;
  secretKey : option text;
  verificationCode : text;
  step : Step;
  recoveryCodes : list text;
}.

Definition initial : state :=
  {| isOpen := false; isLoading := false; error := None; factorId := None;
     qrCodeSvg := None; secretKey := None; verificationCode := [];
     step := Enroll; recoveryCodes := [] |}.

Definition set_isOpen (v : bool) (s : state) : state :=
  State v (isLoading s) (error s) (factorId s) (qrCodeSvg s) (secretKey s)
        (verificationCode s) (step s) (recoveryCodes s).
Definition set_isLoading (v : bool) (s : state) : state :=
  State (isOpen s) v (error s) (factorId s) (qrCodeSvg s) (secretKey s)
        (verificationCode s) (step s) (recoveryCodes s).
Definition set_error (v : option text) (s : state) : state :=
  State (isOpen s) (isLoading s) v (factorId s) (qrCodeSvg s) (secretKey s)
        (verificationCode s) (step s) (recoveryCodes s).
Definition set_enrollment (id qr secret : option text) (s : state) : state :=
  State (isOpen s) (isLoading s) (error s) id qr secret
        (verificationCode s) (step s) (recoveryCodes s).
Definition set_verificationCode (v : text) (s : state) : state :=
  State (isOpen s) (isLoading s) (error s) (factorId s) (qrCodeSvg s)
        (secretKey s) v (step s) (recoveryCodes s).
Definition set_step (v : Step) (s : state) : state :=
  State (isOpen s) (isLoading s) (error s) (factorId s) (qrCodeSvg s)
        (secretKey s) (verificationCode s) v (recoveryCodes s).
Definition set_recoveryCodes (v : list text) (s : state) : state :=
  State (isOpen s) (isLoading s) (error s) (factorId s) (qrCodeSvg s)
        (secretKey s) (verificationCode s) (step s) v.

(** lines 63-72 *)
Definition resetDialogState (s : state) : state :=
  {| isOpen := isOpen s; isLoading := false; error := None; factorId := None;
     qrCodeSvg := None; secretKey := None; verificationCode := [];
     step := Enroll; recoveryCodes := [] |}.

Record EnrollResponseData := {
  enroll_id : text;
  qr_code : text;
  secret : text;
}.

Record VerifyResponseData := {
  recovery_codes : option (list text);
  totp_recovery_codes : option (list text);   (* totp?.recovery_codes *)
}.

(** [typedVerifyData.recovery_codes ||
     (typedVerifyData.totp && typedVerifyData.totp.recovery_codes)];
    an array, even an empty one, is truthy. *)
Definition codes_of (d : VerifyResponseData) : option (list text) :=
  match recovery_codes d with
  | Some l => Some l
  | None => totp_recovery_codes d
  end.

(** What the backend answers during one run of [handleVerifyCode]. *)
Record verify_answers := {
  challenge : answer text;                 (* challengeData.id *)
  verify : answer VerifyResponseData;
  rpc : reply unit;                        (* set_totp_enabled *)
  refresh : answer unit;                   (* refreshCurrentUserProfile *)
}.

Inductive toast := PartialError | Activated | ActivatedKeepCodes.

(** What a handler does to the outside, in order. *)
Inductive effect :=
| MfaEnroll
| MfaChallenge (factor : text)
| MfaVerify (factor challengeId code : text)
| RpcSetTotpEnabled (p_is_enabled : bool)
| RefreshCurrentUserProfile
| Toast (t : toast)
| OnSetupComplete
| OnOpenChange (open : bool).

(** ProfilePage wires both callbacks to [setIsTotpSetupDialogOpen]. *)
Definition onOpenChange (open : bool) (s : state) : state := set_isOpen open s.
Definition onSetupComplete (s : state) : state := set_isOpen false s.

(** The catch and finally blocks of both async handlers. *)
Definition caught (e : js_error) (fallback : string) (s : state) : state :=
  set_isLoading false (set_error (Some (message_or e fallback)) s).

(** The body of the effect, lines 74-103.  Each async handler is run to
    its end against the backend's answers. *)
Definition useEffect (a : answer EnrollResponseData) (s : state)
  : state * list effect :=
  if isOpen s && bool_decide (step s = Enroll) then
    let s := set_error None (set_isLoading true s) in
    match a with
    | Ok enrollData =>
        (set_isLoading false
           (set_step Verify
              (set_enrollment (Some (enroll_id enrollData))
                 (Some (qr_code enrollData)) (Some (secret enrollData)) s)),
         [MfaEnroll])
    | Err err =>
        (caught err "Échec de l'initialisation de la configuration A2F." s,
         [MfaEnroll])
    end
  else if negb (isOpen s) then
    if bool_decide (step s ≠ RecoveryCodes) && bool_decide (step s ≠ Completed)
    then (resetDialogState s, [])
    else (s, [])
  else (s, []).

(** lines 105-158 *)
Definition handleVerifyCode (a : verify_answers) (s : state)
  : state * list effect :=
  match truthy (factorId s), js_length (verificationCode s) =? 6 with
  | Some factor, true =>
      let code := verificationCode s in
      let s := set_error None (set_isLoading true s) in
      let fallback := "Code de vérification invalide ou expiré."%string in
      match challenge a with
      | Err err => (caught err fallback s, [MfaChallenge factor])
      | Ok challengeId =>
          let calls := [MfaChallenge factor; MfaVerify factor challengeId code] in
          match verify a with
          | Err err => (caught err fallback s, calls)
          | Ok verifyData =>
              let calls := calls ++ [RpcSetTotpEnabled true] in
              match rpc a with
              | Thrown err => (caught err fallback s, calls)
              | r =>
                  let calls :=
                    calls ++ (if r is Returned _ then [Toast PartialError] else [])
                          ++ [RefreshCurrentUserProfile] in
                  match refresh a with
                  | Err err => (caught err fallback s, calls)
                  | Ok _ =>
                      match codes_of verifyData with
                      | Some (c :: cs) =>
                          (set_isLoading false
                             (set_step RecoveryCodes
                                (set_recoveryCodes (c :: cs) s)),
                           calls)
                      | _ =>
                          (set_isLoading false
                             (onSetupComplete (set_step Completed s)),
                           calls ++ [Toast Activated; OnSetupComplete])
                      end
                  end
              end
          end
      end
  | _, _ =>
      (set_error (Some (txt "Veuillez entrer un code de vérification à 6 chiffres.")) s,
       [])
  end.

(** lines 160-165 *)
Definition handleRecoveryCodesSaved (s : state) : state * list effect :=
  (onOpenChange false (onSetupComplete (set_step Completed s)),
   [Toast ActivatedKeepCodes; OnSetupComplete; OnOpenChange false]).

(** The [onOpenChange] given to [Dialog], lines 294-302. *)
Definition dialogOnOpenChange (open : bool) (s : state) : state * list effect :=
  let s := if negb open && bool_decide (step s ≠ Completed)
           then resetDialogState s else s in
  (onOpenChange open s, [OnOpenChange open]).

(** The input's [onChange], line 204: [\s] is stripped. *)
Definition onChangeCode (value : text) (s : state) : state :=
  set_verificationCode (filter (fun c => is_space c = false) value) s.

(** *** What is rendered *)

Inductive content :=
| Spinner
| VerifyForm (qr secret code : text)
| RecoveryCodesView (codes : list text)
| ErrorBox (msg : text)
| Nothing.

(** lines 174-255 *)
Definition renderContent (s : state) : content :=
  if isLoading s && bool_decide (step s = Enroll) then Spinner
  else match bool_decide (step s = Verify), truthy (qrCodeSvg s), truthy (secretKey s) with
  | true, Some qr, Some key => VerifyForm qr key (verificationCode s)
  | _, _, _ =>
      if bool_decide (step s = RecoveryCodes) && (0 <? length (recoveryCodes s))%nat
      then RecoveryCodesView (recoveryCodes s)
      else match truthy (error s) with
           | Some msg => ErrorBox msg
           | None => Nothing
           end
  end.

Inductive footer :=
| VerifyFooter (verifyDisabled : bool)   (* Annuler, Vérifier et Activer *)
| SavedFooter                            (* J'ai sauvegardé mes codes *)
| CloseFooter                            (* Fermer *)
| NoFooter.

(** lines 257-291 *)
Definition renderFooter (s : state) : footer :=
  if bool_decide (step s = Verify)
  then VerifyFooter (isLoading s || negb (js_length (verificationCode s) =? 6))
  else if bool_decide (step s = RecoveryCodes) then SavedFooter
  else if bool_decide (is_Some (truthy (error s)))
          && bool_decide (step s ≠ RecoveryCodes)
  then CloseFooter
  else NoFooter.

(** The recovery codes on screen: the dialog's content is mounted only
    while it is open. *)
Definition displayed_codes (s : state) : option (list text) :=
  if isOpen s then
    match renderContent s with
    | RecoveryCodesView codes => Some codes
    | _ => None
    end
  else None.

(** *** The dialog as a transition system *)

(** Here an event carries the answers to the requests its handler makes,
    and the handler runs to its end: these are the runs in which no event
    comes between a request and its answer (the serial runs of
    [Interleaving], where the requests in flight are kept). *)

Inductive event :=
| OpenDialog                                (* ProfilePage: Activer l'A2F *)
| RunEffect (a : answer EnrollResponseData) (* React runs the effect *)
| TypeCode (value : text)
| ClickVerify (a : verify_answers)
| ClickCancel
| ClickSaved
| ClickClose
| DialogOpenChange (open : bool).           (* Escape, overlay, close icon *)

(** The events the rendered dialog offers. *)
Definition enabled (s : state) (ev : event) : bool :=
  match ev with
  | OpenDialog | RunEffect _ => true
  | TypeCode _ =>
      isOpen s && (if renderContent s is VerifyForm _ _ _ then true else false)
  | ClickVerify _ =>
      isOpen s && (if renderFooter s is VerifyFooter false then true else false)
  | ClickCancel =>
      isOpen s && (if renderFooter s is VerifyFooter _ then true else false)
  | ClickSaved =>
      isOpen s && (if renderFooter s is SavedFooter then true else false)
  | ClickClose =>
      isOpen s && (if renderFooter s is CloseFooter then true else false)
  | DialogOpenChange _ => isOpen s
  end.

Definition handle (ev : event) (s : state) : state * list effect :=
  match ev with
  | OpenDialog => (onOpenChange true s, [])
  | RunEffect a => useEffect a s
  | TypeCode value => (onChangeCode value s, [])
  | ClickVerify a => handleVerifyCode a s
  | ClickCancel =>
      (* the button's onClick, then DialogClose closes the dialog *)
      let s := onOpenChange false s in
      let '(s, effs) := dialogOnOpenChange false s in
      (s, OnOpenChange false :: effs)
  | ClickSaved => handleRecoveryCodesSaved s
  | ClickClose =>
      let s := onOpenChange false (resetDialogState s) in
      let '(s, effs) := dialogOnOpenChange false s in
      (s, OnOpenChange false :: effs)
  | DialogOpenChange open => dialogOnOpenChange open s
  end.

(** The states of the dialog after the events [evs], oldest first, every
    event offered when it happens. *)
Inductive run : list event -> state -> Prop :=
| run_nil : run [] initial
| run_snoc evs s ev :
    run evs s -> enabled s ev = true -> run (evs ++ [ev]) (handle ev s).1.

(** A verification that succeeded and yielded the codes [l]. *)
Definition verified_with (a : verify_answers) (l : list text) : Prop :=
  exists challengeId d,
    challenge a = Ok challengeId /\ verify a = Ok d /\ codes_of d = Some l.

(** A verification that failed: the challenge or the verification
    answered with an error. *)
Definition verification_failed (a : verify_answers) : Prop :=
  (exists e, challenge a = Err e) \/ (exists e, verify a = Err e).

(** The code goes to the provider as typed; everything else the handler
    does is kept. *)
Definition redact (e : effect) : effect :=
  match e with
  | MfaVerify f c _ => MfaVerify f c []
  | e => e
  end.

(** What typing [value] into the form of the state [s] and clicking
    Vérifier comes to: the state it leaves, the typed code cleared, and
    what it did, the code it passed on left out. *)
Definition outcome (a : verify_answers) (s : state) (value : text)
  : state * list effect :=
  let r := handleVerifyCode a (onChangeCode value s) in
  (set_verificationCode [] r.1, map redact r.2).

(** Exactly 6 characters once whitespace is stripped. *)
Definition six_after_stripping (value : text) : Prop :=
  js_length (filter (fun c => is_space c = false) value) = 6.

(** A verification that succeeded and yielded no recovery codes. *)
Definition verified_without_codes (a : verify_answers) : Prop :=
  exists challengeId d,
    challenge a = Ok challengeId /\ verify a = Ok d
    /\ (codes_of d = None \/ codes_of d = Some []).

(** The events that close the dialog: Annuler, Fermer, the dialog's own
    close request, and the effect that runs once it is closed. *)
Definition closing (s : state) (ev : event) : Prop :=
  ev = ClickCancel \/ ev = ClickClose \/ ev = DialogOpenChange false
  \/ (isOpen s = false /\ exists a, ev = RunEffect a).

(** The transitions of the step, as the specification lists them. *)
Inductive listed (s : state) : event -> Step -> Prop :=
| listed_enrolled d :
    step s = Enroll -> listed s (RunEffect (Ok d)) Verify
| listed_verified a l :
    step s = Verify -> verified_with a l -> l <> [] ->
    listed s (ClickVerify a) RecoveryCodes
| listed_verified_no_codes a :
    step s = Verify -> verified_without_codes a ->
    listed s (ClickVerify a) Completed
| listed_saved :
    step s = RecoveryCodes -> listed s ClickSaved Completed
| listed_closed ev :
    step s <> Completed -> closing s ev -> listed s ev Enroll.

End TotpSetupDialog.

(** ** Disabling TOTP (ProfilePage, handleDisableTotp) *)

Module ProfilePage.

Record state := State {
  isDisablingTotp : bool;
  totpCodeForDisable : text;
}.

Record factor := {
  factor_id : text;
  factor_status : text;
}.

(** What the backend answers during one run of [handleDisableTotp]. *)
Record disable_answers := {
  listFactors : answer (list factor);      (* factorsData.totp *)
  challengeAndVerify : reply unit;
  unenroll : answer unit;
  rpc : reply unit;                        (* set_totp_enabled *)
  refresh : answer unit;                   (* refreshCurrentUserProfile *)
}.

Inductive toast :=
| EnterCode          (* Veuillez entrer votre code A2F actuel. *)
| NoActiveFactor     (* Aucun facteur A2F (TOTP) actif trouvé. *)
| InvalidCode        (* Code A2F invalide *)
| SecurityError      (* Erreur de sécurité *)
| Failure (msg : text)
| PartiallyDisabled  (* Erreur partielle *)
| Disabled.          (* Succès *)

Inductive effect :=
| MfaListFactors
| MfaChallengeAndVerify (factor code : text)
| MfaUnenroll (factor : text)
| RpcSetTotpEnabled (p_is_enabled : bool)
| RefreshCurrentUserProfile
| Toast (t : toast).

Fixpoint drop_spaces (s : text) : text :=
  match s with
  | [] => []
  | c :: s' => if is_space c then drop_spaces s' else s
  end.

(** [s.trim()] *)
Definition trim (s : text) : text :=
  reverse (drop_spaces (reverse (drop_spaces s))).

(** [!s.trim()] *)
Definition blank (s : text) : bool :=
  if trim s is [] then true else false.

(** The input's [onChange], line 868: only digits, at most 6. *)
Definition onChangeCode (value : text) (s : state) : state :=
  {| isDisablingTotp := isDisablingTotp s;
     totpCodeForDisable := take 6 (filter (fun c => is_digit c = true) value) |}.

(** The catch block, lines 743-751. *)
Definition caught (err : js_error) : effect :=
  match truthy (message err) with
  | Some m =>
      if includes m (txt "AAL2 required") then Toast SecurityError
      else if includes (js_toLowerCase m) (txt "invalid totp code")
              || includes (js_toLowerCase m) (txt "verification failed")
              || bool_decide (code err = Some (txt "invalid_mfa_code"))
      then Toast InvalidCode
      else Toast (Failure m)
  | None => Toast (Failure (txt "Échec de la désactivation de l'A2F."))
  end.

(** The finally block (also the two early returns inside the try). *)
Definition done_ (s : state) : state :=
  {| isDisablingTotp := false; totpCodeForDisable := [] |}.

(** lines 689-756 *)
Definition handleDisableTotp (a : disable_answers) (s : state)
  : state * list effect :=
  if blank (totpCodeForDisable s) then (s, [Toast EnterCode])
  else
    let code := totpCodeForDisable s in
    match listFactors a with
    | Err err => (done_ s, [MfaListFactors; caught err])
    | Ok factors =>
        match List.find (fun f => bool_decide (factor_status f = txt "verified")) factors with
        | None =>
            let effs := [MfaListFactors; Toast NoActiveFactor; RpcSetTotpEnabled false] in
            match rpc a with
            | Thrown err => (done_ s, effs ++ [caught err])
            | _ =>
                match refresh a with
                | Err err => (done_ s, effs ++ [RefreshCurrentUserProfile; caught err])
                | Ok _ => (done_ s, effs ++ [RefreshCurrentUserProfile])
                end
            end
        | Some totpFactor =>
            let effs := [MfaListFactors; MfaChallengeAndVerify (factor_id totpFactor) code] in
            match challengeAndVerify a with
            | Thrown err => (done_ s, effs ++ [caught err])
            | Returned _ => (done_ s, effs ++ [Toast InvalidCode])
            | Fine _ =>
                let effs := effs ++ [MfaUnenroll (factor_id totpFactor)] in
                match unenroll a with
                | Err err => (done_ s, effs ++ [caught err])
                | Ok _ =>
                    let effs := effs ++ [RpcSetTotpEnabled false] in
                    match rpc a with
                    | Thrown err => (done_ s, effs ++ [caught err])
                    | r =>
                        let effs :=
                          effs ++ [Toast (if r is Returned _ then PartiallyDisabled else Disabled);
                                   RefreshCurrentUserProfile] in
                        match refresh a with
                        | Err err => (done_ s, effs ++ [caught err])
                        | Ok _ => (done_ s, effs)
                        end
                    end
                end
            end
        end
    end.

(** The code goes to the provider as typed; everything else the handler
    does is kept. *)
Definition redact (e : effect) : effect :=
  match e with
  | MfaChallengeAndVerify f _ => MfaChallengeAndVerify f []
  | e => e
  end.

(** What a run of [handleDisableTotp] on the code [c] comes to: the
    state it leaves, and what it did, the code it passed on left out. *)
Definition outcome (a : disable_answers) (c : text) : state * list effect :=
  let r := handleDisableTotp a {| isDisablingTotp := false; totpCodeForDisable := c |} in
  (r.1, map redact r.2).

(** The shape the input lets through: at most 6 digits. *)
Definition at_most_6_digits (c : text) : Prop :=
  (length c <= 6)%nat /\ Forall (fun d => is_digit d = true) c.

End ProfilePage.

(** ** The create-user Edge Function *)

Module CreateUser.

(** [CreateUserPayload]; a field left out of the JSON is [None]. *)
Record payload := {
  email : option text;
  password : option text;
  full_name : option text;
  username : option text;
  role : option text;
}.

Record request := {
  method : text;
  json : option payload;    (* None: the body is not JSON *)
                            (* the JSON value null: [EdgeFunction.handler] *)
}.

Record env := {
  supabaseUrl : option text;
  serviceRoleKey : option text;
}.

(** What the backend answers to the function's calls. *)
Record answers := {
  createUser : reply (option Db.uuid);     (* authUserResponse?.user?.id *)
  updateUserById : answer unit;
  profileUpdate : answer unit;             (* { error: profileError } *)
}.

(** The admin calls of the backend, with the one the function never
    makes. *)
Inductive call :=
| AuthAdminCreateUser (email password : text)
| AuthAdminUpdateUserById (id : Db.uuid)
| AuthAdminDeleteUser (id : Db.uuid)
| ProfilesUpdate (id : Db.uuid) (full_name username role status : text).

Inductive error_message :=
| ServerConfiguration
| InvalidJson
| MissingFields
| AuthError (msg : option text)
| EmailInUse
| PasswordTooShort
| NoUserObject
| ProfileUpdateFailed (msg : option text)
| ProfileUsernameTaken
| ProfileEmailTaken
| ProfileUniqueTaken
| ProfileUsernameTakenByMessage
| ProfileEmailTakenByMessage
| ProfileUpdateCode (msg : option text) (code : text)
| InternalServerError (msg : option text)
| StatusRefused (status : N).   (* Internal server error: the error of new Response *)

Inductive body :=
| PlainOk                                  (* 'ok' *)
| ErrorJson (error : error_message)        (* { error, details } *)
| CreatedJson (userId : Db.uuid).          (* { message, userId } *)

Record response := Response {
  body_ : body;
  status_ : N;
}.

(** [err.message?.toLowerCase().includes(needle)] *)
Definition lower_includes (s : option text) (needle : string) : bool :=
  match s with
  | Some m => includes (js_toLowerCase m) (txt needle)
  | None => false
  end.

(** [n || fallback]: 0 is falsy. *)
Definition status_or (n : option N) (fallback : N) : N :=
  match n with
  | Some 0 | None => fallback
  | Some k => k
  end.

(** [new Response(body, { status })] with a status taken from an error
    object.  The status is converted to an unsigned short; the constructor
    throws for a status outside 200..599 and, the body being a string, for
    the null body statuses 204, 205 and 304.  Both uses are inside the
    [try] block of l.135, whose [catch] then answers (l.249-254). *)
Definition respond (b : body) (status : N) : response :=
  let status := status mod 65536 in
  if in_range 200 599 status
     && negb ((status =? 204) || (status =? 205) || (status =? 304))
  then Response b status
  else Response (ErrorJson (StatusRefused status)) 500.

(** lines 150-166 *)
Definition authErrorResponse (authError : js_error) : response :=
  if lower_includes (message authError) "unique constraint"
     && lower_includes (message authError) "email"
  then Response (ErrorJson EmailInUse) 409
  else if lower_includes (message authError) "password should be at least 6 characters"
  then Response (ErrorJson PasswordTooShort) 400
  else respond (ErrorJson (AuthError (message authError)))
               (status_or (status authError) 400).

(** lines 207-241 *)
Definition profileErrorResponse (err : js_error) : response :=
  if bool_decide (code err = Some (txt "23505")) then
    if lower_includes (message err) "profiles_username_key"
       || lower_includes (details err) "username"
    then Response (ErrorJson ProfileUsernameTaken) 409
    else if lower_includes (message err) "profiles_email_key"
            || lower_includes (details err) "email"
    then Response (ErrorJson ProfileEmailTaken) 409
    else Response (ErrorJson ProfileUniqueTaken) 409
  else if lower_includes (message err) "unique constraint"
          && (lower_includes (message err) "profiles_username_key"
              || lower_includes (message err) "username")
  then Response (ErrorJson ProfileUsernameTakenByMessage) 409
  else if lower_includes (message err) "unique constraint"
          && (lower_includes (message err) "profiles_email_key"
              || lower_includes (message err) "email")
  then Response (ErrorJson ProfileEmailTakenByMessage) 409
  else match truthy (code err) with
       | Some c => respond (ErrorJson (ProfileUpdateCode (message err) c))
                           (status_or (status err) 500)
       | None => Response (ErrorJson (ProfileUpdateFailed (message err))) 500
       end.

(** The handler given to [serve], lines 101-256: the response and the
    admin calls made, in order.  The body is not the JSON value null, for
    which the handler returns no response ([EdgeFunction.handler]). *)
Definition serve (e : env) (a : answers) (req : request) : response * list call :=
  if bool_decide (method req = txt "OPTIONS") then (Response PlainOk 200, [])
  else match truthy (supabaseUrl e), truthy (serviceRoleKey e) with
  | Some _, Some _ =>
      match json req with
      | None => (Response (ErrorJson InvalidJson) 400, [])
      | Some p =>
          match truthy (email p), truthy (password p), truthy (full_name p),
                truthy (username p), truthy (role p) with
          | Some email, Some password, Some full_name, Some username, Some role =>
              let calls := [AuthAdminCreateUser email password] in
              match createUser a with
              | Thrown err => (Response (ErrorJson (InternalServerError (message err))) 500, calls)
              | Returned authError => (authErrorResponse authError, calls)
              | Fine None => (Response (ErrorJson NoUserObject) 500, calls)
              | Fine (Some newUserId) =>
                  let calls :=
                    calls ++ [AuthAdminUpdateUserById newUserId;
                              ProfilesUpdate newUserId full_name username role (txt "approved")] in
                  match profileUpdate a with
                  | Err profileError => (profileErrorResponse profileError, calls)
                  | Ok _ => (Response (CreatedJson newUserId) 201, calls)
                  end
              end
          | _, _, _, _, _ => (Response (ErrorJson MissingFields) 400, [])
          end
      end
  | _, _ => (Response (ErrorJson ServerConfiguration) 500, [])
  end.




End CreateUser.

(** ** The username rules as the specification words them *)

Module Rules.
Import Db.

Section Rules.
Variable lower : text -> text.

(** Some profile of a different user has this username, letter case
    ignored. *)
Definition taken_by_other (t : table) (uid : uuid) (s : text) : Prop :=
  exists id p u,
    id <> uid /\ t !! id = Some p /\ username p = Some u /\ lower u = lower s.

(** Fewer than 3 characters, more than 30, a character outside
    a-z, A-Z, 0-9, underscore and dot, or taken by another user. *)
Definition rejected (t : table) (uid : uuid) (s : text) : Prop :=
  (length s < 3)%nat \/ (30 < length s)%nat
  \/ (exists c, c ∈ s /\ username_char c = false)
  \/ taken_by_other t uid s.

(** Length at least 3, at most 30, and only characters of the class. *)
Definition well_formed (s : text) : Prop :=
  (3 <= length s)%nat /\ (length s <= 30)%nat
  /\ Forall (fun c => username_char c = true) s.

(** All usernames are pairwise distinct, letter case ignored. *)
Definition unique_ci (t : table) : Prop :=
  forall i j p q u v,
    i <> j -> t !! i = Some p -> t !! j = Some q ->
    username p = Some u -> username q = Some v -> lower u <> lower v.

(** The same, as a test. *)
Definition clash (p q : profile) : bool :=
  match username p, username q with
  | Some u, Some v => bool_decide (lower u = lower v)
  | _, _ => false
  end.

Definition unique_cib (t : table) : bool :=
  bool_decide
    (map_Forall (fun i p =>
       map_Forall (fun j q => i = j \/ clash p q = false) t) t).
End Rules.

(** Two rows that differ at most in [username], at most in
    [is_totp_enabled]. *)
Definition same_but_username (p p' : profile) : Prop :=
  email p' = email p /\ full_name p' = full_name p /\ avatar_url p' = avatar_url p
  /\ status p' = status p /\ role p' = role p
  /\ is_totp_enabled p' = is_totp_enabled p.

Definition same_but_totp (p p' : profile) : Prop :=
  email p' = email p /\ username p' = username p /\ full_name p' = full_name p
  /\ avatar_url p' = avatar_url p /\ status p' = status p /\ role p' = role p.

End Rules.

(** ** Sample data *)

Module Samples.
Import Db.

Definition named (name : string) (totp : bool) : profile :=
  Profile None (Some (txt name)) None None None None totp.

Definition with_role (r : string) : profile :=
  Profile None (Some (txt "bob")) None None None (Some (txt r)) false.

(** The context of a signed-in user whose profile is loaded. *)
Definition signed_in (p : profile) : Auth.UserContext :=
  {| Auth.user := Some 1; Auth.profile := Some p; Auth.isLoadingAuth := false |}.

Definition enrollment : TotpSetupDialog.EnrollResponseData :=
  {| TotpSetupDialog.enroll_id := txt "factor-1";
     TotpSetupDialog.qr_code := txt "<svg/>";
     TotpSetupDialog.secret := txt "JBSWY3DPEHPK3PXP" |}.

Definition codes : list text := [txt "aaaa1111"; txt "bbbb2222"].

(** A verification that goes through and yields [codes]. *)
Definition verified : TotpSetupDialog.verify_answers :=
  {| TotpSetupDialog.challenge := Ok (txt "challenge-1");
     TotpSetupDialog.verify :=
       Ok {| TotpSetupDialog.recovery_codes := Some codes;
             TotpSetupDialog.totp_recovery_codes := None |};
     TotpSetupDialog.rpc := Fine tt;
     TotpSetupDialog.refresh := Ok tt |}.

(** The dialog opened, enrolled, and a code typed. *)
Definition setup_events : list TotpSetupDialog.event :=
  [TotpSetupDialog.OpenDialog;
   TotpSetupDialog.RunEffect (Ok enrollment);
   TotpSetupDialog.TypeCode (txt "123 456")].

Definition after (evs : list TotpSetupDialog.event) : TotpSetupDialog.state :=
  foldl (fun s ev => (TotpSetupDialog.handle ev s).1) TotpSetupDialog.initial evs.

(** Every event of [evs] is offered when it happens, from [s] on. *)
Fixpoint offered (s : TotpSetupDialog.state) (evs : list TotpSetupDialog.event) : bool :=
  match evs with
  | [] => true
  | ev :: evs' =>
      TotpSetupDialog.enabled s ev && offered (TotpSetupDialog.handle ev s).1 evs'
  end.

(** The answers to a disabling that goes through. *)
Definition disabled : ProfilePage.disable_answers :=
  {| ProfilePage.listFactors :=
       Ok [{| ProfilePage.factor_id := txt "factor-1";
              ProfilePage.factor_status := txt "verified" |}];
     ProfilePage.challengeAndVerify := Fine tt;
     ProfilePage.unenroll := Ok tt;
     ProfilePage.rpc := Fine tt;
     ProfilePage.refresh := Ok tt |}.

Definition function_env : CreateUser.env :=
  {| CreateUser.supabaseUrl := Some (txt "https://project.supabase.co");
     CreateUser.serviceRoleKey := Some (txt "service-role-key") |}.



(** bob and Alice. *)
Definition two_users : table :=
  <[1 := named "bob" false]> (<[2 := named "Alice" true]> ∅).

(** bob and Bob: rows the create-user function can write, its check
    being the column's UNIQUE constraint. *)
Definition bob_and_Bob : table :=
  <[1 := named "bob" false]> (<[2 := named "Bob" false]> ∅).

End Samples.

(** ** The phone number RPC (add_phone_number_to_profiles.sql) *)

Module Phone.
Import Db.

(** A row of [public.profiles] while the column [phone_number] exists:
    between this migration and remove_phone_number_feature.sql. *)
Record row := Row {
  base : profile;
  phone_number : option text;
}.

Definition set_phone_number (v : option text) (r : row) : row :=
  {| base := base r; phone_number := v |}.

Fixpoint drop_blanks (s : text) : text :=
  match s with
  | [] => []
  | c :: s' => if c =? 32 then drop_blanks s' else s
  end.

(** PostgreSQL's [trim(text)]: spaces, and only spaces, go from both
    ends. *)
Definition trim (s : text) : text :=
  reverse (drop_blanks (reverse (drop_blanks s))).

(** [v_cleaned_phone_number], lines 52-57. *)
Definition cleaned (p_new_phone_number : option text) : option text :=
  match p_new_phone_number with
  | None => None
  | Some s => if bool_decide (trim s = []) then None else Some (trim s)
  end.

(** add_phone_number_to_profiles.sql, lines 44-66: the result, and the
    table as the statements have left it. *)
Definition update_phone_number (auth_uid : option uuid)
    (p_new_phone_number : option text) (t : gmap N row) : res unit * gmap N row :=
  let v_cleaned_phone_number := cleaned p_new_phone_number in
  let taken i := holds (sql_eq (Some i) auth_uid) in
  let written : gmap N row :=
    map_imap (fun i r => if taken i
                         then Some (set_phone_number v_cleaned_phone_number r)
                         else None) t in
  let found := bool_decide (map_Exists (fun i _ => taken i = true) t) in
  if found then (Done tt, written ∪ t) else (Raised ProfileNotFound, written ∪ t).

End Phone.

(** ** Submitting the username form (UsernameEditForm.tsx, onSubmit) *)

Module UsernameForm.

Inductive toast :=
| Unchanged                  (* Le nom d'utilisateur n'a pas changé. *)
| UpdateError (msg : text)   (* Erreur de mise à jour *)
| Updated                    (* Votre nom d'utilisateur a été mis à jour. *)
| Unexpected.                (* Erreur Inattendue *)

Inductive effect :=
| ShowIssue (first : UsernameEditForm.issue)   (* FormMessage: the field's first issue *)
| Toast (t : toast)
| OnCancel
| RpcUpdateUsername (new_username : text)
| RefreshCurrentUserProfile
| OnSaveSuccess (newUsername : text).

Record answers := {
  rpc : reply unit;          (* update_username *)
  refresh : answer unit;     (* refreshCurrentUserProfile *)
}.

(** lines 37-69: [isSubmitting] at the end, and what was done. *)
Definition onSubmit (currentUsername : text) (a : answers) (isSubmitting : bool)
    (username : text) : bool * list effect :=
  if bool_decide (username = currentUsername)
  then (isSubmitting, [Toast Unchanged; OnCancel])
  else
    match rpc a with
    | Thrown _ => (false, [RpcUpdateUsername username; Toast Unexpected])
    | Returned error =>
        (false, [RpcUpdateUsername username;
                 Toast (UpdateError
                          (message_or error "Échec de la mise à jour du nom d'utilisateur."))])
    | Fine _ =>
        match refresh a with
        | Err _ =>
            (false, [RpcUpdateUsername username; Toast Updated;
                     RefreshCurrentUserProfile; Toast Unexpected])
        | Ok _ =>
            (false, [RpcUpdateUsername username; Toast Updated;
                     RefreshCurrentUserProfile; OnSaveSuccess username])
        end
    end.

(** [form.handleSubmit(onSubmit)]: the resolver runs the schema first; of
    the issues of a field the form keeps the first. *)
Definition handleSubmit (currentUsername : text) (a : answers) (isSubmitting : bool)
    (username : text) : bool * list effect :=
  match UsernameEditForm.usernameFormSchema username with
  | [] => onSubmit currentUsername a isSubmitting username
  | first :: _ => (isSubmitting, [ShowIssue first])
  end.

(** The usernames sent to the server during a run, in order. *)
Definition rpc_calls (effs : list effect) : list text :=
  omap (fun e => if e is RpcUpdateUsername v then Some v else None) effs.

(** What the database makes of the calls of a run, each RPC a transaction
    of the caller [uid]. *)
Definition apply_effects (lower : text -> text) (uid : option Db.uuid)
    (effs : list effect) (t : Db.table) : Db.table :=
  foldl (fun t e =>
           match e with
           | RpcUpdateUsername v => Db.committed t (Db.update_username lower uid (Some v) t)
           | _ => t
           end) t effs.

(** The answer of [supabase.rpc] when the database is the one that
    answers: the exception comes back as the returned error. *)
Definition answered_by (lower : text -> text) (uid : option Db.uuid)
    (t : Db.table) (username : text) (r : reply unit) : Prop :=
  match (Db.update_username lower uid (Some username) t).1 with
  | Db.Done _ => r = Fine tt
  | Db.Raised _ => exists e, r = Returned e
  end.

End UsernameForm.

(** ** The admin page (UserManagementPage) *)

Module UserManagementPage.

(** [UserProfile], lines 277-286. *)
Record UserProfile := {
  id : Db.uuid;
  email : option text;
  created_at : option text;
  username : option text;
  full_name : option text;
  avatar_url : option text;
  status : option text;
  role : option text;
}.

Record state := State {
  users : list UserProfile;
  isLoading : bool;
  error : option text;
  isEditUserDialogOpen : bool;
  selectedUserForEdit : option UserProfile;
  currentAdminUserId : option Db.uuid;
}.

Definition initial : state :=
  {| users := []; isLoading := true; error := None;
     isEditUserDialogOpen := false; selectedUserForEdit := None;
     currentAdminUserId := None |}.

Definition set_users (v : list UserProfile) (s : state) : state :=
  State v (isLoading s) (error s) (isEditUserDialogOpen s)
        (selectedUserForEdit s) (currentAdminUserId s).
Definition set_isLoading (v : bool) (s : state) : state :=
  State (users s) v (error s) (isEditUserDialogOpen s)
        (selectedUserForEdit s) (currentAdminUserId s).
Definition set_error (v : option text) (s : state) : state :=
  State (users s) (isLoading s) v (isEditUserDialogOpen s)
        (selectedUserForEdit s) (currentAdminUserId s).
Definition set_currentAdminUserId (v : option Db.uuid) (s : state) : state :=
  State (users s) (isLoading s) (error s) (isEditUserDialogOpen s)
        (selectedUserForEdit s) v.

Inductive toast :=
| LoadError (msg : text)     (* Erreur de chargement des utilisateurs *)
| Approved                   (* Utilisateur approuvé. *)
| RoleChanged (r : text)     (* Rôle de l'utilisateur mis à jour en .. *)
| NoRole                     (* Nouveau rôle non spécifié. *)
| NotAllowed                 (* Action non autorisée *)
| Deleted                    (* Utilisateur .. supprimé. *)
| Failed (msg : text).       (* Erreur *)

(** What a handler does to the outside, in order. *)
Inductive effect :=
| RpcGetAllUserDetails
| ProfilesUpdateStatus (userId : Db.uuid) (status : text)
| ProfilesUpdateRole (userId : Db.uuid) (role : text)
| Confirm                                            (* window.confirm *)
| InvokeDeleteUserAdmin (userIdToDelete : Db.uuid)
| Toast (t : toast).

(** [fetchUsers], lines 299-323; [data] may be null. *)
Definition fetchUsers (a : answer (option (list UserProfile))) (s : state)
  : state * list effect :=
  let s := set_error None (set_isLoading true s) in
  match a with
  | Ok data => (set_isLoading false (set_users (default [] data) s),
                [RpcGetAllUserDetails])
  | Err err =>
      let errorMessage :=
        message_or err "Erreur lors de la récupération de la liste des utilisateurs." in
      (set_isLoading false (set_error (Some errorMessage) s),
       [RpcGetAllUserDetails; Toast (LoadError errorMessage)])
  end.

(** The effect, lines 325-348. *)
Definition useEffect (context : Auth.UserContext)
    (a : answer (option (list UserProfile))) (s : state) : state * list effect :=
  match Auth.isLoadingAuth context, Auth.user context, Auth.profile context with
  | false, Some contextUser, Some contextProfile =>
      let s := set_currentAdminUserId (Some contextUser) s in
      if Auth.role_is (Db.role contextProfile) "admin"
         || Auth.role_is (Db.role contextProfile) "SUPER_ADMIN"
      then fetchUsers a s
      else (set_users []
              (set_isLoading false
                 (set_error
                    (Some (txt "Accès refusé. Vous n'avez pas les permissions nécessaires pour voir cette page."))
                    s)), [])
  | false, None, _ =>
      (set_users []
         (set_isLoading false
            (set_error (Some (txt "Veuillez vous connecter pour accéder à cette page.")) s)),
       [])
  | true, _, _ => (set_isLoading true s, [])
  | false, Some _, None => (s, [])
  end.

(** [handleApproveUser], lines 377-389. *)
Definition handleApproveUser (userId : Db.uuid) (update : answer unit)
    (fetch : answer (option (list UserProfile))) (s : state) : state * list effect :=
  match update with
  | Ok _ =>
      let '(s', effs) := fetchUsers fetch s in
      (s', [ProfilesUpdateStatus userId (txt "approved"); Toast Approved] ++ effs)
  | Err err =>
      (s, [ProfilesUpdateStatus userId (txt "approved");
           Toast (Failed (message_or err "Impossible d'approuver l'utilisateur."))])
  end.

(** [handleChangeRole], lines 391-418. *)
Definition handleChangeRole (context : Auth.UserContext) (userId : Db.uuid)
    (newRole : option text) (update : answer unit)
    (fetch : answer (option (list UserProfile))) (s : state) : state * list effect :=
  match truthy newRole with
  | None => (s, [Toast NoRole])
  | Some newRole =>
      if bool_decide (Some userId = currentAdminUserId s)
         && Auth.role_is (Auth.profile context ≫= Db.role) "admin"
         && negb (bool_decide (newRole = txt "admin"))
      then (s, [Toast NotAllowed])
      else
        match update with
        | Ok _ =>
            let '(s', effs) := fetchUsers fetch s in
            (s', [ProfilesUpdateRole userId newRole; Toast (RoleChanged newRole)] ++ effs)
        | Err err =>
            (s, [ProfilesUpdateRole userId newRole;
                 Toast (Failed (message_or err "Impossible de changer le rôle."))])
        end
  end.

(** [handleDeleteUser], lines 420-445; [confirmed] is what
    [window.confirm] answers. *)
Definition handleDeleteUser (userId : Db.uuid) (confirmed : bool)
    (invoke : answer unit) (fetch : answer (option (list UserProfile)))
    (s : state) : state * list effect :=
  if bool_decide (currentAdminUserId s = Some userId) then (s, [Toast NotAllowed])
  else if negb confirmed then (s, [Confirm])
  else
    match invoke with
    | Ok _ =>
        let '(s', effs) := fetchUsers fetch s in
        (s', [Confirm; InvokeDeleteUserAdmin userId; Toast Deleted] ++ effs)
    | Err err =>
        (s, [Confirm; InvokeDeleteUserAdmin userId;
             Toast (Failed (message_or err "Impossible de supprimer l'utilisateur."))])
    end.

(** *** What is rendered *)

Inductive view :=
| Loader                              (* Chargement des utilisateurs... *)
| ErrorText (msg : text)
| Page (rows : list UserProfile).

(** lines 452-463 and 465 *)
Definition render (context : Auth.UserContext) (s : state) : view :=
  if Auth.isLoadingAuth context
     || (isLoading s && bool_decide (users s = []) && negb (bool_decide (is_Some (truthy (error s)))))
  then Loader
  else match truthy (error s) with
       | Some msg => ErrorText msg
       | None => Page (users s)
       end.

(** [v === 'literal'], false for null. *)
Definition is_literal (v : option text) (literal : string) : bool :=
  bool_decide (v = Some (txt literal)).

(** The items of a row's menu. *)
Inductive item := Edit | Approve | MakeModerator | MakeAdmin | MakeUser | Delete.

(** The signed-in administrator looking at their own row, lines 549, 561. *)
Definition own_row (context : Auth.UserContext) (s : state) (user : UserProfile) : bool :=
  bool_decide (Some (id user) = currentAdminUserId s)
  && (Auth.role_is (Auth.profile context ≫= Db.role) "admin"
      || Auth.role_is (Auth.profile context ≫= Db.role) "SUPER_ADMIN").

(** An item is in the menu and not disabled, lines 537-571. *)
Definition offered (context : Auth.UserContext) (s : state) (user : UserProfile)
    (i : item) : bool :=
  match i with
  | Edit => true
  | Approve => is_literal (status user) "pending_approval"
  | MakeModerator =>
      negb (own_row context s user || Auth.role_is (role user) "moderator")
  | MakeAdmin =>
      negb (Auth.role_is (role user) "admin" || Auth.role_is (role user) "SUPER_ADMIN")
  | MakeUser =>
      negb (own_row context s user || Auth.role_is (role user) "user")
  | Delete => negb (bool_decide (Some (id user) = currentAdminUserId s))
  end.

(** [openEditDialog], lines 447-450. *)
Definition openEditDialog (user : UserProfile) (s : state) : state :=
  State (users s) (isLoading s) (error s) true (Some user) (currentAdminUserId s).

(** What the backend and the browser answer to one click. *)
Record click_answers := {
  update : answer unit;
  confirmed : bool;
  invoke : answer unit;
  fetch : answer (option (list UserProfile));
}.

(** A click on an item of the row's menu: the [onClick] of the item, when
    it is offered. *)
Definition click (context : Auth.UserContext) (a : click_answers)
    (user : UserProfile) (i : item) (s : state) : state * list effect :=
  if offered context s user i then
    match i with
    | Edit => (openEditDialog user s, [])
    | Approve => handleApproveUser (id user) (update a) (fetch a) s
    | MakeModerator =>
        handleChangeRole context (id user) (Some (txt "moderator")) (update a) (fetch a) s
    | MakeAdmin =>
        handleChangeRole context (id user) (Some (txt "admin")) (update a) (fetch a) s
    | MakeUser =>
        handleChangeRole context (id user) (Some (txt "user")) (update a) (fetch a) s
    | Delete => handleDeleteUser (id user) (confirmed a) (invoke a) (fetch a) s
    end
  else (s, []).

End UserManagementPage.

(** ** The admin page in use *)

Module AdminPage.
Import UserManagementPage.

#[global] Instance UserProfile_eq_dec : EqDecision UserProfile.
Proof. solve_decision. Defined.

(** The mounted page: what [useUser()] has returned at the last render
    (l.297), and the component's state. *)
Record page := Mounted {
  context : Auth.UserContext;
  component : state;
}.

Inductive event :=
| ContextChanged (context : Auth.UserContext)     (* a render with a new context, *)
                 (fetch : answer (option (list UserProfile)))  (* then the effect *)
| Clicked (user : UserProfile) (i : item) (a : click_answers)
| UserUpdated (fetch : answer (option (list UserProfile)))     (* l.587-590 *)
| EditOpenChanged (open : bool).                               (* l.586 *)

(** The row of [user] is on screen, l.508. *)
Definition shown (p : page) (user : UserProfile) : bool :=
  if render (context p) (component p) is Page rows
  then bool_decide (user ∈ rows) else false.

(** The table and EditUserDialog are rendered, l.465-593. *)
Definition table_rendered (p : page) : bool :=
  if render (context p) (component p) is Page _ then true else false.

(** The component is mounted and its effect runs, l.287-348. *)
Definition mount (context : Auth.UserContext)
    (fetch : answer (option (list UserProfile))) : page :=
  Mounted context (useEffect context fetch initial).1.

Definition handle (ev : event) (p : page) : page * list effect :=
  let s := component p in
  match ev with
  | ContextChanged context' fetch =>
      let r := useEffect context' fetch s in (Mounted context' r.1, r.2)
  | Clicked user i a =>
      if shown p user then
        let r := click (context p) a user i s in (Mounted (context p) r.1, r.2)
      else (p, [])
  | UserUpdated fetch =>
      if table_rendered p then
        let r := fetchUsers fetch s in
        (Mounted (context p)
           (State (users r.1) (isLoading r.1) (error r.1) (isEditUserDialogOpen r.1)
                  None (currentAdminUserId r.1)),
         r.2)
      else (p, [])
  | EditOpenChanged open =>
      if table_rendered p then
        (Mounted (context p)
           (State (users s) (isLoading s) (error s) open
                  (selectedUserForEdit s) (currentAdminUserId s)),
         [])
      else (p, [])
  end.

(** The pages a mounted component goes through. *)
Inductive reachable : page -> Prop :=
| reachable_mount context fetch : reachable (mount context fetch)
| reachable_handle p ev : reachable p -> reachable (handle ev p).1.

(** Authentication has settled, [u] is signed in and the profile is
    loaded: the first branch of the effect, l.327. *)
Definition signed_in_as (context : Auth.UserContext) (u : Db.uuid) : Prop :=
  Auth.isLoadingAuth context = false
  /\ Auth.user context = Some u
  /\ is_Some (Auth.profile context).

End AdminPage.

(** ** The form that disables TOTP (ProfilePage, lines 864-885) *)

Module DisableDialog.
Import ProfilePage.

Inductive event :=
| TypeCode (value : text)              (* the input's onChange, line 868 *)
| ClickCancel                          (* Annuler, line 876 *)
| ClickDisable (a : disable_answers).  (* Oui, désactiver, lines 877-884 *)

(** The state when the page is mounted, lines 635-636. *)
Definition initial : state :=
  {| isDisablingTotp := false; totpCodeForDisable := [] |}.

(** [disabled={isDisablingTotp || !totpCodeForDisable.trim()}], line 880. *)
Definition actionDisabled (s : state) : bool :=
  isDisablingTotp s || blank (totpCodeForDisable s).

(** A disabled button does nothing; the handler is run to its end. *)
Definition handle (ev : event) (s : state) : state * list effect :=
  match ev with
  | TypeCode value => (onChangeCode value s, [])
  | ClickCancel =>
      ({| isDisablingTotp := isDisablingTotp s; totpCodeForDisable := [] |}, [])
  | ClickDisable a => if actionDisabled s then (s, []) else handleDisableTotp a s
  end.

(** The events [evs] in order from the state [s]: the state they leave
    and everything done on the way. *)
Fixpoint run (evs : list event) (s : state) : state * list effect :=
  match evs with
  | [] => (s, [])
  | ev :: evs =>
      let r := handle ev s in
      let r' := run evs r.1 in
      (r'.1, r.2 ++ r'.2)
  end.

End DisableDialog.

(** ** The TOTP setup dialog with requests in flight *)

(** The handlers of the dialog are [async]: each runs up to its next
    [await], and the rest of it runs when the request is answered, on the
    state the component has by then.  The setters are React's: they
    overwrite the state whatever it is.  Between a request and its answer
    the dialog takes every event it offers. *)

Module Interleaving.
Import TotpSetupDialog.

(** A request a handler waits for at one of its [await]s, with what the
    rest of the handler has captured. *)
Inductive task :=
| AwaitEnroll                                        (* l.80 *)
| AwaitChallenge (factor code : text)                (* l.114 *)
| AwaitVerify                                        (* l.118 *)
| AwaitRpc (verifyData : VerifyResponseData)         (* l.126 *)
| AwaitRefresh (verifyData : VerifyResponseData).    (* l.133 *)

(** What answers a request. *)
Inductive resolution :=
| Enrolled (a : answer EnrollResponseData)
| Challenged (a : answer text)
| Verified (a : answer VerifyResponseData)
| RpcAnswered (r : reply unit)
| Refreshed (a : answer unit).

(** The component and the requests it has not been answered yet, oldest
    first. *)
Record world := World {
  dialog : state;
  pending : list task;
}.

Definition start : world := World initial [].

Definition fallback : string := "Code de vérification invalide ou expiré.".

(** The rest of a handler from the [await] of [t] on, the request being
    answered with [r] while the component is in [s]: the state it leaves,
    what it does, and the request it waits for next. *)
Definition resume (t : task) (r : resolution) (s : state)
  : option (state * list effect * option task) :=
  match t, r with
  | AwaitEnroll, Enrolled (Ok enrollData) =>               (* l.83-87, l.93 *)
      Some (set_isLoading false
              (set_step Verify
                 (set_enrollment (Some (enroll_id enrollData))
                    (Some (qr_code enrollData)) (Some (secret enrollData)) s)),
            [], None)
  | AwaitEnroll, Enrolled (Err err) =>                     (* l.88-93 *)
      Some (caught err "Échec de l'initialisation de la configuration A2F." s, [], None)
  | AwaitChallenge factor code, Challenged (Ok challengeId) =>   (* l.118 *)
      Some (s, [MfaVerify factor challengeId code], Some AwaitVerify)
  | AwaitChallenge _ _, Challenged (Err err) => Some (caught err fallback s, [], None)
  | AwaitVerify, Verified (Ok verifyData) =>               (* l.126 *)
      Some (s, [RpcSetTotpEnabled true], Some (AwaitRpc verifyData))
  | AwaitVerify, Verified (Err err) => Some (caught err fallback s, [], None)
  | AwaitRpc _, RpcAnswered (Thrown err) => Some (caught err fallback s, [], None)
  | AwaitRpc verifyData, RpcAnswered r =>                  (* l.127-133 *)
      Some (s,
            (if r is Returned _ then [Toast PartialError] else [])
              ++ [RefreshCurrentUserProfile],
            Some (AwaitRefresh verifyData))
  | AwaitRefresh _, Refreshed (Err err) => Some (caught err fallback s, [], None)
  | AwaitRefresh verifyData, Refreshed (Ok _) =>           (* l.135-150, l.156 *)
      match codes_of verifyData with
      | Some (c :: cs) =>
          Some (set_isLoading false
                  (set_step RecoveryCodes (set_recoveryCodes (c :: cs) s)),
                [], None)
      | _ =>
          Some (set_isLoading false (onSetupComplete (set_step Completed s)),
                [Toast Activated; OnSetupComplete], None)
      end
  | _, _ => None
  end.

Inductive event :=
| Opened                                (* ProfilePage: Activer l'A2F *)
| EffectRun                             (* React runs the effect *)
| Typed (value : text)
| VerifyClicked
| CancelClicked
| SavedClicked
| CloseClicked
| OpenChanged (open : bool)             (* Escape, overlay, close icon *)
| Answered (i : nat) (r : resolution).  (* the i-th pending request is answered *)

(** The events the rendered dialog offers, and the answers that can
    arrive. *)
Definition enabled (w : world) (ev : event) : bool :=
  let s := dialog w in
  match ev with
  | Opened | EffectRun => true
  | Typed _ =>
      isOpen s && (if renderContent s is VerifyForm _ _ _ then true else false)
  | VerifyClicked =>
      isOpen s && (if renderFooter s is VerifyFooter false then true else false)
  | CancelClicked =>
      isOpen s && (if renderFooter s is VerifyFooter _ then true else false)
  | SavedClicked =>
      isOpen s && (if renderFooter s is SavedFooter then true else false)
  | CloseClicked =>
      isOpen s && (if renderFooter s is CloseFooter then true else false)
  | OpenChanged _ => isOpen s
  | Answered i r =>
      match pending w !! i with
      | Some t => if resume t r s is Some _ then true else false
      | None => false
      end
  end.

(** One event: a handler runs up to its first [await], or the rest of a
    handler runs up to its next one.  The handlers without [await] are
    those of [TotpSetupDialog.handle]. *)
Definition react (ev : event) (w : world) : world * list effect :=
  let s := dialog w in
  match ev with
  | Opened => (World (onOpenChange true s) (pending w), [])
  | EffectRun =>                                          (* l.74-103 *)
      if isOpen s && bool_decide (step s = Enroll) then
        (World (set_error None (set_isLoading true s)) (pending w ++ [AwaitEnroll]),
         [MfaEnroll])
      else if negb (isOpen s) then
        if bool_decide (step s ≠ RecoveryCodes) && bool_decide (step s ≠ Completed)
        then (World (resetDialogState s) (pending w), [])
        else (w, [])
      else (w, [])
  | Typed value => (World (onChangeCode value s) (pending w), [])
  | VerifyClicked =>                                      (* l.105-114 *)
      match truthy (factorId s), js_length (verificationCode s) =? 6 with
      | Some factor, true =>
          (World (set_error None (set_isLoading true s))
                 (pending w ++ [AwaitChallenge factor (verificationCode s)]),
           [MfaChallenge factor])
      | _, _ =>
          (World (set_error
                    (Some (txt "Veuillez entrer un code de vérification à 6 chiffres.")) s)
                 (pending w),
           [])
      end
  | CancelClicked =>
      let r := handle ClickCancel s in (World r.1 (pending w), r.2)
  | SavedClicked =>
      let r := handle ClickSaved s in (World r.1 (pending w), r.2)
  | CloseClicked =>
      let r := handle ClickClose s in (World r.1 (pending w), r.2)
  | OpenChanged open =>
      let r := handle (DialogOpenChange open) s in (World r.1 (pending w), r.2)
  | Answered i r =>
      match pending w !! i with
      | Some t =>
          match resume t r s with
          | Some (s', effs, Some next) => (World s' (<[i := next]> (pending w)), effs)
          | Some (s', effs, None) => (World s' (delete i (pending w)), effs)
          | None => (w, [])
          end
      | None => (w, [])
      end
  end.

(** The world after the events [evs], and whether each of them was
    offered when it happened. *)
Definition after (evs : list event) : world :=
  foldl (fun w ev => (react ev w).1) start evs.

Fixpoint offered (w : world) (evs : list event) : bool :=
  match evs with
  | [] => true
  | ev :: evs => enabled w ev && offered (react ev w).1 evs
  end.

(** What the dialog has done during the events [evs], in order. *)
Definition did (evs : list event) : list effect :=
  (foldl (fun r ev => let r' := react ev r.1 in (r'.1, r.2 ++ r'.2)) (start, []) evs).2.

(** The worlds of the dialog: every event offered when it happens. *)
Inductive run : list event -> world -> Prop :=
| run_nil : run [] start
| run_snoc evs w ev :
    run evs w -> enabled w ev = true -> run (evs ++ [ev]) (react ev w).1.

(** *** Serial schedules *)

(** An event of [TotpSetupDialog.event] carries the answers to the
    requests its handler makes.  Served serially, every request is
    answered before the next event. *)
Definition event_of (ev : TotpSetupDialog.event) : event :=
  match ev with
  | OpenDialog => Opened
  | RunEffect _ => EffectRun
  | TypeCode value => Typed value
  | ClickVerify _ => VerifyClicked
  | ClickCancel => CancelClicked
  | ClickSaved => SavedClicked
  | ClickClose => CloseClicked
  | DialogOpenChange open => OpenChanged open
  end.

Definition answer_of (ev : TotpSetupDialog.event) (t : task) : option resolution :=
  match ev, t with
  | RunEffect a, AwaitEnroll => Some (Enrolled a)
  | ClickVerify a, AwaitChallenge _ _ => Some (Challenged (challenge a))
  | ClickVerify a, AwaitVerify => Some (Verified (verify a))
  | ClickVerify a, AwaitRpc _ => Some (RpcAnswered (rpc a))
  | ClickVerify a, AwaitRefresh _ => Some (Refreshed (refresh a))
  | _, _ => None
  end.

(** The pending request is answered, and then the next one, as long as
    the event has an answer for it. *)
Fixpoint settle (n : nat) (ev : TotpSetupDialog.event) (r : world * list effect)
  : world * list effect :=
  match n, pending r.1 with
  | S n, t :: _ =>
      match answer_of ev t with
      | Some a =>
          let r' := react (Answered 0 a) r.1 in
          settle n ev (r'.1, r.2 ++ r'.2)
      | None => r
      end
  | _, _ => r
  end.

(** A handler makes at most four requests. *)
Definition serially (ev : TotpSetupDialog.event) (w : world) : world * list effect :=
  settle 4 ev (react (event_of ev) w).

(** The worlds of the serial runs. *)
Inductive serial : list TotpSetupDialog.event -> world -> Prop :=
| serial_nil : serial [] start
| serial_snoc evs w ev :
    serial evs w -> enabled w (event_of ev) = true ->
    serial (evs ++ [ev]) (serially ev w).1.

End Interleaving.

(** ** Requests the create-user function goes ahead with *)

Module Requests.
Import CreateUser.

(** The request is not a preflight, the function has its credentials,
    the body is JSON and its five fields are there and not empty. *)
Definition complete (e : env) (req : request) (p : payload) : Prop :=
  method req <> txt "OPTIONS"
  /\ is_Some (truthy (supabaseUrl e)) /\ is_Some (truthy (serviceRoleKey e))
  /\ json req = Some p
  /\ is_Some (truthy (email p)) /\ is_Some (truthy (password p))
  /\ is_Some (truthy (full_name p)) /\ is_Some (truthy (username p))
  /\ is_Some (truthy (role p)).

End Requests.

(** ** The create-user function and the body null *)

Module EdgeFunction.
Import CreateUser.

(** What [await req.json()] gives, l.116. *)
Inductive parsed :=
| NotJson                  (* the promise is rejected: the body is not JSON *)
| JsonNull                 (* the JSON value null *)
| JsonValue (p : payload). (* another value, [p] the five fields read from it *)

Record http_request := {
  method : text;
  body : parsed;
}.

(** The handler returns a response, or throws: the destructuring of l.125
    stands between the two [try] blocks, and null has no properties. *)
Inductive outcome :=
| Responded (r : response)
| Threw.

(** The handler given to [serve], l.101-256: [CreateUser.serve] from
    l.125 on. *)
Definition handler (e : env) (a : answers) (req : http_request) : outcome * list call :=
  match body req with
  | JsonNull =>
      if bool_decide (method req = txt "OPTIONS") then              (* l.102 *)
        (Responded (Response PlainOk 200), [])
      else match truthy (supabaseUrl e), truthy (serviceRoleKey e) with   (* l.106 *)
           | Some _, Some _ => (Threw, [])                          (* l.125 *)
           | _, _ => (Responded (Response (ErrorJson ServerConfiguration) 500), [])
           end
  | NotJson =>
      let r := serve e a {| CreateUser.method := method req; json := None |} in
      (Responded r.1, r.2)
  | JsonValue p =>
      let r := serve e a {| CreateUser.method := method req; json := Some p |} in
      (Responded r.1, r.2)
  end.

(** The request is not a preflight, the function has its credentials, and
    the body is a JSON value whose five fields are there and not empty. *)
Definition complete (e : env) (req : http_request) (p : payload) : Prop :=
  body req = JsonValue p
  /\ Requests.complete e {| CreateUser.method := method req; json := Some p |} p.

End EdgeFunction.

(** ** More sample data *)

Module Cases.

(** bob and Alice, neither with a phone number. *)
Definition phones : gmap N Phone.row :=
  <[1 := Phone.Row (Samples.named "bob" false) None]>
    (<[2 := Phone.Row (Samples.named "Alice" true) None]> ∅).

(** The page of the administrator 1, before any row is loaded. *)
Definition admin_page : UserManagementPage.state :=
  UserManagementPage.set_currentAdminUserId (Some 1) UserManagementPage.initial.

(** The administrator's own row, and the row of a user waiting for
    approval. *)
Definition own : UserManagementPage.UserProfile :=
  {| UserManagementPage.id := 1; UserManagementPage.email := None;
     UserManagementPage.created_at := None;
     UserManagementPage.username := Some (txt "bob");
     UserManagementPage.full_name := None; UserManagementPage.avatar_url := None;
     UserManagementPage.status := Some (txt "approved");
     UserManagementPage.role := Some (txt "admin") |}.

Definition pending : UserManagementPage.UserProfile :=
  {| UserManagementPage.id := 2; UserManagementPage.email := None;
     UserManagementPage.created_at := None;
     UserManagementPage.username := Some (txt "Alice");
     UserManagementPage.full_name := None; UserManagementPage.avatar_url := None;
     UserManagementPage.status := Some (txt "pending_approval");
     UserManagementPage.role := Some (txt "user") |}.

(** The administrator 1 has opened the page; two rows are loaded. *)
Definition admin_session : AdminPage.page :=
  AdminPage.mount (Samples.signed_in (Samples.with_role "admin")) (Ok (Some [own; pending])).

(** The same for a SUPER_ADMIN. *)
Definition super_admin_session : AdminPage.page :=
  AdminPage.mount (Samples.signed_in (Samples.with_role "SUPER_ADMIN"))
    (Ok (Some [own; pending])).

(** Every request of a click goes through, and the administrator
    confirms. *)
Definition all_fine : UserManagementPage.click_answers :=
  {| UserManagementPage.update := Ok tt; UserManagementPage.confirmed := true;
     UserManagementPage.invoke := Ok tt; UserManagementPage.fetch := Ok None |}.

(** The page with a code typed, and a backend that lets every step of
    disabling through, the user having one verified factor. *)
Definition code_typed : ProfilePage.state :=
  {| ProfilePage.isDisablingTotp := false;
     ProfilePage.totpCodeForDisable := txt "123456" |}.

(** The code is typed with blanks and letters in it, then confirmed. *)
Definition disable_events (a : ProfilePage.disable_answers) : list DisableDialog.event :=
  [DisableDialog.ClickDisable a; DisableDialog.TypeCode (txt "12 34-56x7");
   DisableDialog.ClickDisable a].

Definition disable_fine : ProfilePage.disable_answers :=
  {| ProfilePage.listFactors :=
       Ok [{| ProfilePage.factor_id := txt "unverified-0";
              ProfilePage.factor_status := txt "unverified" |};
           {| ProfilePage.factor_id := txt "factor-1";
              ProfilePage.factor_status := txt "verified" |}];
     ProfilePage.challengeAndVerify := Fine tt;
     ProfilePage.unenroll := Ok tt;
     ProfilePage.rpc := Fine tt;
     ProfilePage.refresh := Ok tt |}.

(** The dialog is opened, the enrollment is answered, a code is typed and
    Vérifier is clicked; while the challenge is pending the user clicks
    Annuler, and React runs the effect of the closed dialog. *)
Definition cancelled : list Interleaving.event :=
  [Interleaving.Opened; Interleaving.EffectRun;
   Interleaving.Answered 0 (Interleaving.Enrolled (Ok Samples.enrollment));
   Interleaving.Typed (txt "123 456"); Interleaving.VerifyClicked;
   Interleaving.CancelClicked; Interleaving.EffectRun].

(** The provider and the backend answer the requests of the cancelled
    verification, the last answer being that of the profile refresh. *)
Definition late_answers : list Interleaving.event :=
  [Interleaving.Answered 0
     (Interleaving.Challenged (TotpSetupDialog.challenge Samples.verified));
   Interleaving.Answered 0
     (Interleaving.Verified (TotpSetupDialog.verify Samples.verified));
   Interleaving.Answered 0 (Interleaving.RpcAnswered (Fine tt));
   Interleaving.Answered 0 (Interleaving.Refreshed (Ok tt))].

(** No event comes between a request and its answer; the verification
    succeeds and returns [Samples.codes], the profile flag is set, and the
    refresh of the profile is rejected. *)
Definition refresh_rejected : list Interleaving.event :=
  [Interleaving.Opened; Interleaving.EffectRun;
   Interleaving.Answered 0 (Interleaving.Enrolled (Ok Samples.enrollment));
   Interleaving.Typed (txt "123 456"); Interleaving.VerifyClicked;
   Interleaving.Answered 0
     (Interleaving.Challenged (TotpSetupDialog.challenge Samples.verified));
   Interleaving.Answered 0
     (Interleaving.Verified (TotpSetupDialog.verify Samples.verified));
   Interleaving.Answered 0 (Interleaving.RpcAnswered (Fine tt));
   Interleaving.Answered 0
     (Interleaving.Refreshed (Err (JsError (Some (txt "Failed to fetch")) None None None)))].

(** A complete setup: the codes are shown and confirmed as saved. *)
Definition completed_events : list TotpSetupDialog.event :=
  Samples.setup_events
  ++ [TotpSetupDialog.ClickVerify Samples.verified; TotpSetupDialog.ClickSaved].

(** The request asks for the role SUPER_ADMIN, which the payload's type
    does not list; the backend lets every call through. *)
Definition dora : CreateUser.payload :=
  {| CreateUser.email := Some (txt "dora@example.org");
     CreateUser.password := Some (txt "secret1");
     CreateUser.full_name := Some (txt "Dora");
     CreateUser.username := Some (txt "dora");
     CreateUser.role := Some (txt "SUPER_ADMIN") |}.


(** The body of the request is the JSON value null. *)
Definition null_request : EdgeFunction.http_request :=
  {| EdgeFunction.method := txt "POST"; EdgeFunction.body := EdgeFunction.JsonNull |}.

Definition dora_request : EdgeFunction.http_request :=
  {| EdgeFunction.method := txt "POST"; EdgeFunction.body := EdgeFunction.JsonValue dora |}.

Definition created : CreateUser.answers :=
  {| CreateUser.createUser := Fine (Some 4);
     CreateUser.updateUserById := Err (JsError None None None None);
     CreateUser.profileUpdate := Ok tt |}.

End Cases.


(** * Properties *)

Import Db Rules.

(** ** Text *)

Lemma in_range_spec lo hi c : in_range lo hi c = true <-> lo <= c /\ c <= hi.
Proof. unfold in_range. rewrite andb_true_iff, !N.leb_le. tauto. Qed.

Lemma username_char_bmp c : username_char c = true -> utf16_units c = 1.
Proof.
  unfold username_char, utf16_units.
  rewrite !orb_true_iff, !in_range_spec, !N.eqb_eq. intros H.
  assert (c < 65536) as Hlt by lia.
  apply N.ltb_lt in Hlt. by rewrite Hlt.
Qed.

Lemma js_length_username s :
  forallb username_char s = true -> js_length s = char_length s.
Proof.
  unfold char_length. induction s as [|c s IH]; [done|].
  simpl. rewrite andb_true_iff. intros [Hc Hs].
  rewrite (username_char_bmp c Hc), (IH Hs). lia.
Qed.

Lemma forallb_username_char s :
  forallb username_char s = true <-> Forall (fun c => username_char c = true) s.
Proof.
  induction s as [|c s IH]; simpl.
  - split; [constructor | done].
  - rewrite andb_true_iff, Forall_cons, IH. done.
Qed.

Lemma username_regex_spec s :
  username_regex s = true <-> s <> [] /\ Forall (fun c => username_char c = true) s.
Proof.
  rewrite <- forallb_username_char. destruct s as [|c s].
  - split; [done | by intros [? _]].
  - change (username_regex (c :: s)) with (forallb username_char (c :: s)).
    split; [done | by intros [_ ?]].
Qed.

Lemma username_regex_false s :
  (3 <= length s)%nat ->
  username_regex s = false <-> exists c, c ∈ s /\ username_char c = false.
Proof.
  intros Hlen. destruct s as [|c0 s0]; [simpl in Hlen; lia|].
  change (username_regex (c0 :: s0)) with (forallb username_char (c0 :: s0)).
  generalize (c0 :: s0) as s. clear. intros s. split.
  - induction s as [|c s IH]; [done|]. simpl. rewrite andb_false_iff.
    intros [Hc|Hs].
    + exists c. split; [left | done].
    + destruct (IH Hs) as (d & Hd & Hbad). exists d. split; [by right | done].
  - intros (c & Hc & Hbad). apply not_true_is_false. rewrite forallb_username_char.
    rewrite Forall_forall. intros Hall. specialize (Hall c Hc). congruence.
Qed.

(** ** UPDATE by primary key *)

Lemma holds_where_id (uid : option uuid) i :
  holds (sql_eq (Some i) uid) = true <-> uid = Some i.
Proof.
  unfold sql_eq. destruct uid as [k|]; simpl; [|done].
  case_bool_decide; simpl; split; congruence.
Qed.

(** On a table keyed by [id], [WHERE id = uid] takes at most one row. *)
Lemma update_where_id (uid : option uuid) (set : profile -> option profile) (t : table) :
  update_where (fun id _ => sql_eq (Some id) uid) set t =
    match uid ≫= (fun k => pair k <$> t !! k) with
    | None => (Done [], t)
    | Some (k, p) =>
        match set p with
        | None => (Raised NotNullViolation, t)
        | Some p' => (Done [(k, p')], <[k := p']> t)
        end
    end.
Proof.
  unfold update_where.
  destruct (uid ≫= (fun k => pair k <$> t !! k)) as [[k p]|] eqn:Hrow.
  - assert (uid = Some k /\ t !! k = Some p) as [-> Hk].
    { destruct uid as [k'|]; simpl in Hrow; [|done].
      destruct (t !! k') eqn:?; simplify_eq/=. done. }
    destruct (set p) as [p'|] eqn:Hset.
    + rewrite bool_decide_eq_false_2.
      2:{ intros (i & q & Hq & Hsel & Hnone). apply holds_where_id in Hsel.
          simplify_eq. }
      assert (map_imap (fun i q => if holds (sql_eq (Some i) (Some k)) then set q else None) t
              = ({[k := p']} : table)) as ->.
      { apply map_eq. intros i. rewrite map_lookup_imap.
        destruct (decide (i = k)) as [->|Hne].
        - rewrite Hk, lookup_singleton_eq.
          pose proof (proj2 (holds_where_id (Some k) k) eq_refl) as Hsel.
          simpl in Hsel |- *. by rewrite Hsel.
        - rewrite lookup_singleton_ne by done.
          destruct (t !! i) as [q|]; [|done]. cbn [mbind option_bind].
          destruct (holds (sql_eq (Some i) (Some k))) eqn:Hsel; [|done].
          apply holds_where_id in Hsel. congruence. }
      by rewrite map_to_list_singleton, insert_union_singleton_l.
    + rewrite bool_decide_eq_true_2; [done|].
      exists k, p. split_and!; [done | by apply holds_where_id | done].
  - rewrite bool_decide_eq_false_2.
    2:{ intros (i & q & Hq & Hsel & _). apply holds_where_id in Hsel. subst uid.
        simpl in Hrow. by rewrite Hq in Hrow. }
    assert (map_imap (fun i q => if holds (sql_eq (Some i) uid) then set q else None) t
            = (∅ : table)) as ->.
    { apply map_eq. intros i. rewrite map_lookup_imap, lookup_empty.
      destruct (t !! i) as [q|] eqn:Hq; [|done]. cbn [mbind option_bind].
      destruct (holds (sql_eq (Some i) uid)) eqn:Hsel; [|done].
      apply holds_where_id in Hsel. subst uid. simpl in Hrow. by rewrite Hq in Hrow. }
    by rewrite map_to_list_empty, (left_id_L ∅ (∪)).
Qed.

Lemma update_where_by_id uid f (t : table) :
  bind (update_where (fun id _ => sql_eq (Some id) uid) (fun p => Some (f p)))
       (fun rows => bind (into_row rows) ret) t
  = update_by_id uid f t.
Proof.
  unfold bind. rewrite update_where_id. unfold update_by_id.
  destruct uid as [k|]; simpl; [|done]. by destruct (t !! k).
Qed.

(** ** update_username, unfolded *)

Section UpdateUsername.
Variable lower : text -> text.

Lemma update_username_eq uid s t :
  update_username lower uid (Some s) t =
    if char_length s <? 3 then (Raised UsernameTooShort, t)
    else if 30 <? char_length s then (Raised UsernameTooLong, t)
    else if negb (username_regex s) then (Raised UsernameBadChars, t)
    else if bool_decide (map_Exists (fun id p => holds (other_with_name lower uid (Some s) id p) = true) t)
    then (Raised UsernameTaken, t)
    else update_by_id uid (set_username (Some s)) t.
Proof.
  rewrite <- update_where_by_id.
  unfold update_username, raise_if, exists_row, raise. unfold bind at 1 2 3 4 5. simpl.
  destruct (char_length s <? 3); [done|].
  destruct (30 <? char_length s); [done|].
  destruct (username_regex s); simpl; [|done].
  destruct (bool_decide _); simpl; done.
Qed.

(** A NULL username passes every check. *)
Lemma update_username_null uid t :
  update_username lower uid None t = update_by_id uid (set_username None) t.
Proof.
  rewrite <- update_where_by_id.
  unfold update_username, raise_if, exists_row, raise. unfold bind at 1 2 3 4 5. simpl.
  rewrite bool_decide_eq_false_2.
  - done.
  - intros (i & p & _ & H). revert H. unfold other_with_name, sql_ne, sql_eq.
    destruct (username p), uid; simpl; try done; by destruct (bool_decide _).
Qed.

Lemma other_with_name_holds uid s id p :
  holds (other_with_name lower (Some uid) (Some s) id p) = true <->
  id <> uid /\ exists u, username p = Some u /\ lower u = lower s.
Proof.
  unfold other_with_name, sql_ne, sql_eq. simpl.
  destruct (username p) as [u|]; simpl.
  - repeat case_bool_decide; simpl;
      (split; [first [done | intros _; split; [congruence | eauto]]
              | intros [? (? & [= <-] & ?)]; first [done | congruence]]).
  - split; [by destruct (negb _) | by intros [_ (? & ? & _)]].
Qed.

Lemma taken_by_other_spec t uid s :
  map_Exists (fun id p => holds (other_with_name lower (Some uid) (Some s) id p) = true) t
  <-> taken_by_other lower t uid s.
Proof.
  unfold map_Exists, taken_by_other. split.
  - intros (id & p & Hp & H). apply other_with_name_holds in H as [? (u & ? & ?)].
    by exists id, p, u.
  - intros (id & p & u & ? & ? & ? & ?). exists id, p. split; [done|].
    apply other_with_name_holds. eauto.
Qed.

(** Without a session nothing is taken: [id <> NULL] is never true. *)
Lemma other_with_name_no_session s id p :
  holds (other_with_name lower None (Some s) id p) = false.
Proof.
  unfold other_with_name, sql_ne, sql_eq. simpl.
  by destruct (lower <$> username p) as [?|]; simpl; [destruct (bool_decide _)|].
Qed.

End UpdateUsername.

(** ** The statements of the table *)

Lemma update_by_id_found uid f (t : table) p :
  t !! uid = Some p ->
  update_by_id (Some uid) f t = (Done (Some (uid, f p)), <[uid := f p]> t).
Proof. intros H. unfold update_by_id. by rewrite H. Qed.

Lemma update_by_id_missing uid f (t : table) :
  t !! uid = None -> update_by_id (Some uid) f t = (Done None, t).
Proof. intros H. unfold update_by_id. by rewrite H. Qed.

(** [UPDATE .. WHERE id = i] leaves every other row as it was, and never
    fails. *)
Lemma update_by_id_frame i f (t : table) :
  exists r, update_by_id i f t = (Done r, (update_by_id i f t).2)
  /\ (forall j, Some j <> i -> (update_by_id i f t).2 !! j = t !! j)
  /\ (forall j, Some j = i -> (update_by_id i f t).2 !! j = f <$> t !! j).
Proof.
  unfold update_by_id. destruct i as [k|]; [destruct (t !! k) as [p|] eqn:Hk|]; simpl.
  - eexists. split; [done|]. split; intros j Hj.
    + rewrite lookup_insert_ne; [done | congruence].
    + simplify_eq. by rewrite lookup_insert_eq, Hk.
  - eexists. split; [done|]. split; intros j Hj; [done|]. simplify_eq. by rewrite Hk.
  - eexists. split; [done|]. split; intros j Hj; done.
Qed.

Section UsernameProperties.
Variable lower : text -> text.

Lemma length_lt_3 (s : text) : (char_length s <? 3) = true <-> (length s < 3)%nat.
Proof. unfold char_length. rewrite N.ltb_lt. lia. Qed.

Lemma length_gt_30 (s : text) : (30 <? char_length s) = true <-> (30 < length s)%nat.
Proof. unfold char_length. rewrite N.ltb_lt. lia. Qed.

(** The checks of [update_username] against the rules as worded. *)
Lemma update_username_cases uid s (t : table) :
  (rejected lower t uid s /\
     exists e, update_username lower (Some uid) (Some s) t = (Raised e, t))
  \/ (~ rejected lower t uid s /\ well_formed s /\
        update_username lower (Some uid) (Some s) t
        = update_by_id (Some uid) (set_username (Some s)) t).
Proof.
  rewrite update_username_eq. unfold rejected.
  destruct (char_length s <? 3) eqn:H3.
  { left. apply length_lt_3 in H3. eauto. }
  destruct (30 <? char_length s) eqn:H30.
  { left. apply length_gt_30 in H30. eauto. }
  apply not_true_iff_false in H3, H30.
  rewrite length_lt_3 in H3. rewrite length_gt_30 in H30.
  destruct (username_regex s) eqn:Hre; simpl.
  - apply username_regex_spec in Hre as [_ Hall].
    case_bool_decide as Hex.
    + left. apply taken_by_other_spec in Hex. eauto 6.
    + right. rewrite taken_by_other_spec in Hex.
      split; [|split; [unfold well_formed; split_and!; [lia | lia | done] | done]].
      intros [?|[?|[(c & Hc & Hbad)|?]]]; [lia | lia | | done].
      rewrite Forall_forall in Hall. specialize (Hall c Hc). congruence.
  - left. apply username_regex_false in Hre; [eauto 6 | lia].
Qed.

End UsernameProperties.

(** ** Client and server validation (C10) *)

Lemma accepts_spec s :
  UsernameEditForm.accepts s = true <->
  (js_length s <? 3) = false /\ (30 <? js_length s) = false /\ username_regex s = true.
Proof.
  unfold UsernameEditForm.accepts, UsernameEditForm.usernameFormSchema.
  rewrite bool_decide_eq_true.
  destruct (js_length s <? 3), (30 <? js_length s), (username_regex s);
    simpl; split; try done; by intros (? & ? & ?).
Qed.

Lemma accepts_well_formed s :
  UsernameEditForm.accepts s = true <-> well_formed s.
Proof.
  rewrite accepts_spec. unfold well_formed. split.
  - intros (H3 & H30 & Hre).
    assert (js_length s = char_length s) as Hlen.
    { apply js_length_username. by destruct s. }
    rewrite Hlen in H3, H30. unfold char_length in *.
    apply N.ltb_ge in H3, H30. apply username_regex_spec in Hre as [_ ?].
    split_and!; [lia | lia | done].
  - intros (H3 & H30 & Hall).
    assert (username_regex s = true) as Hre.
    { apply username_regex_spec. split; [|done]. intros ->. simpl in H3. lia. }
    assert (js_length s = char_length s) as Hlen.
    { apply js_length_username. by destruct s. }
    rewrite Hlen. unfold char_length. split_and!; [| |done]; apply N.ltb_ge; lia.
Qed.

(** C10: the zod schema of UsernameEditForm accepts a string exactly when
    it has at least 3 and at most 30 characters, all of the class
    [a-zA-Z0-9_.]; and exactly then [update_username], called by anyone on
    any table, raises none of its three format exceptions: it then either
    raises the uniqueness exception or returns.  (The two sides measure
    the length differently, in UTF-16 code units and in characters; they
    agree on the strings that pass the pattern.) *)
Theorem username_format_client_server_agree
    (lower : text -> text) (uid : option uuid) (s : text) (t : table) :
  (UsernameEditForm.accepts s = true <-> well_formed s)
  /\ (UsernameEditForm.accepts s = false <->
        exists e, (update_username lower uid (Some s) t).1 = Raised e
                  /\ format_exn e = true)
  /\ (UsernameEditForm.accepts s = true ->
        (update_username lower uid (Some s) t).1 = Raised UsernameTaken
        \/ exists row, (update_username lower uid (Some s) t).1 = Done row).
Proof.
  split; [apply accepts_well_formed|].
  rewrite update_username_eq.
  destruct (UsernameEditForm.accepts s) eqn:Hacc.
  - apply accepts_spec in Hacc as Hc. destruct Hc as (H3 & H30 & Hre).
    assert (js_length s = char_length s) as Hlen.
    { apply js_length_username. by destruct s. }
    rewrite <- Hlen, H3, H30, Hre. simpl.
    split.
    + split; [done|]. intros (e & He & Hf). revert He Hf.
      case_bool_decide; simpl; [by intros [= <-]|].
      destruct (update_by_id_frame uid (set_username (Some s)) t) as (r & -> & _).
      done.
    + intros _. case_bool_decide; simpl; [by left|]. right.
      destruct (update_by_id_frame uid (set_username (Some s)) t) as (r & -> & _).
      by exists r.
  - split; [|done]. split; [intros _|done].
    apply not_true_iff_false in Hacc. rewrite accepts_spec in Hacc.
    destruct (char_length s <? 3) eqn:H3; [by exists UsernameTooShort|].
    destruct (30 <? char_length s) eqn:H30; [by exists UsernameTooLong|].
    destruct (username_regex s) eqn:Hre; [|by exists UsernameBadChars].
    exfalso. apply Hacc.
    assert (js_length s = char_length s) as ->.
    { apply js_length_username. by destruct s. }
    done.
Qed.

(** The theorem at work: Bobby passes the form, and the server does not
    object to its format. *)
Lemma username_format_client_server_agree_witness :
  (update_username toLowerCase (Some 1) (Some (txt "Bobby")) Samples.two_users).1
    = Raised UsernameTaken
  \/ exists row,
       (update_username toLowerCase (Some 1) (Some (txt "Bobby")) Samples.two_users).1
       = Done row.
Proof.
  apply (proj2 (proj2 (username_format_client_server_agree toLowerCase (Some 1)
                         (txt "Bobby") Samples.two_users))).
  vm_compute. reflexivity.
Defined.

(** ** update_username: its exceptions and its result (C2) *)

(** C2, for a caller who has a row in [profiles]: [update_username] raises
    an exception exactly when the proposed username has fewer than 3
    characters, more than 30, a character outside a-z, A-Z, 0-9, underscore
    and dot, or equals, letter case ignored, the username of a profile of a
    different user; the table is then as it was.  Otherwise the caller's
    username becomes the proposed string as passed, no other column and no
    other row changes, and the updated row is returned. *)
Theorem update_username_raises_iff
    (lower : text -> text) (uid : uuid) (s : text) (t : table) (p : profile) :
  t !! uid = Some p ->
  (rejected lower t uid s <->
     exists e, (update_username lower (Some uid) (Some s) t).1 = Raised e)
  /\ (forall e, (update_username lower (Some uid) (Some s) t).1 = Raised e ->
        (update_username lower (Some uid) (Some s) t).2 = t
        /\ committed t (update_username lower (Some uid) (Some s) t) = t)
  /\ (~ rejected lower t uid s ->
        update_username lower (Some uid) (Some s) t
        = (Done (Some (uid, set_username (Some s) p)),
           <[uid := set_username (Some s) p]> t)).
Proof.
  intros Hrow.
  destruct (update_username_cases lower uid s t) as [[Hrej (e & ->)]|(Hok & _ & ->)];
    rewrite ?(update_by_id_found _ _ _ _ Hrow); simpl.
  - split_and!.
    + split; eauto.
    + done.
    + intros Hok. by destruct Hok.
  - split_and!.
    + split; [done|]. by intros (e & ?).
    + done.
    + done.
Qed.

(** The theorem at work: bob renames himself to Bobby. *)
Lemma update_username_raises_iff_witness :
  update_username toLowerCase (Some 1) (Some (txt "Bobby")) Samples.two_users
  = (Done (Some (1, Samples.named "Bobby" false)),
     <[1 := Samples.named "Bobby" false]> Samples.two_users).
Proof.
  pose proof (update_username_raises_iff toLowerCase 1 (txt "Bobby")
    Samples.two_users (Samples.named "bob" false)
    ltac:(vm_compute; reflexivity)) as (Hiff & _ & Hok).
  rewrite Hok.
  - reflexivity.
  - intros Hrej. apply Hiff in Hrej as (e & He). vm_compute in He. discriminate He.
Defined.

(** A caller without a row in [profiles] (here: an empty table): no rule
    rejects the username, and still no row gets it and none is returned. *)
Lemma update_username_without_row :
  ~ rejected toLowerCase ∅ 7 (txt "alice")
  /\ update_username toLowerCase (Some 7) (Some (txt "alice")) ∅ = (Done None, ∅)
  /\ ~ (exists p : profile,
          (update_username toLowerCase (Some 7) (Some (txt "alice")) ∅).1
            = Done (Some (7, p))
          /\ (update_username toLowerCase (Some 7) (Some (txt "alice")) ∅).2 !! 7
            = Some p
          /\ username p = Some (txt "alice")).
Proof.
  assert (update_username toLowerCase (Some 7) (Some (txt "alice")) ∅
          = (Done None, (∅ : table))) as Heq by (vm_compute; reflexivity).
  split_and!; [|done|].
  - destruct (update_username_cases toLowerCase 7 (txt "alice") ∅)
      as [[_ (e & He)]|(Hok & _)]; [|done].
    rewrite Heq in He. discriminate He.
  - rewrite Heq. by intros (p & H & _).
Qed.

(** What [update_username] does for a caller without a row, and without a
    session: a well-formed username that nobody else has, resp. any
    well-formed username, goes through; nothing is written, NULL is
    returned. *)
Lemma update_username_no_row lower uid s (t : table) :
  t !! uid = None -> ~ rejected lower t uid s ->
  update_username lower (Some uid) (Some s) t = (Done None, t).
Proof.
  intros Hrow Hok.
  destruct (update_username_cases lower uid s t) as [[Hrej _]|(_ & _ & ->)]; [done|].
  by apply update_by_id_missing.
Qed.

Lemma update_username_no_session lower s (t : table) :
  well_formed s -> update_username lower None (Some s) t = (Done None, t).
Proof.
  intros (H3 & H30 & Hall). rewrite update_username_eq.
  assert ((char_length s <? 3) = false) as ->.
  { apply not_true_iff_false. rewrite length_lt_3. lia. }
  assert ((30 <? char_length s) = false) as ->.
  { apply not_true_iff_false. rewrite length_gt_30. lia. }
  assert (username_regex s = true) as ->.
  { apply username_regex_spec. split; [|done]. intros ->. simpl in H3. lia. }
  simpl. rewrite bool_decide_eq_false_2; [done|].
  intros (i & p & _ & H). by rewrite other_with_name_no_session in H.
Qed.

(** ** Uniqueness of usernames, letter case ignored (C3) *)

Section Uniqueness.
Variable lower : text -> text.

Lemma unique_cib_spec (t : table) : unique_cib lower t = true -> unique_ci lower t.
Proof.
  unfold unique_cib, unique_ci. rewrite bool_decide_eq_true.
  intros Hall i j p q u v Hij Hi Hj Hu Hv Heq.
  destruct (Hall i p Hi j q Hj) as [?|Hclash]; [done|].
  unfold clash in Hclash. rewrite Hu, Hv in Hclash.
  by apply bool_decide_eq_false in Hclash.
Qed.

(** Writing a username that no other row has keeps the usernames
    distinct. *)
Lemma update_by_id_unique uid new (t : table) :
  unique_ci lower t ->
  (forall k s, uid = Some k -> new = Some s -> ~ taken_by_other lower t k s) ->
  unique_ci lower (update_by_id uid (set_username new) t).2.
Proof.
  intros Huniq Hfree.
  destruct (update_by_id_frame uid (set_username new) t) as (_ & _ & Hother & Hself).
  intros i j p q u v Hij Hi Hj Hu Hv.
  destruct (decide (Some i = uid)) as [Hiu|Hiu], (decide (Some j = uid)) as [Hju|Hju].
  - congruence.
  - rewrite (Hself i Hiu) in Hi. rewrite (Hother j Hju) in Hj.
    destruct (t !! i) as [p0|]; simplify_eq/=.
    intros Heq. apply (Hfree i u eq_refl eq_refl). by exists j, q, v.
  - rewrite (Hother i Hiu) in Hi. rewrite (Hself j Hju) in Hj.
    destruct (t !! j) as [q0|]; simplify_eq/=.
    intros Heq. apply (Hfree j v eq_refl eq_refl). by exists i, p, u.
  - rewrite (Hother i Hiu) in Hi. rewrite (Hother j Hju) in Hj. eauto.
Qed.

End Uniqueness.

(** C3: when all usernames of the table are pairwise distinct, letter case
    ignored, they are so again after every call of [update_username] that
    returns: whoever calls, and whatever username is proposed. *)
Theorem update_username_preserves_unique
    (lower : text -> text) (uid : option uuid) (new_username : option text)
    (t t' : table) (row : option (uuid * profile)) :
  unique_ci lower t ->
  update_username lower uid new_username t = (Done row, t') ->
  unique_ci lower t'.
Proof.
  intros Huniq Hcall.
  assert (t' = (update_by_id uid (set_username new_username) t).2
          /\ (forall k s, uid = Some k -> new_username = Some s ->
                ~ taken_by_other lower t k s)) as [-> Hfree].
  { destruct new_username as [s|].
    - rewrite update_username_eq in Hcall.
      destruct (char_length s <? 3); [done|].
      destruct (30 <? char_length s); [done|].
      destruct (negb (username_regex s)); [done|].
      case_bool_decide as Hex; [done|]. rewrite Hcall. split; [done|].
      intros k s' -> [= <-]. by rewrite <- taken_by_other_spec.
    - rewrite update_username_null in Hcall. rewrite Hcall. done. }
  by apply update_by_id_unique.
Qed.

(** The theorem at work: bob renames himself to Bobby. *)
Lemma update_username_preserves_unique_witness :
  unique_ci toLowerCase (<[1 := Samples.named "Bobby" false]> Samples.two_users).
Proof.
  apply (update_username_preserves_unique toLowerCase (Some 1) (Some (txt "Bobby"))
           Samples.two_users _ (Some (1, Samples.named "Bobby" false))).
  - apply unique_cib_spec. vm_compute. reflexivity.
  - vm_compute. reflexivity.
Defined.

(** ** What the two RPCs may write (C4) *)

Lemma set_totp_enabled_eq uid v (t : table) :
  set_totp_enabled uid v t =
    match uid ≫= (fun k => pair k <$> t !! k), v with
    | None, _ => (Raised ProfileNotFound, t)
    | Some _, None => (Raised NotNullViolation, t)
    | Some (k, p), Some b => (Done tt, <[k := set_is_totp_enabled b p]> t)
    end.
Proof.
  unfold set_totp_enabled, bind. rewrite update_where_id.
  destruct uid as [k|]; simpl; [|done].
  destruct (t !! k) as [p|]; simpl; [|done]. by destruct v.
Qed.

Lemma update_username_table lower uid new (t : table) :
  (update_username lower uid new t).2 = t
  \/ (update_username lower uid new t).2 = (update_by_id uid (set_username new) t).2.
Proof.
  destruct new as [s|].
  - rewrite update_username_eq.
    repeat (match goal with |- context [if ?b then _ else _] => destruct b end);
      simpl; auto.
  - rewrite update_username_null. auto.
Qed.

(** An exception of either RPC finds the table unwritten: the rollback has
    nothing to undo. *)
Lemma rpc_no_partial_write lower uid new v (t : table) :
  committed t (update_username lower uid new t) = (update_username lower uid new t).2
  /\ committed t (set_totp_enabled uid v t) = (set_totp_enabled uid v t).2.
Proof.
  split.
  - destruct new as [s|].
    + rewrite update_username_eq.
      repeat (match goal with |- context [if ?b then _ else _] => destruct b end);
        simpl; try done.
      by destruct (update_by_id_frame uid (set_username (Some s)) t) as (r & -> & _).
    + rewrite update_username_null.
      by destruct (update_by_id_frame uid (set_username None) t) as (r & -> & _).
  - rewrite set_totp_enabled_eq.
    destruct (uid ≫= _) as [[k p]|], v; done.
Qed.

(** C4: whoever calls, with whatever arguments, after [update_username] and
    after [set_totp_enabled] every row whose id is not the caller's
    [auth.uid()] is as before, no row has appeared or gone, and the
    caller's row differs at most in [username], respectively at most in
    [is_totp_enabled]. *)
Theorem rpc_frame
    (lower : text -> text) (uid : option uuid) (new_username : option text)
    (p_is_enabled : option bool) (t : table) :
  let t1 := committed t (update_username lower uid new_username t) in
  let t2 := committed t (set_totp_enabled uid p_is_enabled t) in
  (forall j, Some j <> uid -> t1 !! j = t !! j /\ t2 !! j = t !! j)
  /\ (forall j, (is_Some (t1 !! j) <-> is_Some (t !! j))
             /\ (is_Some (t2 !! j) <-> is_Some (t !! j)))
  /\ (forall j p p', t !! j = Some p -> t1 !! j = Some p' -> same_but_username p p')
  /\ (forall j p p', t !! j = Some p -> t2 !! j = Some p' -> same_but_totp p p').
Proof.
  intros t1 t2.
  assert (forall j, (Some j <> uid -> t1 !! j = t !! j)
                    /\ (t1 !! j = t !! j \/ t1 !! j = set_username new_username <$> t !! j))
    as H1.
  { intros j. subst t1.
    rewrite (proj1 (rpc_no_partial_write lower uid new_username p_is_enabled t)).
    destruct (update_by_id_frame uid (set_username new_username) t)
      as (_ & _ & Hother & Hself).
    destruct (update_username_table lower uid new_username t) as [->| ->]; [auto|].
    split; [by apply Hother|].
    destruct (decide (Some j = uid)); [right; by apply Hself | left; by apply Hother]. }
  assert (forall j, (Some j <> uid -> t2 !! j = t !! j)
                    /\ (t2 !! j = t !! j
                        \/ exists b, t2 !! j = set_is_totp_enabled b <$> t !! j))
    as H2.
  { intros j. subst t2. rewrite set_totp_enabled_eq.
    destruct uid as [k|]; simpl; [|auto].
    destruct (t !! k) as [p|] eqn:Hk; simpl; [|auto].
    destruct p_is_enabled as [b|]; simpl; [|auto].
    split.
    - intros Hj. rewrite lookup_insert_ne; [done | congruence].
    - destruct (decide (k = j)) as [->|Hne].
      + right. exists b. by rewrite lookup_insert_eq, Hk.
      + left. by rewrite lookup_insert_ne. }
  split_and!.
  - intros j Hj. split; [by apply H1 | by apply H2].
  - intros j. split.
    + destruct (H1 j) as [_ [->| ->]]; [done|]. by rewrite fmap_is_Some.
    + destruct (H2 j) as [_ [->|[b ->]]]; [done|]. by rewrite fmap_is_Some.
  - intros j p p' Hp Hp'. destruct (H1 j) as [_ [Heq|Heq]];
      rewrite Heq, Hp in Hp'; simplify_eq/=; by repeat split.
  - intros j p p' Hp Hp'. destruct (H2 j) as [_ [Heq|[b Heq]]];
      rewrite Heq, Hp in Hp'; simplify_eq/=; by repeat split.
Qed.

(** The theorem at work: bob enables TOTP, Alice's row stays. *)
Lemma rpc_frame_witness :
  committed Samples.two_users
    (set_totp_enabled (Some 1) (Some true) Samples.two_users) !! 2
  = Samples.two_users !! 2.
Proof.
  pose proof (rpc_frame toLowerCase (Some 1) (Some (txt "Bobby")) (Some true)
                Samples.two_users) as H.
  cbv zeta in H. destruct H as (Hother & _).
  apply (Hother 2). discriminate.
Defined.

(** ** Changing only the letter case of one's username (C9) *)

(** C9, when no other profile has the caller's username up to letter case
    (as is the case when usernames are pairwise distinct, letter case
    ignored): a caller whose username is [u] and who proposes a username
    that differs from [u] only in letter case, and meets the length and
    character rules, is not refused; the username is stored as passed. *)
Theorem update_username_case_change
    (lower : text -> text) (uid : uuid) (p : profile) (u s : text) (t : table) :
  t !! uid = Some p ->
  username p = Some u ->
  lower s = lower u ->
  well_formed s ->
  ~ taken_by_other lower t uid u ->
  update_username lower (Some uid) (Some s) t
  = (Done (Some (uid, set_username (Some s) p)), <[uid := set_username (Some s) p]> t).
Proof.
  intros Hrow Hu Hcase (H3 & H30 & Hchars) Hfree.
  destruct (update_username_cases lower uid s t) as [[Hrej _]|(_ & _ & ->)];
    [exfalso | by apply update_by_id_found].
  destruct Hrej as [?|[?|[(c & Hc & Hbad)|(j & q & v & ? & ? & ? & Hv)]]]; [lia | lia | |].
  - rewrite Forall_forall in Hchars. specialize (Hchars c Hc). congruence.
  - apply Hfree. exists j, q, v. split_and!; [done..|congruence].
Qed.

(** The theorem at work: bob becomes BOB. *)
Lemma update_username_case_change_witness :
  update_username toLowerCase (Some 1) (Some (txt "BOB")) Samples.two_users
  = (Done (Some (1, Samples.named "BOB" false)),
     <[1 := Samples.named "BOB" false]> Samples.two_users).
Proof.
  apply (update_username_case_change toLowerCase 1 (Samples.named "bob" false)
           (txt "bob") (txt "BOB") Samples.two_users).
  - vm_compute. reflexivity.
  - reflexivity.
  - vm_compute. reflexivity.
  - unfold well_formed. split_and!; [simpl; lia | simpl; lia |].
    repeat constructor.
  - rewrite <- taken_by_other_spec. apply (bool_decide_eq_false _). vm_compute. reflexivity.
Defined.

(** With bob and Bob in the table, bob may not become BOB: Bob's row is not
    the caller's, and has the name up to letter case. *)
Lemma update_username_case_change_refused :
  Samples.bob_and_Bob !! 1 = Some (Samples.named "bob" false)
  /\ username (Samples.named "bob" false) = Some (txt "bob")
  /\ toLowerCase (txt "BOB") = toLowerCase (txt "bob")
  /\ well_formed (txt "BOB")
  /\ update_username toLowerCase (Some 1) (Some (txt "BOB")) Samples.bob_and_Bob
     = (Raised UsernameTaken, Samples.bob_and_Bob).
Proof.
  split_and!; try (vm_compute; reflexivity).
  unfold well_formed. split_and!; [simpl; lia | simpl; lia |]. repeat constructor.
Qed.

(** ** Roles (C1) *)

Lemma role_is_spec r literal :
  Auth.role_is r literal = true <-> r = Some (txt literal).
Proof. unfold Auth.role_is. apply bool_decide_eq_true. Qed.

(** What the hook computes: its flags follow the upper-case names. *)
Lemma useAuth_flags (context : Auth.UserContext) :
  let a := Auth.useAuth context in
  let r := Auth.profile context ≫= role in
  Auth.role a = r
  /\ (Auth.isUser a = true <-> r = Some (txt "USER"))
  /\ (Auth.isModerator a = true <-> r = Some (txt "MODERATOR"))
  /\ (Auth.isAdmin a = true <-> r = Some (txt "ADMIN"))
  /\ (Auth.isSuperAdmin a = true <-> r = Some (txt "SUPER_ADMIN"))
  /\ (Auth.canModerate a = true <->
        r = Some (txt "MODERATOR") \/ r = Some (txt "ADMIN") \/ r = Some (txt "SUPER_ADMIN"))
  /\ (Auth.canAdminister a = true <->
        r = Some (txt "ADMIN") \/ r = Some (txt "SUPER_ADMIN")).
Proof.
  simpl. rewrite !orb_true_iff, !role_is_spec. tauto.
Qed.

(** C1 at the roles the repository stores: for a loaded profile whose role
    is 'user', 'moderator' or 'admin' the hook sets none of [isUser],
    [isModerator], [isAdmin], [canModerate], [canAdminister]; for 'admin'
    the gate of UserManagementPage, reading the same context, grants
    access.  Only 'SUPER_ADMIN' is spelled alike on both sides. *)
Theorem useAuth_lower_case_roles :
  Forall (fun r =>
            let a := Auth.useAuth (Samples.signed_in (Samples.with_role r)) in
            Auth.role a = Some (txt r)
            /\ Auth.isUser a = false /\ Auth.isModerator a = false
            /\ Auth.isAdmin a = false /\ Auth.canModerate a = false
            /\ Auth.canAdminister a = false)
         ["user"; "moderator"; "admin"]%string
  /\ Auth.roleGate (Samples.signed_in (Samples.with_role "admin")) = Auth.FetchUsers
  /\ Auth.canAdminister (Auth.useAuth (Samples.signed_in (Samples.with_role "SUPER_ADMIN")))
     = true
  /\ Auth.roleGate (Samples.signed_in (Samples.with_role "SUPER_ADMIN")) = Auth.FetchUsers.
Proof.
  split_and!; [|vm_compute; reflexivity..].
  repeat constructor; vm_compute; reflexivity.
Qed.

(** ** The steps of the TOTP setup dialog (C5) *)

Import TotpSetupDialog.

Ltac unfold_dialog :=
  unfold handle, useEffect, handleVerifyCode, handleRecoveryCodesSaved,
    dialogOnOpenChange, onChangeCode, caught, onSetupComplete, onOpenChange in *.

Ltac dialog_cases :=
  unfold_dialog; simpl in *; repeat case_match; simplify_eq/=; try done.

Lemma enabled_ClickVerify s a :
  enabled s (ClickVerify a) = true -> step s = Verify.
Proof.
  unfold enabled, renderFooter. destruct (isOpen s); [|done]. simpl.
  case_bool_decide; [done|]. by repeat case_match.
Qed.

Lemma enabled_ClickCancel s : enabled s ClickCancel = true -> step s = Verify.
Proof.
  unfold enabled, renderFooter. destruct (isOpen s); [|done]. simpl.
  case_bool_decide; [done|]. by repeat case_match.
Qed.

Lemma enabled_ClickSaved s : enabled s ClickSaved = true -> step s = RecoveryCodes.
Proof.
  unfold enabled, renderFooter. destruct (isOpen s); [|done]. simpl.
  case_bool_decide; [done|]. case_bool_decide; [done|]. by repeat case_match.
Qed.

Lemma enabled_ClickClose s :
  enabled s ClickClose = true ->
  step s <> Verify /\ step s <> RecoveryCodes /\ is_Some (truthy (error s)).
Proof.
  unfold enabled, renderFooter. destruct (isOpen s); [|done]. simpl.
  case_bool_decide; [done|]. case_bool_decide; [done|].
  case_bool_decide; simpl; [|done]. done.
Qed.

(** No error message is left once the codes are shown or the setup is
    completed: Fermer is not offered then. *)
Lemma run_no_error evs s :
  run evs s -> step s = RecoveryCodes \/ step s = Completed -> error s = None.
Proof.
  induction 1 as [|evs s ev Hrun IH Hen]; [by intros [?|?]|].
  destruct ev.
  - exact IH.
  - destruct s as [[] ld er f q k vc [] rc]; dialog_cases;
      intros [?|?]; simplify_eq/=; apply IH; auto.
  - exact IH.
  - apply enabled_ClickVerify in Hen.
    destruct s as [[] ld er f q k vc [] rc]; simplify_eq/=.
    all: dialog_cases; intros [?|?]; simplify_eq/=.
  - apply enabled_ClickCancel in Hen.
    destruct s as [[] ld er f q k vc [] rc]; simplify_eq/=.
    all: dialog_cases.
  - apply enabled_ClickSaved in Hen. intros _. apply IH. auto.
  - destruct s as [[] ld er f q k vc [] rc]; dialog_cases.
  - destruct s as [[] ld er f q k vc [] rc]; dialog_cases;
      intros [?|?]; simplify_eq/=; apply IH; auto.
Qed.

Lemma handleVerifyCode_step a s :
  (step (handleVerifyCode a s).1 = step s
   /\ recoveryCodes (handleVerifyCode a s).1 = recoveryCodes s)
  \/ (exists l, verified_with a l /\ l <> []
                /\ step (handleVerifyCode a s).1 = RecoveryCodes
                /\ recoveryCodes (handleVerifyCode a s).1 = l)
  \/ (verified_without_codes a /\ step (handleVerifyCode a s).1 = Completed).
Proof.
  destruct s as [o ld er f q k vc st rc], a as [ch ve rp rf].
  unfold verified_with, verified_without_codes.
  dialog_cases; eauto 10.
  all: right; left; eexists; split_and!; [by eexists _, _ | done..].
Qed.

Lemma handleVerifyCode_failed a s :
  verification_failed a ->
  step (handleVerifyCode a s).1 = step s
  /\ recoveryCodes (handleVerifyCode a s).1 = recoveryCodes s.
Proof.
  destruct s as [o ld er f q k vc st rc], a as [ch ve rp rf].
  intros [[e He]|[e He]]; simpl in He; subst; dialog_cases.
Qed.

(** Serial runs: with every request answered before the next event, the
    step moves as the specification lists.  It starts at 'enroll'.
    Whenever an event the dialog offers
    changes the step, the change is one of: 'enroll' to 'verify' on a
    successful enrollment; 'verify' to 'recoveryCodes' on a successful
    verification that yields a non-empty list of codes; 'verify' to
    'completed' on a successful verification that yields none;
    'recoveryCodes' to 'completed' on the user's confirmation; and, from a
    step other than 'completed', to 'enroll' on closing the dialog.
    Closing in a step other than 'completed' does reset the step; a failed
    enrollment and a failed verification leave it as it is.  What answers
    that arrive late do to the step is [dialog_step_late_answer]. *)
Theorem dialog_step_transitions :
  step initial = Enroll
  /\ (forall evs s ev,
        run evs s -> enabled s ev = true ->
        step (handle ev s).1 <> step s ->
        listed s ev (step (handle ev s).1))
  /\ (forall s, step s <> Completed ->
        step (handle (DialogOpenChange false) s).1 = Enroll
        /\ step (handle ClickCancel s).1 = Enroll
        /\ step (handle ClickClose s).1 = Enroll)
  /\ (forall s e, isOpen s = true -> step (handle (RunEffect (Err e)) s).1 = step s)
  /\ (forall s a, verification_failed a -> step (handle (ClickVerify a) s).1 = step s).
Proof.
  split_and!; [done| | | |].
  - intros evs s ev Hrun Hen Hchg.
    pose proof (run_no_error evs s Hrun) as Hinv.
    destruct ev.
    + done.
    + destruct s as [[] ld er f q k vc [] rc];
      revert Hchg; dialog_cases; intros Hchg; try done.
      * by apply listed_enrolled.
      * apply listed_closed; [done|]. unfold closing. simpl. eauto 10.
    + done.
    + pose proof (enabled_ClickVerify _ _ Hen) as Hst.
      simpl in Hchg |- *.
      destruct (handleVerifyCode_step a s) as [[? _]|[(l & ? & ? & -> & _)|[? ->]]];
        [done | by eapply listed_verified | by apply listed_verified_no_codes].
    + pose proof (enabled_ClickCancel _ Hen) as Hst.
      destruct s as [o ld er f q k vc st rc]. simpl in Hst. subst st.
      revert Hchg. dialog_cases; intros _.
      all: apply listed_closed; [done | unfold closing; auto].
    + pose proof (enabled_ClickSaved _ Hen) as Hst. simpl.
      by apply listed_saved.
    + destruct (enabled_ClickClose _ Hen) as (_ & _ & Herr).
      assert (step s <> Completed) as Hnc.
      { intros Hc. rewrite Hinv in Herr by auto. by destruct Herr. }
      destruct s as [[] ld er f q k vc [] rc];
      revert Hchg; dialog_cases; intros _.
      all: apply listed_closed; [done | unfold closing; auto].
    + destruct open, s as [[] ld er f q k vc [] rc];
      revert Hchg; dialog_cases; intros Hchg; try done.
      all: apply listed_closed; [done | unfold closing; auto].
  - intros [[] ld er f q k vc [] rc] Hnc; dialog_cases.
  - intros [[] ld er f q k vc [] rc] e Hopen; dialog_cases.
  - intros s a Hfail. by apply handleVerifyCode_failed.
Qed.

(** The theorem at work: the dialog is opened, and the enrollment
    succeeds. *)
Lemma dialog_step_transitions_witness :
  listed (Samples.after [OpenDialog]) (RunEffect (Ok Samples.enrollment)) Verify.
Proof.
  apply (proj1 (proj2 dialog_step_transitions) [OpenDialog]
           (Samples.after [OpenDialog]) (RunEffect (Ok Samples.enrollment))).
  - exact (run_snoc [] initial OpenDialog run_nil eq_refl).
  - reflexivity.
  - vm_compute. discriminate.
Defined.

(** ** Recovery codes on screen (C6) *)

(** Only [handleVerifyCode] enters the 'recoveryCodes' step; the other
    handlers keep the codes of a dialog that stays in it. *)
Lemma handle_keeps_codes ev s :
  (forall a, ev <> ClickVerify a) ->
  step (handle ev s).1 = RecoveryCodes ->
  step s = RecoveryCodes /\ recoveryCodes (handle ev s).1 = recoveryCodes s.
Proof.
  intros Hev.
  destruct ev; try (by destruct (Hev a)); try destruct open;
    destruct s as [[] ld er f q k vc [] rc]; dialog_cases.
Qed.

Lemma run_codes evs s :
  run evs s -> step s = RecoveryCodes ->
  recoveryCodes s <> []
  /\ exists a, ClickVerify a ∈ evs /\ verified_with a (recoveryCodes s).
Proof.
  induction 1 as [|evs s ev Hrun IH Hen]; [done|]. intros Hst.
  assert ((step s = RecoveryCodes /\ recoveryCodes (handle ev s).1 = recoveryCodes s)
          \/ exists a, ev = ClickVerify a /\ verified_with a (recoveryCodes (handle ev s).1)
                       /\ recoveryCodes (handle ev s).1 <> []) as [[Hs Hrc]|(a & -> & Hv & Hne)].
  { destruct ev as [| | |a| | | |];
      try (left; apply handle_keeps_codes; [by intros ? [=] | done]).
    simpl in Hst |- *.
    destruct (handleVerifyCode_step a s) as [[Hs Hrc]|[(l & ? & ? & _ & Hrc)|[_ Hc]]].
    - left. split; [congruence | done].
    - right. exists a. rewrite Hrc. done.
    - congruence. }
  - destruct (IH Hs) as (Hne & a & Ha & Hv). rewrite Hrc.
    split; [done|]. exists a. split; [|done]. apply elem_of_app. by left.
  - split; [done|]. exists a. split; [|done]. apply elem_of_app. right. by left.
Qed.

Lemma run_offered pre s evs :
  run pre s -> Samples.offered s evs = true ->
  run (pre ++ evs) (foldl (fun s ev => (handle ev s).1) s evs).
Proof.
  revert pre s. induction evs as [|ev evs IH]; intros pre s Hrun Hoff; simpl.
  - by rewrite app_nil_r.
  - simpl in Hoff. apply andb_true_iff in Hoff as [Hen Hoff].
    rewrite (assoc_L (++) pre [ev] evs : pre ++ ev :: evs = (pre ++ [ev]) ++ evs).
    apply IH; [|done]. by apply run_snoc.
Qed.

Lemma run_after evs : Samples.offered initial evs = true -> run evs (Samples.after evs).
Proof. intros H. apply (run_offered [] initial evs run_nil H). Qed.

Lemma displayed_codes_spec s l :
  displayed_codes s = Some l ->
  isOpen s = true /\ step s = RecoveryCodes /\ l = recoveryCodes s /\ l <> [].
Proof.
  unfold displayed_codes, renderContent.
  destruct s as [[] ld er f q k vc [] [|c rc]]; dialog_cases.
  by intros [= <-].
Qed.

Lemma renderContent_codes s :
  step s = RecoveryCodes -> recoveryCodes s <> [] ->
  renderContent s = RecoveryCodesView (recoveryCodes s).
Proof.
  unfold renderContent.
  destruct s as [o [] er f q k vc [] [|c rc]]; simpl; try done.
Qed.

Lemma verified_not_failed a l : verified_with a l -> ~ verification_failed a.
Proof.
  intros (c & d & Hc & Hd & _) [[e He]|[e He]]; congruence.
Qed.

(** Serial runs: whenever the dialog is in the 'recoveryCodes' step it
    renders its list of codes, and that list is not empty and is the list a successful
    [supabase.auth.mfa.verify] of the run so far has returned; codes on
    screen are always such a list; the step that enters 'recoveryCodes' is
    a verification that succeeded, and the list then rendered is the one
    it returned.  While every verification has failed the dialog is never
    in that step and shows no codes; a failed verification changes neither
    the step nor the list.  Conversely a verification that succeeds with a
    non-empty list, followed by calls that do not throw, enters
    'recoveryCodes' with that list. *)
Theorem recovery_codes_displayed :
  (forall evs s,
     run evs s -> step s = RecoveryCodes ->
     renderContent s = RecoveryCodesView (recoveryCodes s)
     /\ recoveryCodes s <> []
     /\ exists a, ClickVerify a ∈ evs /\ verified_with a (recoveryCodes s))
  /\ (forall evs s l,
        run evs s -> displayed_codes s = Some l ->
        l <> [] /\ exists a, ClickVerify a ∈ evs /\ verified_with a l)
  /\ (forall s a,
        step s <> RecoveryCodes ->
        step (handle (ClickVerify a) s).1 = RecoveryCodes ->
        exists l, verified_with a l /\ l <> []
                  /\ renderContent (handle (ClickVerify a) s).1 = RecoveryCodesView l)
  /\ (forall evs s,
        run evs s -> (forall a, ClickVerify a ∈ evs -> verification_failed a) ->
        step s <> RecoveryCodes /\ displayed_codes s = None)
  /\ (forall s a,
        verification_failed a ->
        step (handle (ClickVerify a) s).1 = step s
        /\ recoveryCodes (handle (ClickVerify a) s).1 = recoveryCodes s)
  /\ (forall s a l,
        enabled s (ClickVerify a) = true -> is_Some (truthy (factorId s)) ->
        verified_with a l -> l <> [] ->
        (forall e, rpc a <> Thrown e) -> refresh a = Ok tt ->
        step (handle (ClickVerify a) s).1 = RecoveryCodes
        /\ displayed_codes (handle (ClickVerify a) s).1 = Some l).
Proof.
  assert (forall evs s, run evs s -> step s = RecoveryCodes ->
            exists a, ClickVerify a ∈ evs /\ verified_with a (recoveryCodes s)) as Hfrom.
  { intros evs s Hrun Hst. by destruct (run_codes evs s Hrun Hst) as (_ & ?). }
  split_and!.
  - intros evs s Hrun Hst. destruct (run_codes evs s Hrun Hst) as (Hne & Ha).
    split_and!; [by apply renderContent_codes | done | done].
  - intros evs s l Hrun Hd.
    apply displayed_codes_spec in Hd as (_ & Hst & -> & Hne). split; [done|]. eauto.
  - intros s a Hs Hs'. simpl in *.
    destruct (handleVerifyCode_step a s) as [[Heq _]|[(l & Hv & Hne & Hst & Hrc)|[_ Hc]]];
      [congruence | | congruence].
    exists l. split_and!; [done | done |].
    rewrite <- Hrc. apply renderContent_codes; [done | by rewrite Hrc].
  - intros evs s Hrun Hall.
    assert (step s <> RecoveryCodes) as Hst.
    { intros Hst. destruct (Hfrom evs s Hrun Hst) as (a & Ha & Hv).
      by apply (verified_not_failed a _ Hv), Hall. }
    split; [done|]. destruct (displayed_codes s) as [l|] eqn:Hd; [|done].
    by apply displayed_codes_spec in Hd as (_ & ? & _).
  - intros s a Hfail. by apply handleVerifyCode_failed.
  - intros s a l Hen Hf (c & d & Hc & Hd & Hl) Hne Hrpc Href.
    pose proof (enabled_ClickVerify _ _ Hen) as Hst.
    destruct a as [ch ve rp rf]. simpl in Hc, Hd, Hrpc, Href. subst ch ve rf.
    destruct s as [[] ld er f q k vc st rc]; [|done]. simpl in Hst, Hf. subst st.
    revert Hen. unfold enabled, renderFooter. simpl.
    destruct ld; simpl; [done|].
    destruct (js_length vc =? 6) eqn:Hlen; simpl; [intros _|done].
    destruct Hf as [f' Hf]. destruct l as [|c0 l]; [done|].
    unfold displayed_codes, renderContent.
    unfold_dialog. simpl. rewrite Hf, Hlen, Hl.
    destruct rp as [[]|e|e]; [done | done | by destruct (Hrpc e)].
Qed.

(** The theorem at work: a code is typed, and the verification goes
    through. *)
Lemma recovery_codes_displayed_witness :
  displayed_codes (Samples.after (Samples.setup_events ++ [ClickVerify Samples.verified]))
  = Some Samples.codes
  /\ exists a, ClickVerify a ∈ Samples.setup_events ++ [ClickVerify Samples.verified]
               /\ verified_with a Samples.codes.
Proof.
  split; [vm_compute; reflexivity|].
  apply (proj1 (proj2 recovery_codes_displayed)
           (Samples.setup_events ++ [ClickVerify Samples.verified])
           (Samples.after (Samples.setup_events ++ [ClickVerify Samples.verified]))
           Samples.codes).
  - apply run_after. vm_compute. reflexivity.
  - vm_compute. reflexivity.
Defined.

(** ** The entered code and what the client does with it (C7) *)

Lemma digit_not_space d : is_digit d = true -> is_space d = false.
Proof.
  unfold is_digit, is_space. rewrite in_range_spec. intros [Hlo Hhi].
  repeat (apply orb_false_intro);
    try (apply N.eqb_neq; lia);
    apply not_true_iff_false; rewrite in_range_spec; lia.
Qed.

Lemma drop_spaces_nil (s : text) :
  ProfilePage.drop_spaces s = [] <-> Forall (fun c => is_space c = true) s.
Proof.
  induction s as [|c s IH]; simpl; [done|].
  rewrite Forall_cons. destruct (is_space c); [rewrite IH; tauto|].
  split; [done | by intros [? _]].
Qed.

Lemma drop_spaces_head (s : text) c r :
  ProfilePage.drop_spaces s = c :: r -> is_space c = false.
Proof.
  induction s as [|x s IH]; simpl; [done|].
  destruct (is_space x) eqn:Hx; [done|]. by intros [= <- _].
Qed.

(** [!s.trim()] holds of the strings of whitespace only. *)
Lemma blank_spec (s : text) :
  ProfilePage.blank s = true <-> Forall (fun c => is_space c = true) s.
Proof.
  unfold ProfilePage.blank, ProfilePage.trim.
  rewrite <- (drop_spaces_nil s).
  destruct (ProfilePage.drop_spaces s) as [|c r] eqn:Hd; [done|].
  apply drop_spaces_head in Hd.
  destruct (reverse _) as [|y t] eqn:Hrev; [|done].
  exfalso. apply (f_equal reverse) in Hrev. rewrite reverse_involutive in Hrev.
  apply drop_spaces_nil in Hrev. rewrite Forall_reverse in Hrev.
  apply Forall_cons in Hrev as [Hc _]. congruence.
Qed.

(** A code of digits, not empty, is not blank. *)
Lemma digits_not_blank (c : text) :
  Forall (fun x => is_digit x = true) c -> c <> [] -> ProfilePage.blank c = false.
Proof.
  intros Hc Hne. apply not_true_iff_false. rewrite blank_spec.
  destruct c as [|d c]; [done|]. intros Hsp.
  apply Forall_cons in Hc as [Hd _]. apply Forall_cons in Hsp as [Hs _].
  apply digit_not_space in Hd. congruence.
Qed.

(** What the input of the disabling form keeps is at most 6 digits. *)
Lemma onChangeCode_shape value s :
  ProfilePage.at_most_6_digits
    (ProfilePage.totpCodeForDisable (ProfilePage.onChangeCode value s)).
Proof.
  unfold ProfilePage.at_most_6_digits. simpl. split.
  - rewrite length_take. lia.
  - apply Forall_take. by apply Forall_filter_2 || (apply Forall_forall; intros x Hx;
      by apply list_elem_of_filter in Hx as [? _]).
Qed.

Lemma handleVerifyCode_code_independent a s (c1 c2 : text) :
  js_length c1 = 6 -> js_length c2 = 6 ->
  let r1 := handleVerifyCode a (set_verificationCode c1 s) in
  let r2 := handleVerifyCode a (set_verificationCode c2 s) in
  set_verificationCode [] r1.1 = set_verificationCode [] r2.1
  /\ map redact r1.2 = map redact r2.2.
Proof.
  intros H1 H2. destruct s as [o ld er f q k vc st rc], a as [ch ve rp rf].
  unfold handleVerifyCode. simpl. rewrite H1, H2. simpl.
  destruct (truthy f); [|done].
  destruct ch; [|done]. destruct ve as [d|]; [|done].
  destruct rp as [[]|e|e]; simpl; try done.
  all: destruct rf; simpl; [|done].
  all: by destruct (codes_of d) as [[|? ?]|].
Qed.

Lemma handleVerifyCode_passes_code a s f ch code :
  MfaVerify f ch code ∈ (handleVerifyCode a s).2 -> code = verificationCode s.
Proof.
  destruct s as [o ld er fi q k vc st rc], a as [c ve rp rf].
  unfold handleVerifyCode. simpl.
  repeat case_match; simpl; rewrite ?elem_of_app, ?elem_of_cons, ?elem_of_nil;
    intros Hin; decompose [or] Hin; by simplify_eq/=.
Qed.

Lemma handleDisableTotp_code_independent a (c1 c2 : text) :
  ProfilePage.blank c1 = false -> ProfilePage.blank c2 = false ->
  ProfilePage.outcome a c1 = ProfilePage.outcome a c2.
Proof.
  intros H1 H2. destruct a as [lf cv un rp rf].
  unfold ProfilePage.outcome, ProfilePage.handleDisableTotp. simpl.
  rewrite H1, H2.
  destruct lf as [factors|]; [|done].
  destruct (List.find _ factors); simpl.
  - destruct cv as [[]|e|e]; simpl; try done.
    destruct un; simpl; [|done].
    destruct rp as [[]|e|e]; simpl; try done; by destruct rf.
  - destruct rp as [[]|e|e]; simpl; try done; by destruct rf.
Qed.

Lemma handleDisableTotp_passes_code a s f code :
  ProfilePage.MfaChallengeAndVerify f code ∈ (ProfilePage.handleDisableTotp a s).2 ->
  code = ProfilePage.totpCodeForDisable s.
Proof.
  destruct s as [dis c], a as [lf cv un rp rf].
  unfold ProfilePage.handleDisableTotp, ProfilePage.caught. simpl.
  repeat case_match; simpl; rewrite ?elem_of_app, ?elem_of_cons, ?elem_of_nil;
    intros Hin; decompose [or] Hin; by simplify_eq/=.
Qed.

(** C7, with a code of 1 to 6 digits when disabling: the client checks
    only the shape of the code (6 characters once whitespace is stripped
    when enabling; not blank, and filtered by the input to at most 6
    digits, when disabling) and hands the code as typed to the provider.
    Given the same answers of the backend, two runs on two codes of that
    shape come to the same: the same state but for the typed code, the
    same calls and toasts in the same order but for the code passed on. *)
Theorem totp_code_value_independence :
  (forall a s v1 v2,
     six_after_stripping v1 -> six_after_stripping v2 ->
     outcome a s v1 = outcome a s v2)
  /\ (forall a c1 c2,
        ProfilePage.at_most_6_digits c1 -> ProfilePage.at_most_6_digits c2 ->
        c1 <> [] -> c2 <> [] ->
        ProfilePage.outcome a c1 = ProfilePage.outcome a c2)
  /\ (forall a s v f ch code,
        MfaVerify f ch code ∈ (handleVerifyCode a (onChangeCode v s)).2 ->
        code = filter (fun c => is_space c = false) v)
  /\ (forall a s f code,
        ProfilePage.MfaChallengeAndVerify f code ∈ (ProfilePage.handleDisableTotp a s).2 ->
        code = ProfilePage.totpCodeForDisable s).
Proof.
  split_and!.
  - intros a s v1 v2 H1 H2. unfold outcome, onChangeCode.
    destruct (handleVerifyCode_code_independent a s _ _ H1 H2) as [Hs He].
    simpl in Hs, He. by rewrite Hs, He.
  - intros a c1 c2 [_ H1] [_ H2] Hn1 Hn2.
    apply handleDisableTotp_code_independent; by apply digits_not_blank.
  - intros a s v f ch code H.
    apply handleVerifyCode_passes_code in H. by destruct s.
  - intros a s f code. apply handleDisableTotp_passes_code.
Qed.

(** The theorem at work: 123456 and 654321, when disabling. *)
Lemma totp_code_value_independence_witness :
  ProfilePage.outcome Samples.disabled (txt "123456")
  = ProfilePage.outcome Samples.disabled (txt "654321").
Proof.
  apply (proj1 (proj2 totp_code_value_independence) Samples.disabled
           (txt "123456") (txt "654321")).
  - split; [simpl; lia | repeat constructor].
  - split; [simpl; lia | repeat constructor].
  - discriminate.
  - discriminate.
Defined.

(** The empty code is at most 6 digits, and the run on it differs from the
    run on 123456 under the same answers: no call is made. *)
Lemma totp_disable_empty_code :
  ProfilePage.at_most_6_digits [] /\ ProfilePage.at_most_6_digits (txt "123456")
  /\ ProfilePage.outcome Samples.disabled [] <> ProfilePage.outcome Samples.disabled (txt "123456")
  /\ (ProfilePage.outcome Samples.disabled []).2 = [ProfilePage.Toast ProfilePage.EnterCode]
  /\ (ProfilePage.outcome Samples.disabled (txt "123456")).2
     = [ProfilePage.MfaListFactors;
        ProfilePage.MfaChallengeAndVerify (txt "factor-1") [];
        ProfilePage.MfaUnenroll (txt "factor-1");
        ProfilePage.RpcSetTotpEnabled false;
        ProfilePage.Toast ProfilePage.Disabled;
        ProfilePage.RefreshCurrentUserProfile].
Proof.
  split_and!.
  - split; [simpl; lia | constructor].
  - split; [simpl; lia | repeat constructor].
  - vm_compute. discriminate.
  - reflexivity.
  - vm_compute. reflexivity.
Qed.

(** ** The create-user function is not atomic (C8) *)





(** * Further properties of the code *)

(** ** set_totp_enabled *)

(** X1: [set_totp_enabled] raises 'User profile not found' exactly when
    the caller has no row in [profiles] (also without a session), whatever
    the flag passed; with a row, a flag that is not NULL is stored in the
    caller's row and nothing is raised.  A second call overwrites the
    first: the last flag wins. *)
Theorem set_totp_enabled_found
    (uid : option uuid) (v : option bool) (t : table) :
  ((set_totp_enabled uid v t).1 = Raised ProfileNotFound
   <-> uid ≫= (fun k => t !! k) = None)
  /\ (forall k p b, uid = Some k -> t !! k = Some p -> v = Some b ->
        set_totp_enabled uid v t = (Done tt, <[k := set_is_totp_enabled b p]> t))
  /\ (forall b b' t1,
        set_totp_enabled uid (Some b) t = (Done tt, t1) ->
        set_totp_enabled uid (Some b') t1 = (set_totp_enabled uid (Some b') t)).
Proof.
  split_and!.
  - rewrite set_totp_enabled_eq.
    destruct uid as [k|]; simpl; [|done].
    destruct (t !! k) as [p|]; simpl; [|done]. by destruct v.
  - intros k p b -> Hk ->. rewrite set_totp_enabled_eq. simpl. by rewrite Hk.
  - intros b b' t1. rewrite !set_totp_enabled_eq.
    destruct uid as [k|]; simpl; [|done].
    destruct (t !! k) as [p|] eqn:Hk; simpl; [|done].
    intros [= <-]. rewrite lookup_insert_eq. simpl.
    by rewrite insert_insert_eq.
Qed.

(** The theorem at work: bob enables TOTP. *)
Lemma set_totp_enabled_found_witness :
  set_totp_enabled (Some 1) (Some true) Samples.two_users
  = (Done tt, <[1 := set_is_totp_enabled true (Samples.named "bob" false)]> Samples.two_users).
Proof.
  apply (proj1 (proj2 (set_totp_enabled_found (Some 1) (Some true) Samples.two_users))
           1 (Samples.named "bob" false) true); reflexivity.
Defined.

(** ** update_username at its edges *)

(** X2: a NULL username passes every check of [update_username]: for a
    caller who has a row nothing is raised, and the caller's username
    becomes NULL. *)
Theorem update_username_null_erases
    (lower : text -> text) (uid : uuid) (p : profile) (t : table) :
  t !! uid = Some p ->
  update_username lower (Some uid) None t
  = (Done (Some (uid, set_username None p)), <[uid := set_username None p]> t).
Proof.
  intros Hrow. rewrite update_username_null. by apply update_by_id_found.
Qed.

(** The theorem at work: bob loses his username. *)
Lemma update_username_null_erases_witness :
  update_username toLowerCase (Some 1) None Samples.two_users
  = (Done (Some (1, set_username None (Samples.named "bob" false))),
     <[1 := set_username None (Samples.named "bob" false)]> Samples.two_users).
Proof.
  apply (update_username_null_erases toLowerCase 1 (Samples.named "bob" false)
           Samples.two_users).
  reflexivity.
Defined.

(** X3: which exception [update_username] raises: the one for a short
    username exactly below 3 characters; the one for a long username
    exactly above 30; the one for the characters exactly when the length
    is in range and some character is outside the class; the one for a
    taken username exactly when the username is well formed and another
    user has it, letter case ignored.  It raises no other exception. *)
Theorem update_username_which_exception
    (lower : text -> text) (uid : uuid) (s : text) (t : table) :
  let r := (update_username lower (Some uid) (Some s) t).1 in
  (r = Raised UsernameTooShort <-> (length s < 3)%nat)
  /\ (r = Raised UsernameTooLong <-> (30 < length s)%nat)
  /\ (r = Raised UsernameBadChars <->
        (3 <= length s <= 30)%nat /\ exists c, c ∈ s /\ username_char c = false)
  /\ (r = Raised UsernameTaken <-> well_formed s /\ taken_by_other lower t uid s)
  /\ (forall e, r = Raised e ->
        e = UsernameTooShort \/ e = UsernameTooLong \/ e = UsernameBadChars
        \/ e = UsernameTaken).
Proof.
  intros r. subst r. rewrite update_username_eq. unfold well_formed.
  destruct (char_length s <? 3) eqn:H3.
  { apply length_lt_3 in H3. simpl.
    repeat split; intros; destruct_and?; simplify_eq; try done; try lia; auto. }
  apply not_true_iff_false in H3. rewrite length_lt_3 in H3.
  destruct (30 <? char_length s) eqn:H30.
  { apply length_gt_30 in H30. simpl.
    repeat split; intros; destruct_and?; simplify_eq; try done; try lia; auto. }
  apply not_true_iff_false in H30. rewrite length_gt_30 in H30.
  destruct (username_regex s) eqn:Hre; simpl.
  - apply username_regex_spec in Hre as [_ Hall].
    assert (~ exists c, c ∈ s /\ username_char c = false) as Hnobad.
    { intros (c & Hc & Hbad). rewrite Forall_forall in Hall.
      specialize (Hall c Hc). congruence. }
    case_bool_decide as Hex; simpl.
    + apply taken_by_other_spec in Hex.
      repeat split; intros; destruct_and?; simplify_eq; try done; try lia; auto.
    + rewrite taken_by_other_spec in Hex.
      unfold update_by_id. destruct (t !! uid); simpl.
      all: repeat split; intros; destruct_and?; simplify_eq; try done; try lia; auto.
  - apply username_regex_false in Hre; [|lia].
    repeat split; intros; destruct_and?; simplify_eq; try done; try lia; auto.
    destruct Hre as (c & Hc & Hbad).
    match goal with H : Forall _ s |- _ => rewrite Forall_forall in H; specialize (H c Hc) end.
    congruence.
Qed.

(** The theorem at work: bob asks for the name of Alice. *)
Lemma update_username_which_exception_witness :
  (update_username toLowerCase (Some 1) (Some (txt "ALICE")) Samples.two_users).1
  = Raised UsernameTaken.
Proof.
  pose proof (update_username_which_exception toLowerCase 1 (txt "ALICE")
                Samples.two_users) as H.
  cbv zeta in H. destruct H as (_ & _ & _ & Htaken & _).
  apply Htaken. split.
  - unfold well_formed. split_and!; [vm_compute; lia | vm_compute; lia |].
    vm_compute. repeat constructor.
  - exists 2, (Samples.named "Alice" true), (txt "Alice").
    split_and!; [done | reflexivity | reflexivity | reflexivity].
Defined.

Lemma taken_by_other_insert lower (t : table) uid q s :
  taken_by_other lower (<[uid := q]> t) uid s <-> taken_by_other lower t uid s.
Proof.
  unfold taken_by_other. split; intros (i & p & u & Hne & Hp & Hu & Hl);
    exists i, p, u; split_and!; try done.
  - by rewrite lookup_insert_ne in Hp.
  - by rewrite lookup_insert_ne.
Qed.

(** X4: a call of [update_username] that returned can be repeated: the
    same call on the table it left returns the same row and leaves the
    table as it is. *)
Theorem update_username_again
    (lower : text -> text) (uid : option uuid) (new_username : option text)
    (t t' : table) (row : option (uuid * profile)) :
  update_username lower uid new_username t = (Done row, t') ->
  update_username lower uid new_username t' = (Done row, t').
Proof.
  intros Hcall.
  destruct uid as [k|]; [destruct (t !! k) as [p|] eqn:Hk|].
  - assert (t' = <[k := set_username new_username p]> t
            /\ row = Some (k, set_username new_username p)) as [-> ->].
    { destruct new_username as [s|].
      - destruct (update_username_cases lower k s t) as [[_ (e & He)]|(_ & _ & Heq)];
          [congruence|].
        rewrite Heq, (update_by_id_found _ _ _ _ Hk) in Hcall. by simplify_eq.
      - rewrite update_username_null, (update_by_id_found _ _ _ _ Hk) in Hcall.
        by simplify_eq. }
    set (p' := set_username new_username p).
    assert (update_by_id (Some k) (set_username new_username) (<[k := p']> t)
            = (Done (Some (k, p')), <[k := p']> t)) as Hagain.
    { rewrite (update_by_id_found k _ _ p') by apply lookup_insert_eq.
      by rewrite insert_insert_eq. }
    destruct new_username as [s|]; [|by rewrite update_username_null].
    destruct (update_username_cases lower k s (<[k := p']> t))
      as [[Hrej _]|(_ & _ & ->)]; [exfalso | done].
    destruct (update_username_cases lower k s t) as [[_ (e & He)]|(Hok & _)];
      [congruence|].
    apply Hok. destruct Hrej as [?|[?|[?|Htaken]]]; unfold rejected; auto.
    apply taken_by_other_insert in Htaken. auto.
  - assert (t' = t) as ->; [|done].
    destruct new_username as [s|].
    + destruct (update_username_cases lower k s t) as [[_ (e & He)]|(_ & _ & Heq)];
        [congruence|].
      rewrite Heq, (update_by_id_missing _ _ _ Hk) in Hcall. by simplify_eq.
    + rewrite update_username_null, (update_by_id_missing _ _ _ Hk) in Hcall.
      by simplify_eq.
  - assert (t' = t) as ->; [|done].
    destruct (update_username_table lower None new_username t) as [Heq|Heq];
      rewrite Hcall in Heq; simpl in Heq; done.
Qed.

(** The theorem at work: bob asks for Bobby twice. *)
Lemma update_username_again_witness :
  update_username toLowerCase (Some 1) (Some (txt "Bobby"))
    (<[1 := Samples.named "Bobby" false]> Samples.two_users)
  = (Done (Some (1, Samples.named "Bobby" false)),
     <[1 := Samples.named "Bobby" false]> Samples.two_users).
Proof.
  apply (update_username_again toLowerCase (Some 1) (Some (txt "Bobby"))
           Samples.two_users).
  vm_compute. reflexivity.
Defined.

(** X5: a username that [update_username] has stored for a caller is kept
    from every other caller: asking for it in any letter case raises an
    exception and writes nothing, the 'already taken' exception when the
    username asked for is well formed. *)
Theorem update_username_protects
    (lower : text -> text) (uid uid' : uuid) (s s' : text) (p : profile)
    (t t' : table) (row : option (uuid * profile)) :
  t !! uid = Some p ->
  update_username lower (Some uid) (Some s) t = (Done row, t') ->
  uid' <> uid ->
  lower s' = lower s ->
  exists e,
    update_username lower (Some uid') (Some s') t' = (Raised e, t')
    /\ (well_formed s' -> e = UsernameTaken).
Proof.
  intros Hrow Hcall Hne Hcase.
  assert (t' = <[uid := set_username (Some s) p]> t) as ->.
  { destruct (update_username_cases lower uid s t) as [[_ (e & He)]|(_ & _ & Heq)];
      [congruence|].
    rewrite Heq, (update_by_id_found _ _ _ _ Hrow) in Hcall. by simplify_eq. }
  rewrite update_username_eq.
  destruct (char_length s' <? 3) eqn:H3.
  { eexists. split; [done|]. intros (? & _). apply length_lt_3 in H3. lia. }
  destruct (30 <? char_length s') eqn:H30.
  { eexists. split; [done|]. intros (_ & ? & _). apply length_gt_30 in H30. lia. }
  destruct (username_regex s') eqn:Hre; simpl.
  - rewrite bool_decide_eq_true_2; [by eexists|].
    apply taken_by_other_spec.
    exists uid, (set_username (Some s) p), s.
    split_and!; [done | apply lookup_insert_eq | done | done].
  - eexists. split; [done|]. intros (H3' & _ & Hall).
    assert (username_regex s' = true); [|congruence].
    apply username_regex_spec. split; [|done]. intros ->. simpl in H3'. lia.
Qed.

(** The theorem at work: once bob is Bobby, Alice may not become BOBBY. *)
Lemma update_username_protects_witness :
  exists e,
    update_username toLowerCase (Some 2) (Some (txt "BOBBY"))
      (<[1 := Samples.named "Bobby" false]> Samples.two_users)
    = (Raised e, <[1 := Samples.named "Bobby" false]> Samples.two_users)
    /\ (well_formed (txt "BOBBY") -> e = UsernameTaken).
Proof.
  apply (update_username_protects toLowerCase 1 2 (txt "Bobby") (txt "BOBBY")
           (Samples.named "bob" false) Samples.two_users _
           (Some (1, Samples.named "Bobby" false))).
  - reflexivity.
  - vm_compute. reflexivity.
  - discriminate.
  - vm_compute. reflexivity.
Defined.

(** ** How the two RPCs compose *)

Lemma insert_as_alter (f : profile -> profile) k p (t : table) :
  t !! k = Some p -> <[k := f p]> t = alter f k t.
Proof.
  intros Hk. apply map_eq. intros i. destruct (decide (k = i)) as [->|Hne].
  - by rewrite lookup_insert_eq, lookup_alter_eq, Hk.
  - by rewrite lookup_insert_ne, lookup_alter_ne.
Qed.

Lemma alter_missing (f : profile -> profile) k (t : table) :
  t !! k = None -> alter f k t = t.
Proof.
  intros Hk. apply map_eq. intros i. destruct (decide (k = i)) as [->|Hne].
  - by rewrite lookup_alter_eq, Hk.
  - by rewrite lookup_alter_ne.
Qed.

Lemma committed_set_totp_enabled uid v (t : table) :
  committed t (set_totp_enabled uid v t) =
    match uid, v with
    | Some k, Some b => alter (set_is_totp_enabled b) k t
    | _, _ => t
    end.
Proof.
  rewrite set_totp_enabled_eq. destruct uid as [k|]; simpl; [|done].
  destruct (t !! k) as [p|] eqn:Hk; simpl.
  - destruct v as [b|]; simpl; [|done]. by apply insert_as_alter.
  - destruct v; [|done]. by rewrite alter_missing.
Qed.

Lemma committed_update_username lower uid new (t : table) :
  committed t (update_username lower uid new t) =
    match (update_username lower uid new t).1, uid with
    | Done _, Some k => alter (set_username new) k t
    | _, _ => t
    end.
Proof.
  assert (forall f, update_by_id uid f t
                    = (Done (uid ≫= fun k => pair k ∘ f <$> t !! k),
                       match uid with Some k => alter f k t | None => t end)) as Hupd.
  { intros f. unfold update_by_id. destruct uid as [k|]; simpl; [|done].
    destruct (t !! k) as [p|] eqn:Hk; simpl.
    - by rewrite (insert_as_alter f k p t Hk).
    - by rewrite alter_missing. }
  destruct new as [s|].
  - rewrite update_username_eq, Hupd.
    destruct (char_length s <? 3), (30 <? char_length s), (negb (username_regex s));
      simpl; try done; case_bool_decide; simpl; try done; by destruct uid.
  - rewrite update_username_null, Hupd. simpl. by destruct uid.
Qed.

(** [update_username] does not read [is_totp_enabled]. *)
Lemma update_username_ignores_totp lower uid new b k (t : table) :
  (exists e, (update_username lower uid new (alter (set_is_totp_enabled b) k t)).1 = Raised e)
  <-> exists e, (update_username lower uid new t).1 = Raised e.
Proof.
  assert (forall t0 : table, forall f e, (update_by_id uid f t0).1 <> Raised e) as Hdone.
  { intros t0 f e. by destruct (update_by_id_frame uid f t0) as (r & -> & _). }
  destruct new as [s|].
  - rewrite !update_username_eq.
    assert (bool_decide (map_Exists (fun id p => holds (other_with_name lower uid (Some s) id p) = true)
                           (alter (set_is_totp_enabled b) k t))
            = bool_decide (map_Exists (fun id p => holds (other_with_name lower uid (Some s) id p) = true) t))
      as ->.
    { apply bool_decide_ext. unfold map_Exists. split.
      - intros (i & p & Hp & Hh). rewrite lookup_alter in Hp.
        case_decide; [|by eauto].
        subst. destruct (t !! i) as [p0|] eqn:Hi; [|done].
        injection Hp as <-. exists i, p0. done.
      - intros (i & p & Hp & Hh). destruct (decide (k = i)) as [->|Hne].
        + exists i, (set_is_totp_enabled b p). by rewrite lookup_alter_eq, Hp.
        + exists i, p. by rewrite lookup_alter_ne. }
    destruct (char_length s <? 3), (30 <? char_length s), (negb (username_regex s));
      simpl; try (split; by eauto).
    case_bool_decide; simpl; [split; by eauto|].
    split; intros (e & He); by apply Hdone in He.
  - rewrite !update_username_null. split; intros (e & He); by apply Hdone in He.
Qed.

(** X6: [update_username] and [set_totp_enabled] commute, each call a
    transaction of its own: whoever the two callers are and whatever is
    passed, the table after the one and then the other is the table after
    them in the other order. *)
Theorem rpcs_commute
    (lower : text -> text) (uid uid' : option uuid) (new_username : option text)
    (p_is_enabled : option bool) (t : table) :
  let U t := committed t (update_username lower uid new_username t) in
  let T t := committed t (set_totp_enabled uid' p_is_enabled t) in
  U (T t) = T (U t).
Proof.
  intros U T. subst U T. cbv beta. rewrite !committed_set_totp_enabled.
  destruct uid' as [k'|]; [|done]. destruct p_is_enabled as [b|]; [|done].
  rewrite !committed_update_username.
  pose proof (update_username_ignores_totp lower uid new_username b k' t) as Hsame.
  destruct (update_username lower uid new_username t).1 as [r|e] eqn:H1,
           (update_username lower uid new_username
              (alter (set_is_totp_enabled b) k' t)).1 as [r'|e'] eqn:H2.
  - destruct uid as [k|]; [|done].
    apply map_eq. intros i. rewrite !lookup_alter.
    repeat case_decide; rewrite ?lookup_alter; repeat case_decide;
      simplify_eq; try done.
    by destruct (t !! _).
  - exfalso. destruct (proj1 Hsame) as (e & ?); [by eauto | done].
  - exfalso. destruct (proj2 Hsame) as (e' & ?); [by eauto | done].
  - done.
Qed.

(** X7: without a session [update_username] never writes and never
    raises the 'already taken' exception: it raises one of its three
    format exceptions or returns NULL. *)
Theorem update_username_without_session
    (lower : text -> text) (new_username : option text) (t : table) :
  (update_username lower None new_username t).2 = t
  /\ (update_username lower None new_username t).1 <> Raised UsernameTaken
  /\ ((exists e, (update_username lower None new_username t).1 = Raised e
                 /\ format_exn e = true)
      \/ (update_username lower None new_username t).1 = Done None).
Proof.
  destruct new_username as [s|].
  - rewrite update_username_eq.
    destruct (char_length s <? 3); [split_and!; [done | done | left; by eexists]|].
    destruct (30 <? char_length s); [split_and!; [done | done | left; by eexists]|].
    destruct (negb (username_regex s)); [split_and!; [done | done | left; by eexists]|].
    rewrite bool_decide_eq_false_2.
    + split_and!; [done | done | by right].
    + intros (i & p & _ & H). by rewrite other_with_name_no_session in H.
  - rewrite update_username_null. split_and!; [done | done | by right].
Qed.

(** ** The phone number RPC *)

Lemma drop_blanks_split (s : text) :
  exists pre, s = pre ++ Phone.drop_blanks s /\ Forall (fun c => c = 32) pre.
Proof.
  induction s as [|c s (pre & Hs & Hpre)]; simpl; [by exists []|].
  destruct (c =? 32) eqn:Hc.
  - apply N.eqb_eq in Hc. exists (c :: pre). split; [simpl; by f_equal | by constructor].
  - by exists [].
Qed.

Lemma drop_blanks_head (s : text) : head (Phone.drop_blanks s) <> Some 32.
Proof.
  induction s as [|c s IH]; simpl; [done|].
  destruct (c =? 32) eqn:Hc; [done|]. simpl. apply N.eqb_neq in Hc. congruence.
Qed.

Lemma drop_blanks_id (s : text) : head s <> Some 32 -> Phone.drop_blanks s = s.
Proof.
  destruct s as [|c s]; simpl; [done|]. intros Hc.
  destruct (c =? 32) eqn:Heq; [|done]. apply N.eqb_eq in Heq. congruence.
Qed.

Lemma drop_blanks_last (s : text) :
  Phone.drop_blanks s <> [] -> last (Phone.drop_blanks s) = last s.
Proof.
  intros Hne. destruct (drop_blanks_split s) as (pre & Hs & _).
  rewrite Hs at 2. rewrite last_app.
  destruct (last (Phone.drop_blanks s)) eqn:Hl; [done|].
  by apply last_None in Hl.
Qed.

(** [trim] leaves no space at either end, and nothing to trim. *)
Lemma trim_ends (s : text) :
  head (Phone.trim s) <> Some 32 /\ last (Phone.trim s) <> Some 32
  /\ Phone.trim (Phone.trim s) = Phone.trim s.
Proof.
  assert (head (Phone.trim s) <> Some 32 /\ last (Phone.trim s) <> Some 32) as [Hh Hl].
  { unfold Phone.trim. rewrite head_reverse, last_reverse. split; [|apply drop_blanks_head].
    destruct (decide (Phone.drop_blanks (reverse (Phone.drop_blanks s)) = [])) as [->|Hne];
      [done|].
    rewrite (drop_blanks_last _ Hne), last_reverse. apply drop_blanks_head. }
  split_and!; [done | done |].
  unfold Phone.trim at 1. rewrite (drop_blanks_id _ Hh).
  rewrite drop_blanks_id; [apply reverse_involutive|]. by rewrite head_reverse.
Qed.

(** What is blank for [trim]: the strings of spaces. *)
Lemma trim_nil (s : text) : Phone.trim s = [] <-> Forall (fun c => c = 32) s.
Proof.
  unfold Phone.trim. split.
  - intros H. apply (f_equal reverse) in H. rewrite reverse_involutive in H.
    change (reverse []) with (@nil N) in H.
    destruct (drop_blanks_split (reverse (Phone.drop_blanks s))) as (pre & Hs & Hpre).
    rewrite H, app_nil_r in Hs.
    destruct (drop_blanks_split s) as (pre' & Hs' & Hpre').
    rewrite Hs'. apply Forall_app. split; [done|].
    apply Forall_reverse. by rewrite Hs.
  - intros Hall.
    assert (Phone.drop_blanks s = []) as ->.
    { induction Hall as [|c s -> _ IH]; [done|]. done. }
    done.
Qed.

(** [UPDATE .. WHERE id = auth.uid()] on the keyed table, and FOUND. *)
Lemma update_phone_number_eq uid p (t : gmap N Phone.row) :
  Phone.update_phone_number uid p t =
    match uid ≫= (fun k => pair k <$> t !! k) with
    | None => (Raised ProfileNotFound, t)
    | Some (k, r) => (Done tt, <[k := Phone.set_phone_number (Phone.cleaned p) r]> t)
    end.
Proof.
  unfold Phone.update_phone_number.
  destruct (uid ≫= (fun k => pair k <$> t !! k)) as [[k r]|] eqn:Hrow.
  - assert (uid = Some k /\ t !! k = Some r) as [-> Hk].
    { destruct uid as [k'|]; simpl in Hrow; [|done].
      destruct (t !! k') eqn:?; simplify_eq/=. done. }
    rewrite bool_decide_eq_true_2.
    2:{ exists k, r. split; [done|]. by apply holds_where_id. }
    f_equal. rewrite insert_union_singleton_l. f_equal.
    apply map_eq. intros i. rewrite map_lookup_imap.
    destruct (decide (i = k)) as [->|Hne].
    + rewrite Hk, lookup_singleton_eq. cbn [mbind option_bind].
      by rewrite (proj2 (holds_where_id (Some k) k) eq_refl).
    + rewrite lookup_singleton_ne by done.
      destruct (t !! i) as [q|]; [|done]. cbn [mbind option_bind].
      destruct (holds (sql_eq (Some i) (Some k))) eqn:Hsel; [|done].
      apply holds_where_id in Hsel. congruence.
  - assert (forall i q, t !! i = Some q -> holds (sql_eq (Some i) uid) = false) as Hnone.
    { intros i q Hq. apply not_true_iff_false. rewrite holds_where_id. intros ->.
      simpl in Hrow. by rewrite Hq in Hrow. }
    rewrite bool_decide_eq_false_2.
    2:{ intros (i & q & Hq & Hsel). by rewrite (Hnone i q Hq) in Hsel. }
    f_equal.
    match goal with |- ?w ∪ t = t => assert (w = ∅) as -> end;
      [|apply (left_id_L ∅ (∪))].
    apply map_eq. intros i. rewrite map_lookup_imap, lookup_empty.
    destruct (t !! i) as [q|] eqn:Hq; [|done]. cbn [mbind option_bind].
    by rewrite (Hnone i q Hq).
Qed.

(** X8: [update_phone_number] raises exactly when the caller has no row
    (also without a session), and then has written nothing; it rejects no
    value.  With a row it stores NULL for NULL and for a string of spaces,
    else the string without the spaces at its ends; it changes no other
    column and no other row. *)
Theorem update_phone_number_stores
    (uid : option uuid) (p : option text) (t : gmap N Phone.row) :
  ((exists e, (Phone.update_phone_number uid p t).1 = Raised e)
   <-> uid ≫= (fun k => t !! k) = None)
  /\ (forall e, (Phone.update_phone_number uid p t).1 = Raised e ->
        e = ProfileNotFound /\ (Phone.update_phone_number uid p t).2 = t)
  /\ (forall k r, uid = Some k -> t !! k = Some r ->
        exists r',
          Phone.update_phone_number uid p t = (Done tt, <[k := r']> t)
          /\ Phone.base r' = Phone.base r
          /\ Phone.phone_number r' =
               match p with
               | None => None
               | Some s => if bool_decide (Forall (fun c => c = 32) s) then None
                           else Some (Phone.trim s)
               end)
  /\ (forall j, Some j <> uid -> (Phone.update_phone_number uid p t).2 !! j = t !! j).
Proof.
  rewrite update_phone_number_eq.
  destruct uid as [k|]; simpl.
  2:{ split_and!; [split; by eauto | by intros e [= <-] | done | done]. }
  destruct (t !! k) as [r|] eqn:Hk; simpl.
  - split_and!.
    + split; [by intros (e & ?) | done].
    + done.
    + intros k' r' Hk' Hr'. injection Hk' as <-. rewrite Hk in Hr'. injection Hr' as <-.
      exists (Phone.set_phone_number (Phone.cleaned p) r). split_and!; [done | done |].
      simpl. destruct p as [s|]; simpl; [|done].
      by rewrite (bool_decide_ext _ _ (trim_nil s)).
    + intros j Hj. rewrite lookup_insert_ne; [done | congruence].
  - split_and!; [split; by eauto | by intros e [= <-] | | done].
    intros k' r' [= <-] Hr'. congruence.
Qed.

(** The theorem at work: bob stores a number typed with spaces around. *)
Lemma update_phone_number_stores_witness :
  exists r',
    Phone.update_phone_number (Some 1) (Some (txt "  +33 6 12 34 56 78 ")) Cases.phones
    = (Done tt, <[1 := r']> Cases.phones)
    /\ Phone.base r' = Samples.named "bob" false
    /\ Phone.phone_number r' = Some (txt "+33 6 12 34 56 78").
Proof.
  destruct (proj1 (proj2 (proj2
              (update_phone_number_stores (Some 1) (Some (txt "  +33 6 12 34 56 78 "))
                 Cases.phones)))
              1 (Phone.Row (Samples.named "bob" false) None) eq_refl eq_refl)
    as (r' & Heq & Hbase & Hphone).
  exists r'. split_and!; [exact Heq | exact Hbase |].
  rewrite Hphone. vm_compute. reflexivity.
Defined.

(** X9: the phone number [update_phone_number] has stored is NULL or a
    string that is not empty and has no space at either end; it is NULL
    exactly for NULL and for the strings of spaces (a tab is no space). *)
Theorem update_phone_number_clean
    (uid : option uuid) (p : option text) (t t' : gmap N Phone.row) (k : uuid)
    (r' : Phone.row) :
  Phone.update_phone_number uid p t = (Done tt, t') ->
  uid = Some k ->
  t' !! k = Some r' ->
  match Phone.phone_number r' with
  | None => p = None \/ exists s, p = Some s /\ Forall (fun c => c = 32) s
  | Some v => v <> [] /\ head v <> Some 32 /\ last v <> Some 32
              /\ exists s, p = Some s /\ v = Phone.trim s
  end.
Proof.
  rewrite update_phone_number_eq. intros Hcall -> Hr'. simpl in Hcall.
  destruct (t !! k) as [r|]; simpl in Hcall; [|done].
  injection Hcall as <-. rewrite lookup_insert_eq in Hr'. injection Hr' as <-.
  simpl. destruct p as [s|]; simpl; [|by left].
  case_bool_decide as Hnil.
  - right. exists s. split; [done|]. by apply trim_nil.
  - destruct (trim_ends s) as (Hh & Hl & _). split_and!; [done | done | done |].
    by exists s.
Qed.

(** The theorem at work: a number of spaces only is stored as NULL. *)
Lemma update_phone_number_clean_witness :
  Some (txt "   ") = None
  \/ exists s, Some (txt "   ") = Some s /\ Forall (fun c => c = 32) s.
Proof.
  apply (update_phone_number_clean (Some 1) (Some (txt "   ")) Cases.phones
           (<[1 := Phone.Row (Samples.named "bob" false) None]> Cases.phones) 1
           (Phone.Row (Samples.named "bob" false) None)).
  - vm_compute. reflexivity.
  - reflexivity.
  - reflexivity.
Defined.

(** X10: what [update_phone_number] has stored can be passed to it again:
    the second call stores the same value, the table stays as the first
    call left it. *)
Theorem update_phone_number_again
    (uid : option uuid) (p : option text) (t t' : gmap N Phone.row) (k : uuid)
    (r' : Phone.row) :
  Phone.update_phone_number uid p t = (Done tt, t') ->
  uid = Some k ->
  t' !! k = Some r' ->
  Phone.update_phone_number uid (Phone.phone_number r') t' = (Done tt, t').
Proof.
  assert (Phone.cleaned (Phone.cleaned p) = Phone.cleaned p) as Hidem.
  { destruct p as [s|]; simpl; [|done].
    case_bool_decide as Hnil; simpl; [done|].
    destruct (trim_ends s) as (_ & _ & ->). by rewrite bool_decide_eq_false_2. }
  rewrite !update_phone_number_eq. intros Hcall -> Hr'. simpl in Hcall |- *.
  rewrite Hr'. simpl.
  destruct (t !! k) as [r|]; simpl in Hcall; [|done].
  injection Hcall as <-. rewrite lookup_insert_eq in Hr'. injection Hr' as <-.
  rewrite insert_insert_eq. unfold Phone.set_phone_number. simpl. by rewrite Hidem.
Qed.

(** The theorem at work: the stored number, passed again. *)
Lemma update_phone_number_again_witness :
  Phone.update_phone_number (Some 1) (Some (txt "+33 6 12 34 56 78"))
    (<[1 := Phone.Row (Samples.named "bob" false) (Some (txt "+33 6 12 34 56 78"))]>
       Cases.phones)
  = (Done tt,
     <[1 := Phone.Row (Samples.named "bob" false) (Some (txt "+33 6 12 34 56 78"))]>
       Cases.phones).
Proof.
  apply (update_phone_number_again (Some 1) (Some (txt "  +33 6 12 34 56 78 "))
           Cases.phones _ 1
           (Phone.Row (Samples.named "bob" false) (Some (txt "+33 6 12 34 56 78")))).
  - vm_compute. reflexivity.
  - reflexivity.
  - reflexivity.
Defined.

(** ** Submitting the username form *)

(** X11: the form sends a username to the server at most once per submit,
    and exactly when the schema accepts it and it differs from the current
    one; an unchanged username cancels the edit instead.  [onSaveSuccess]
    is called exactly when the RPC returned without error and the profile
    refresh did not throw; [isSubmitting] is false after every submit that
    called the server. *)
Theorem username_form_calls
    (currentUsername username : text) (a : UsernameForm.answers) (isSubmitting : bool) :
  let r := UsernameForm.handleSubmit currentUsername a isSubmitting username in
  let sent := UsernameEditForm.accepts username
              && negb (bool_decide (username = currentUsername)) in
  UsernameForm.rpc_calls r.2 = (if sent then [username] else [])
  /\ r.1 = (if sent then false else isSubmitting)
  /\ (UsernameForm.OnCancel ∈ r.2 <->
        UsernameEditForm.accepts username = true /\ username = currentUsername)
  /\ (forall w, UsernameForm.OnSaveSuccess w ∈ r.2 <->
        w = username /\ sent = true
        /\ UsernameForm.rpc a = Fine tt /\ UsernameForm.refresh a = Ok tt).
Proof.
  intros r sent. subst r sent.
  unfold UsernameForm.handleSubmit, UsernameEditForm.accepts.
  destruct (UsernameEditForm.usernameFormSchema username) as [|i l] eqn:Hschema.
  - rewrite bool_decide_eq_true_2 by done. simpl.
    unfold UsernameForm.onSubmit.
    case_bool_decide as Hsame; simpl.
    + split_and!; [done | done | |].
      * rewrite !elem_of_cons, elem_of_nil. split; [done | auto].
      * intros w. rewrite !elem_of_cons, elem_of_nil. split; [|by intros (_ & ? & _)].
        intros [?|[?|?]]; done.
    + destruct a as [[[]|e|e] [[]|e']]; simpl.
      all: split_and!; [done | done | |].
      all: try (rewrite ?elem_of_cons, ?elem_of_nil; split;
                [intros H; decompose [or] H; done | by intros [_ ?]]).
      all: intros w; rewrite ?elem_of_cons, ?elem_of_nil; split;
        [intros H; decompose [or] H; simplify_eq; done
        | intros (-> & _ & ? & ?); simplify_eq; auto 10].
  - rewrite bool_decide_eq_false_2 by done. simpl.
    split_and!; [done | done | |].
    + rewrite elem_of_cons, elem_of_nil. split; [by intros [?|?] | by intros [? _]].
    + intros w. rewrite elem_of_cons, elem_of_nil. split; [by intros [?|?] | by intros (_ & ? & _)].
Qed.

(** The theorem at work: bob submits Bobby, and all goes well. *)
Lemma username_form_calls_witness :
  UsernameForm.OnSaveSuccess (txt "Bobby")
  ∈ (UsernameForm.handleSubmit (txt "bob")
       {| UsernameForm.rpc := Fine tt; UsernameForm.refresh := Ok tt |}
       false (txt "Bobby")).2.
Proof.
  pose proof (username_form_calls (txt "bob") (txt "Bobby")
                {| UsernameForm.rpc := Fine tt; UsernameForm.refresh := Ok tt |} false) as H.
  cbv zeta in H. destruct H as (_ & _ & _ & Hsaved).
  apply Hsaved. split_and!; [reflexivity | vm_compute; reflexivity | reflexivity..].
Defined.

Lemma update_username_well_formed lower uid s (t : table) :
  well_formed s ->
  update_username lower uid (Some s) t = (Raised UsernameTaken, t)
  \/ update_username lower uid (Some s) t = update_by_id uid (set_username (Some s)) t.
Proof.
  intros (H3 & H30 & Hall). rewrite update_username_eq.
  assert ((char_length s <? 3) = false) as ->.
  { apply not_true_iff_false. rewrite length_lt_3. lia. }
  assert ((30 <? char_length s) = false) as ->.
  { apply not_true_iff_false. rewrite length_gt_30. lia. }
  assert (username_regex s = true) as ->.
  { apply username_regex_spec. split; [|done]. intros ->. simpl in H3. lia. }
  simpl. case_bool_decide; auto.
Qed.

(** X12: the form against the database, for a caller who has a row: a
    username the form sends never makes [update_username] raise one of its
    format exceptions; when the form shows the success toast the caller's
    row holds the submitted username, which is well formed, and
    [onSaveSuccess] is called only then; without that toast the table is
    as it was. *)
Theorem username_form_end_to_end
    (lower : text -> text) (uid : uuid) (p : profile) (t : table)
    (currentUsername username : text) (a : UsernameForm.answers) (isSubmitting : bool) :
  t !! uid = Some p ->
  UsernameForm.answered_by lower (Some uid) t username (UsernameForm.rpc a) ->
  let effs := (UsernameForm.handleSubmit currentUsername a isSubmitting username).2 in
  let t' := UsernameForm.apply_effects lower (Some uid) effs t in
  (forall w e, w ∈ UsernameForm.rpc_calls effs ->
     (update_username lower (Some uid) (Some w) t).1 = Raised e -> e = UsernameTaken)
  /\ (UsernameForm.Toast UsernameForm.Updated ∈ effs ->
        t' = <[uid := set_username (Some username) p]> t /\ well_formed username)
  /\ (forall w, UsernameForm.OnSaveSuccess w ∈ effs ->
        w = username /\ UsernameForm.Toast UsernameForm.Updated ∈ effs)
  /\ (UsernameForm.Toast UsernameForm.Updated ∉ effs -> t' = t).
Proof.
  intros Hrow Hans effs t'. subst effs t'.
  unfold UsernameForm.handleSubmit.
  destruct (UsernameEditForm.usernameFormSchema username) as [|i l] eqn:Hschema.
  2:{ simpl. split_and!; [by intros w e H; apply elem_of_nil in H | | | done].
      - rewrite elem_of_cons, elem_of_nil. by intros [?|?].
      - intros w. rewrite elem_of_cons, elem_of_nil. by intros [?|?]. }
  assert (UsernameEditForm.accepts username = true) as Hacc.
  { unfold UsernameEditForm.accepts. by rewrite Hschema, bool_decide_eq_true_2. }
  pose proof (proj1 (accepts_well_formed username) Hacc) as Hwf.
  unfold UsernameForm.onSubmit. case_bool_decide as Hsame; simpl.
  { split_and!; [by intros w e H; apply elem_of_nil in H | | | done].
    - rewrite !elem_of_cons, elem_of_nil. intros [?|[?|?]]; done.
    - intros w. rewrite !elem_of_cons, elem_of_nil. intros [?|[?|?]]; done. }
  unfold UsernameForm.answered_by in Hans.
  assert (forall w e,
            w ∈ [username] ->
            (update_username lower (Some uid) (Some w) t).1 = Raised e ->
            e = UsernameTaken) as Hfmt.
  { intros w e Hw He. apply list_elem_of_singleton in Hw as ->.
    destruct (update_username_well_formed lower (Some uid) username t Hwf) as [Hc|Hc];
      rewrite Hc in He.
    - by injection He.
    - by rewrite (update_by_id_found _ _ _ _ Hrow) in He. }
  destruct (update_username_well_formed lower (Some uid) username t Hwf) as [Hc|Hc];
    [|rewrite (update_by_id_found _ _ _ _ Hrow) in Hc]; rewrite Hc in Hans;
    simpl in Hans.
  - destruct Hans as (e1 & ->). simpl. rewrite Hc. simpl.
    split_and!; [done | | | done].
    + rewrite !elem_of_cons, elem_of_nil. intros [?|[?|?]]; done.
    + intros w. rewrite !elem_of_cons, elem_of_nil. intros [?|[?|?]]; done.
  - rewrite Hans. destruct (UsernameForm.refresh a); simpl; rewrite Hc; simpl.
    + split_and!; [done | done | |].
      * intros w. rewrite !elem_of_cons, elem_of_nil.
        intros H; decompose [or] H; simplify_eq. split; [done|]. auto.
      * intros Hno. exfalso. apply Hno. rewrite !elem_of_cons. auto.
    + split_and!; [done | done | |].
      * intros w. rewrite !elem_of_cons, elem_of_nil.
        intros H; decompose [or] H; simplify_eq.
      * intros Hno. exfalso. apply Hno. rewrite !elem_of_cons. auto.
Qed.

(** The theorem at work: bob submits Bobby, and the database takes it. *)
Lemma username_form_end_to_end_witness :
  UsernameForm.apply_effects toLowerCase (Some 1)
    (UsernameForm.handleSubmit (txt "bob")
       {| UsernameForm.rpc := Fine tt; UsernameForm.refresh := Ok tt |}
       false (txt "Bobby")).2 Samples.two_users
  = <[1 := set_username (Some (txt "Bobby")) (Samples.named "bob" false)]> Samples.two_users
  /\ well_formed (txt "Bobby").
Proof.
  pose proof (username_form_end_to_end toLowerCase 1 (Samples.named "bob" false)
                Samples.two_users (txt "bob") (txt "Bobby")
                {| UsernameForm.rpc := Fine tt; UsernameForm.refresh := Ok tt |} false
                eq_refl ltac:(vm_compute; reflexivity)) as H.
  cbv zeta in H. destruct H as (_ & Hupdated & _).
  apply Hupdated. apply (list_elem_of_lookup_2 _ 1%nat). reflexivity.
Defined.

(** ** The admin page *)

Ltac in_list :=
  cbn [fst snd]; rewrite ?elem_of_app, ?elem_of_cons, ?elem_of_nil;
  let H := fresh in intros H; decompose [or] H; simplify_eq; try done.

(** Shared fact on the handler's writes. *)
Lemma change_role_writes context userId newRole update fetch s id r :
  UserManagementPage.ProfilesUpdateRole id r
  ∈ (UserManagementPage.handleChangeRole context userId newRole update fetch s).2 ->
  id = userId /\ truthy newRole = Some r.
Proof.
  unfold UserManagementPage.handleChangeRole, UserManagementPage.fetchUsers.
  destruct (truthy newRole) as [nr|]; simpl; [|in_list].
  match goal with |- context [if ?b then _ else _] => destruct b end; simpl; [in_list|].
  destruct update, fetch; simpl; in_list.
Qed.

(** What [handleDeleteUser] sends, in terms of the component's state. *)
Lemma handleDeleteUser_sends userId id confirmed invoke fetch s :
  UserManagementPage.InvokeDeleteUserAdmin id
  ∈ (UserManagementPage.handleDeleteUser userId confirmed invoke fetch s).2 ->
  id = userId
  /\ UserManagementPage.currentAdminUserId s <> Some userId
  /\ confirmed = true.
Proof.
  unfold UserManagementPage.handleDeleteUser, UserManagementPage.fetchUsers.
  case_bool_decide as Hself; simpl; [in_list|].
  destruct confirmed; simpl; [|in_list].
  destruct invoke, fetch; simpl; in_list.
Qed.

(** What [handleChangeRole] sends, in terms of the component's state. *)
Lemma handleChangeRole_sends context userId newRole update fetch s id r :
  UserManagementPage.ProfilesUpdateRole id r
  ∈ (UserManagementPage.handleChangeRole context userId newRole update fetch s).2 <->
  id = userId /\ truthy newRole = Some r
  /\ ~ (Some userId = UserManagementPage.currentAdminUserId s
        /\ Auth.profile context ≫= role = Some (txt "admin")
        /\ r <> txt "admin").
Proof.
  unfold UserManagementPage.handleChangeRole, UserManagementPage.fetchUsers.
  destruct (truthy newRole) as [nr|]; simpl.
  2:{ split; [in_list | by intros (_ & ? & _)]. }
  unfold Auth.role_is.
  repeat case_bool_decide; simpl.
  all: try (split; [in_list | intros (-> & [= <-] & Hno); exfalso; by apply Hno]).
  all: destruct update, fetch; simpl; split;
    try (in_list; split_and!; [done | done | by intros (? & ? & ?)]).
  all: intros (-> & [= <-] & _); rewrite ?elem_of_cons; auto.
Qed.

(** What a click on the menu sends, in terms of the component's state. *)
Lemma click_sends context a user i s :
  let effs := (UserManagementPage.click context a user i s).2 in
  (forall id, UserManagementPage.InvokeDeleteUserAdmin id ∈ effs ->
     i = UserManagementPage.Delete /\ id = UserManagementPage.id user
     /\ UserManagementPage.currentAdminUserId s <> Some id
     /\ UserManagementPage.confirmed a = true)
  /\ (forall id r, UserManagementPage.ProfilesUpdateRole id r ∈ effs ->
        id = UserManagementPage.id user
        /\ UserManagementPage.role user <> Some r
        /\ (r = txt "moderator" \/ r = txt "admin" \/ r = txt "user")
        /\ (UserManagementPage.own_row context s user = true -> r = txt "admin"))
  /\ (forall id st, UserManagementPage.ProfilesUpdateStatus id st ∈ effs ->
        i = UserManagementPage.Approve /\ id = UserManagementPage.id user
        /\ st = txt "approved"
        /\ UserManagementPage.status user = Some (txt "pending_approval")).
Proof.
  intros effs. subst effs.
  unfold UserManagementPage.click, UserManagementPage.offered,
    UserManagementPage.is_literal, Auth.role_is.
  split_and!.
  - intros id. destruct i; simpl.
    1-5: repeat case_bool_decide; simpl;
      unfold UserManagementPage.handleApproveUser, UserManagementPage.handleChangeRole,
        UserManagementPage.fetchUsers, Auth.role_is; simpl;
      repeat case_bool_decide; simpl;
      try destruct (UserManagementPage.own_row context s user); simpl;
      try destruct (UserManagementPage.update a); simpl;
      try destruct (UserManagementPage.fetch a); simpl; in_list.
    case_bool_decide as Hown; simpl; [in_list|].
    unfold UserManagementPage.handleDeleteUser, UserManagementPage.fetchUsers.
    case_bool_decide; simpl; [in_list|].
    destruct (UserManagementPage.confirmed a); simpl; [|in_list].
    destruct (UserManagementPage.invoke a), (UserManagementPage.fetch a); simpl; in_list.
  - intros id r. destruct i; simpl.
    + in_list.
    + case_bool_decide; simpl; [|in_list].
      unfold UserManagementPage.handleApproveUser, UserManagementPage.fetchUsers.
      destruct (UserManagementPage.update a), (UserManagementPage.fetch a); simpl; in_list.
    + destruct (UserManagementPage.own_row context s user) eqn:Hown; simpl; [in_list|].
      case_bool_decide as Hrole; simpl; [in_list|].
      intros Hin. apply change_role_writes in Hin as (-> & Hr).
      assert (r = txt "moderator") as ->
        by (change (Some (txt "moderator") = Some r) in Hr; congruence).
      split_and!; first [done | auto].
    + repeat case_bool_decide; simpl; try (in_list; fail).
      intros Hin. apply change_role_writes in Hin as (-> & Hr).
      assert (r = txt "admin") as ->
        by (change (Some (txt "admin") = Some r) in Hr; congruence).
      split_and!; first [done | auto].
    + destruct (UserManagementPage.own_row context s user) eqn:Hown; simpl; [in_list|].
      case_bool_decide as Hrole; simpl; [in_list|].
      intros Hin. apply change_role_writes in Hin as (-> & Hr).
      assert (r = txt "user") as ->
        by (change (Some (txt "user") = Some r) in Hr; congruence).
      split_and!; first [done | auto].
    + case_bool_decide; simpl; [in_list|].
      unfold UserManagementPage.handleDeleteUser, UserManagementPage.fetchUsers.
      case_bool_decide; simpl; [in_list|].
      destruct (UserManagementPage.confirmed a); simpl; [|in_list].
      destruct (UserManagementPage.invoke a), (UserManagementPage.fetch a); simpl; in_list.
  - intros id st. destruct i; simpl.
    1,3-6: repeat case_bool_decide; simpl;
      unfold UserManagementPage.handleDeleteUser, UserManagementPage.handleChangeRole,
        UserManagementPage.fetchUsers, Auth.role_is; simpl;
      repeat case_bool_decide; simpl;
      try destruct (UserManagementPage.own_row context s user); simpl;
      try destruct (UserManagementPage.confirmed a); simpl;
      try destruct (UserManagementPage.invoke a); simpl;
      try destruct (UserManagementPage.update a); simpl;
      try destruct (UserManagementPage.fetch a); simpl; in_list.
    case_bool_decide as Hst; simpl; [|in_list].
    unfold UserManagementPage.handleApproveUser, UserManagementPage.fetchUsers.
    destruct (UserManagementPage.update a), (UserManagementPage.fetch a); simpl; in_list.
Qed.

(** The state the handlers leave has the administrator's id it had. *)
Lemma fetchUsers_keeps_admin a s :
  UserManagementPage.currentAdminUserId (UserManagementPage.fetchUsers a s).1
  = UserManagementPage.currentAdminUserId s.
Proof. by destruct a. Qed.

Lemma click_keeps_admin context a user i s :
  UserManagementPage.currentAdminUserId (UserManagementPage.click context a user i s).1
  = UserManagementPage.currentAdminUserId s.
Proof.
  unfold UserManagementPage.click.
  destruct (UserManagementPage.offered context s user i); [|done].
  destruct i; simpl; [done|..].
  - unfold UserManagementPage.handleApproveUser.
    destruct (UserManagementPage.update a); [|done].
    pose proof (fetchUsers_keeps_admin (UserManagementPage.fetch a) s) as Hkeep.
    by destruct (UserManagementPage.fetchUsers _ s).
  - unfold UserManagementPage.handleChangeRole. simpl.
    match goal with |- context [if ?b then _ else _] => destruct b end; [done|].
    destruct (UserManagementPage.update a); [|done].
    pose proof (fetchUsers_keeps_admin (UserManagementPage.fetch a) s) as Hkeep.
    by destruct (UserManagementPage.fetchUsers _ s).
  - unfold UserManagementPage.handleChangeRole. simpl.
    match goal with |- context [if ?b then _ else _] => destruct b end; [done|].
    destruct (UserManagementPage.update a); [|done].
    pose proof (fetchUsers_keeps_admin (UserManagementPage.fetch a) s) as Hkeep.
    by destruct (UserManagementPage.fetchUsers _ s).
  - unfold UserManagementPage.handleChangeRole. simpl.
    match goal with |- context [if ?b then _ else _] => destruct b end; [done|].
    destruct (UserManagementPage.update a); [|done].
    pose proof (fetchUsers_keeps_admin (UserManagementPage.fetch a) s) as Hkeep.
    by destruct (UserManagementPage.fetchUsers _ s).
  - unfold UserManagementPage.handleDeleteUser.
    case_bool_decide; [done|]. destruct (negb _); [done|].
    destruct (UserManagementPage.invoke a); [|done].
    pose proof (fetchUsers_keeps_admin (UserManagementPage.fetch a) s) as Hkeep.
    by destruct (UserManagementPage.fetchUsers _ s).
Qed.

(** The effect stores the id of the signed-in user whose profile is
    loaded, whatever the state was. *)
Lemma useEffect_admin context u a s :
  AdminPage.signed_in_as context u ->
  UserManagementPage.currentAdminUserId (UserManagementPage.useEffect context a s).1 = Some u.
Proof.
  intros (Hl & Hu & [p Hp]). unfold UserManagementPage.useEffect.
  rewrite Hl, Hu, Hp.
  destruct (_ || _); [|done]. by rewrite fetchUsers_keeps_admin.
Qed.

(** On the mounted page [currentAdminUserId] is the id of the signed-in
    user, as soon as the profile is loaded: only the effect writes it,
    and the effect runs with every context. *)
Lemma page_admin p u :
  AdminPage.reachable p -> AdminPage.signed_in_as (AdminPage.context p) u ->
  UserManagementPage.currentAdminUserId (AdminPage.component p) = Some u.
Proof.
  induction 1 as [context fetch|p ev Hp IH]; [by apply useEffect_admin|].
  destruct ev as [context' fetch|user i a|fetch|open]; simpl.
  - by apply useEffect_admin.
  - destruct (AdminPage.shown p user); [|exact IH]. simpl. intros Hu.
    rewrite click_keeps_admin. by apply IH.
  - destruct (AdminPage.table_rendered p); [|exact IH]. simpl. intros Hu.
    rewrite fetchUsers_keeps_admin. by apply IH.
  - destruct (AdminPage.table_rendered p); [|exact IH]. simpl. exact IH.
Qed.

(** X13: on the mounted page, with a user signed in whose profile is
    loaded, [handleDeleteUser] invokes the delete-user-admin function only
    for the user it was called for, never for the signed-in user, and only
    after [window.confirm] has answered yes. *)
Theorem delete_never_self
    (p : AdminPage.page) (u userId id : uuid) (confirmed : bool) (invoke : answer unit)
    (fetch : answer (option (list UserManagementPage.UserProfile))) :
  AdminPage.reachable p -> AdminPage.signed_in_as (AdminPage.context p) u ->
  UserManagementPage.InvokeDeleteUserAdmin id
  ∈ (UserManagementPage.handleDeleteUser userId confirmed invoke fetch
       (AdminPage.component p)).2 ->
  id = userId /\ id <> u /\ confirmed = true.
Proof.
  intros Hp Hu Hin. pose proof (page_admin p u Hp Hu) as Hadmin.
  apply handleDeleteUser_sends in Hin as (-> & Hself & ->).
  split_and!; [done | | done]. intros ->. by rewrite Hadmin in Hself.
Qed.

(** The theorem at work: the administrator 1 deletes the user 2. *)
Lemma delete_never_self_witness : 2 = 2 /\ 2 <> 1 /\ true = true.
Proof.
  apply (delete_never_self Cases.admin_session 1 2 2 true (Ok tt) (Ok None)).
  - apply AdminPage.reachable_mount.
  - split_and!; [reflexivity | reflexivity | by eexists].
  - apply (list_elem_of_lookup_2 _ 1%nat). reflexivity.
Defined.

(** X14: on the mounted page, with the user [u] signed in and the profile
    loaded, [handleChangeRole] writes a role exactly when a role is given
    and the call is not this user, of role 'admin', changing their own
    role to another one; the write is for the user and the role it was
    called with.  A 'SUPER_ADMIN' is not held back: the handler writes any
    role given, also for the signed-in user. *)
Theorem change_role_guard
    (p : AdminPage.page) (u userId : uuid) (newRole : option text) (update : answer unit)
    (fetch : answer (option (list UserManagementPage.UserProfile))) :
  AdminPage.reachable p -> AdminPage.signed_in_as (AdminPage.context p) u ->
  let effs := (UserManagementPage.handleChangeRole (AdminPage.context p) userId newRole
                 update fetch (AdminPage.component p)).2 in
  let own_admin r :=
    userId = u
    /\ Auth.profile (AdminPage.context p) ≫= role = Some (txt "admin")
    /\ r <> txt "admin" in
  (forall id r,
     UserManagementPage.ProfilesUpdateRole id r ∈ effs <->
     id = userId /\ truthy newRole = Some r /\ ~ own_admin r)
  /\ (Auth.profile (AdminPage.context p) ≫= role = Some (txt "SUPER_ADMIN") ->
      forall r, truthy newRole = Some r ->
        UserManagementPage.ProfilesUpdateRole userId r ∈ effs).
Proof.
  intros Hp Hu effs own_admin. subst effs own_admin.
  pose proof (page_admin p u Hp Hu) as Hadmin.
  assert (forall id r,
     UserManagementPage.ProfilesUpdateRole id r
     ∈ (UserManagementPage.handleChangeRole (AdminPage.context p) userId newRole
          update fetch (AdminPage.component p)).2 <->
     id = userId /\ truthy newRole = Some r
     /\ ~ (userId = u
           /\ Auth.profile (AdminPage.context p) ≫= role = Some (txt "admin")
           /\ r <> txt "admin")) as Hiff.
  { intros id r. rewrite handleChangeRole_sends, Hadmin.
    split; intros (? & ? & Hno); split_and!; try done.
    - intros (-> & ? & ?). by apply Hno.
    - intros ([= ->] & ? & ?). by apply Hno. }
  split; [exact Hiff|].
  intros Hsuper r Hr. apply Hiff. split_and!; [done | done |].
  intros (_ & Hrole & _). rewrite Hsuper in Hrole. by vm_compute in Hrole.
Qed.

(** The theorem at work: a SUPER_ADMIN makes themselves a user. *)
Lemma change_role_guard_witness :
  UserManagementPage.ProfilesUpdateRole 1 (txt "user")
  ∈ (UserManagementPage.handleChangeRole (AdminPage.context Cases.super_admin_session)
       1 (Some (txt "user")) (Ok tt) (Ok None)
       (AdminPage.component Cases.super_admin_session)).2.
Proof.
  pose proof (change_role_guard Cases.super_admin_session 1 1 (Some (txt "user"))
                (Ok tt) (Ok None) (AdminPage.reachable_mount _ _)
                ltac:(split_and!; [reflexivity | reflexivity | by eexists])) as H.
  cbv zeta in H. destruct H as (_ & Hsuper).
  apply Hsuper; reflexivity.
Defined.

(** X15: what a click on an item of a row's menu can send, on the mounted
    page with the user [u] signed in and the profile loaded.  Nothing is
    sent for a row that is not on screen.  The account deleted is the
    row's, never the signed-in user's, and only after the confirmation; a
    role is written only for the row's user, is one of 'moderator',
    'admin', 'user', differs from the role the row shows, and on the row
    of the signed-in user, when their role is 'admin' or 'SUPER_ADMIN', is
    'admin'; a status is written only by Approve, as 'approved', on a row
    that is pending. *)
Theorem menu_click_sends
    (p : AdminPage.page) (u : uuid) (a : UserManagementPage.click_answers)
    (user : UserManagementPage.UserProfile) (i : UserManagementPage.item) :
  AdminPage.reachable p -> AdminPage.signed_in_as (AdminPage.context p) u ->
  let effs := (AdminPage.handle (AdminPage.Clicked user i a) p).2 in
  (effs <> [] -> AdminPage.shown p user = true)
  /\ (forall id, UserManagementPage.InvokeDeleteUserAdmin id ∈ effs ->
        i = UserManagementPage.Delete /\ id = UserManagementPage.id user
        /\ id <> u /\ UserManagementPage.confirmed a = true)
  /\ (forall id r, UserManagementPage.ProfilesUpdateRole id r ∈ effs ->
        id = UserManagementPage.id user
        /\ UserManagementPage.role user <> Some r
        /\ (r = txt "moderator" \/ r = txt "admin" \/ r = txt "user")
        /\ (id = u ->
            Auth.profile (AdminPage.context p) ≫= role = Some (txt "admin")
            \/ Auth.profile (AdminPage.context p) ≫= role = Some (txt "SUPER_ADMIN") ->
            r = txt "admin"))
  /\ (forall id st, UserManagementPage.ProfilesUpdateStatus id st ∈ effs ->
        i = UserManagementPage.Approve /\ id = UserManagementPage.id user
        /\ st = txt "approved"
        /\ UserManagementPage.status user = Some (txt "pending_approval")).
Proof.
  intros Hp Hu effs. subst effs.
  pose proof (page_admin p u Hp Hu) as Hadmin.
  simpl. destruct (AdminPage.shown p user); simpl.
  2:{ split_and!; [done | intros ?; in_list | intros ? ?; in_list | intros ? ?; in_list]. }
  destruct (click_sends (AdminPage.context p) a user i (AdminPage.component p))
    as (Hdelete & Hrole & Hstatus).
  split_and!; [done | | | exact Hstatus].
  - intros id Hin. destruct (Hdelete id Hin) as (-> & -> & Hself & ->).
    split_and!; try done. intros Hid. rewrite Hadmin, Hid in Hself. done.
  - intros id r Hin. destruct (Hrole id r Hin) as (-> & Hneq & Hr & Hown).
    split_and!; try done. intros Hid Hctx. apply Hown.
    unfold UserManagementPage.own_row, Auth.role_is.
    rewrite Hadmin, Hid, bool_decide_eq_true_2 by done. simpl.
    destruct Hctx as [-> | ->].
    + by rewrite bool_decide_eq_true_2.
    + rewrite (bool_decide_eq_true_2 (_ = Some (txt "SUPER_ADMIN"))) by done.
      by rewrite orb_true_r.
Qed.

(** The theorem at work: the administrator 1 approves the pending user 2,
    then removes the account. *)
Lemma menu_click_sends_witness :
  UserManagementPage.status Cases.pending = Some (txt "pending_approval") /\ 2 <> 1.
Proof.
  split.
  - pose proof (menu_click_sends Cases.admin_session 1 Cases.all_fine Cases.pending
                  UserManagementPage.Approve (AdminPage.reachable_mount _ _)
                  ltac:(split_and!; [reflexivity | reflexivity | by eexists])) as H.
    cbv zeta in H. destruct H as (_ & _ & _ & Hstatus).
    apply (Hstatus 2 (txt "approved")).
    apply (list_elem_of_lookup_2 _ 0%nat). vm_compute. reflexivity.
  - pose proof (menu_click_sends Cases.admin_session 1 Cases.all_fine Cases.pending
                  UserManagementPage.Delete (AdminPage.reachable_mount _ _)
                  ltac:(split_and!; [reflexivity | reflexivity | by eexists])) as H.
    cbv zeta in H. destruct H as (_ & Hdelete & _).
    apply (Hdelete 2).
    apply (list_elem_of_lookup_2 _ 1%nat). vm_compute. reflexivity.
Defined.

(** X16: the page's effect asks the server for the user list exactly when
    authentication has settled, a user is signed in and the loaded profile
    has role 'admin' or 'SUPER_ADMIN' (in this spelling), and it never
    writes.  For a signed-in user with any other role, and for a visitor
    who is not signed in, it empties the list and the page shows an error
    text instead of rows, whatever rows the state held before. *)
Theorem page_gate
    (context : Auth.UserContext)
    (a : answer (option (list UserManagementPage.UserProfile)))
    (s : UserManagementPage.state) :
  let s' := (UserManagementPage.useEffect context a s).1 in
  let effs := (UserManagementPage.useEffect context a s).2 in
  let admitted :=
    Auth.isLoadingAuth context = false /\ is_Some (Auth.user context)
    /\ exists p, Auth.profile context = Some p
         /\ (role p = Some (txt "admin") \/ role p = Some (txt "SUPER_ADMIN")) in
  (UserManagementPage.RpcGetAllUserDetails ∈ effs <-> admitted)
  /\ (admitted <-> Auth.roleGate context = Auth.FetchUsers)
  /\ (forall e, e ∈ effs ->
        e = UserManagementPage.RpcGetAllUserDetails
        \/ exists m, e = UserManagementPage.Toast (UserManagementPage.LoadError m))
  /\ (Auth.isLoadingAuth context = false ->
      (Auth.user context = None \/ exists p, Auth.profile context = Some p) ->
      ~ admitted ->
      UserManagementPage.users s' = [] /\ effs = []
      /\ exists msg, UserManagementPage.render context s' = UserManagementPage.ErrorText msg).
Proof.
  intros s' effs admitted.
  assert (admitted <-> Auth.roleGate context = Auth.FetchUsers) as Hgate.
  { subst admitted. unfold Auth.roleGate, Auth.role_is.
    destruct context as [u p l]; simpl. destruct l, u as [u|], p as [p|]; simpl.
    all: try (split; [intros (? & [? ?] & q & ? & _); simplify_eq | done]).
    repeat case_bool_decide; simpl.
    1-3: split; [done | intros _; split_and!; eauto].
    split; [|done]. intros (_ & _ & q & [= <-] & [?|?]); done. }
  split_and!; [|done|..]; rewrite ?Hgate; clear Hgate admitted; subst s' effs.
  all: unfold UserManagementPage.useEffect, Auth.roleGate, UserManagementPage.fetchUsers.
  all: destruct context as [u p l]; simpl.
  all: destruct l, u as [u|], p as [p|]; simpl.
  all: try destruct (Auth.role_is (role p) "admin" || Auth.role_is (role p) "SUPER_ADMIN");
    try destruct a; simpl.
  all: try (split; [in_list | done]).
  all: try (split; [done | intros _; rewrite ?elem_of_cons; auto]).
  all: try (intros ?; in_list; eauto; fail).
  all: try (intros ? ? Hno; done).
  all: try (intros _ [?|[? ?]] _; done).
  all: intros _ _ _; split_and!; [done | done | eexists; vm_compute; reflexivity].
Qed.

(** The theorem at work: a signed-in user with role 'user' opens the page
    while it still holds a row. *)
Lemma page_gate_witness :
  UserManagementPage.users
    (UserManagementPage.useEffect (Samples.signed_in (Samples.with_role "user")) (Ok None)
       (UserManagementPage.set_users [Cases.pending] Cases.admin_page)).1 = [].
Proof.
  pose proof (page_gate (Samples.signed_in (Samples.with_role "user")) (Ok None)
                (UserManagementPage.set_users [Cases.pending] Cases.admin_page)) as H.
  cbv zeta in H. destruct H as (_ & _ & _ & Hdenied).
  apply Hdenied.
  - reflexivity.
  - right. eexists. reflexivity.
  - intros (_ & _ & q & [= <-] & [Hq|Hq]); vm_compute in Hq; discriminate Hq.
Defined.

(** X17: what the page shows once [fetchUsers] has run, authentication
    being settled: the rows the server sent (none for a null answer), or,
    when the request failed, the error's message (a fixed text when the
    error has none) in place of the table; in that case the rows fetched
    before stay in the state but are not shown.  The loader is not shown
    after a fetch. *)
Theorem fetch_then_render
    (context : Auth.UserContext)
    (a : answer (option (list UserManagementPage.UserProfile)))
    (s : UserManagementPage.state) :
  Auth.isLoadingAuth context = false ->
  let s' := (UserManagementPage.fetchUsers a s).1 in
  UserManagementPage.render context s' =
    match a with
    | Ok data => UserManagementPage.Page (default [] data)
    | Err e =>
        UserManagementPage.ErrorText
          (message_or e "Erreur lors de la récupération de la liste des utilisateurs.")
    end
  /\ (forall e, a = Err e -> UserManagementPage.users s' = UserManagementPage.users s)
  /\ UserManagementPage.render context s' <> UserManagementPage.Loader.
Proof.
  intros Hauth s'. subst s'.
  assert (forall e fallback, txt fallback <> [] -> message_or e fallback <> []) as Hmsg.
  { intros e fallback Hne. unfold message_or.
    by destruct (message e) as [[|c m]|]; simpl. }
  unfold UserManagementPage.fetchUsers, UserManagementPage.render.
  rewrite Hauth. destruct a as [data|e]; simpl.
  - done.
  - match goal with |- context [message_or e ?f] =>
      specialize (Hmsg e f ltac:(by vm_compute)); by destruct (message_or e f)
    end.
Qed.

(** The theorem at work: the request for the list fails without a
    message. *)
Lemma fetch_then_render_witness :
  UserManagementPage.render (Samples.signed_in (Samples.with_role "admin"))
    (UserManagementPage.fetchUsers (Err (JsError None None None None))
       (UserManagementPage.set_users [Cases.pending] Cases.admin_page)).1
  <> UserManagementPage.Loader.
Proof.
  apply (fetch_then_render (Samples.signed_in (Samples.with_role "admin"))
           (Err (JsError None None None None))
           (UserManagementPage.set_users [Cases.pending] Cases.admin_page)).
  reflexivity.
Defined.

(** ** Disabling TOTP on the profile page *)

Ltac disable_cases :=
  unfold ProfilePage.handleDisableTotp, ProfilePage.caught; simpl;
  repeat case_match; simpl in *; simplify_eq/=.

(** X18: [handleDisableTotp] removes a factor only after the provider has
    accepted the code for that same factor: an unenroll is sent only for
    the first factor listed as 'verified', after a challengeAndVerify for
    that factor with the typed code that came back without error, and the
    typed code is not blank.  The profile flag is only ever set to false,
    and only when no verified factor is listed or the unenroll went
    through. *)
Theorem disable_unenrolls_after_verify
    (a : ProfilePage.disable_answers) (s : ProfilePage.state) :
  let effs := (ProfilePage.handleDisableTotp a s).2 in
  let first_verified :=
    match ProfilePage.listFactors a with
    | Ok factors =>
        List.find (fun f => bool_decide (ProfilePage.factor_status f = txt "verified")) factors
    | Err _ => None
    end in
  (forall f, ProfilePage.MfaUnenroll f ∈ effs ->
     ProfilePage.blank (ProfilePage.totpCodeForDisable s) = false
     /\ ProfilePage.factor_id <$> first_verified = Some f
     /\ ProfilePage.challengeAndVerify a = Fine tt
     /\ exists before after,
          effs = before ++ ProfilePage.MfaChallengeAndVerify f (ProfilePage.totpCodeForDisable s)
                             :: ProfilePage.MfaUnenroll f :: after)
  /\ (forall b, ProfilePage.RpcSetTotpEnabled b ∈ effs ->
        b = false
        /\ (exists factors, ProfilePage.listFactors a = Ok factors)
        /\ (first_verified = None
            \/ (ProfilePage.unenroll a = Ok tt
                /\ exists f, ProfilePage.MfaUnenroll f ∈ effs))).
Proof.
  intros effs first_verified. subst effs first_verified.
  destruct s as [dis c], a as [lf cv un rp rf]. split.
  - intros f. disable_cases; in_list.
    all: repeat match goal with u : unit |- _ => destruct u end.
    all: split_and!; try done.
    all: try (match goal with H : List.find _ _ = _ |- _ => by rewrite H end).
    all: by eexists [_], _.
  - intros b. disable_cases; in_list.
    all: repeat match goal with u : unit |- _ => destruct u end.
    all: split_and!; eauto.
    all: right; split; [done|]; eexists; rewrite !elem_of_cons; eauto.
Qed.

(** The theorem at work: the second listed factor is the verified one. *)
Lemma disable_unenrolls_after_verify_witness :
  ProfilePage.challengeAndVerify Cases.disable_fine = Fine tt.
Proof.
  pose proof (disable_unenrolls_after_verify Cases.disable_fine Cases.code_typed) as H.
  cbv zeta in H. destruct H as (Hunenroll & _).
  apply (Hunenroll (txt "factor-1")).
  apply (list_elem_of_lookup_2 _ 2%nat). reflexivity.
Defined.

(** X19: the toast 'A2F désactivée' (success) is shown exactly when the
    typed code is not blank, a verified factor is listed, and
    challengeAndVerify, unenroll and set_totp_enabled(false) all went
    through; a failing refresh of the profile afterwards does not take it
    back.  The toast 'Erreur partielle' is shown exactly when only
    set_totp_enabled returned an error: the factor is then removed while
    the profile flag was not cleared.  On a blank code the handler only
    shows a toast and keeps the state; otherwise it ends with the code
    field cleared and the busy flag off. *)
Theorem disable_outcome
    (a : ProfilePage.disable_answers) (s : ProfilePage.state) :
  let s' := (ProfilePage.handleDisableTotp a s).1 in
  let effs := (ProfilePage.handleDisableTotp a s).2 in
  let up_to_rpc :=
    ProfilePage.blank (ProfilePage.totpCodeForDisable s) = false
    /\ (exists factors f,
          ProfilePage.listFactors a = Ok factors
          /\ List.find (fun f => bool_decide (ProfilePage.factor_status f = txt "verified"))
               factors = Some f)
    /\ ProfilePage.challengeAndVerify a = Fine tt
    /\ ProfilePage.unenroll a = Ok tt in
  (ProfilePage.Toast ProfilePage.Disabled ∈ effs <->
     up_to_rpc /\ ProfilePage.rpc a = Fine tt)
  /\ (ProfilePage.Toast ProfilePage.PartiallyDisabled ∈ effs <->
      up_to_rpc /\ exists e, ProfilePage.rpc a = Returned e)
  /\ (ProfilePage.Toast ProfilePage.PartiallyDisabled ∈ effs ->
      exists f, ProfilePage.MfaUnenroll f ∈ effs)
  /\ (if ProfilePage.blank (ProfilePage.totpCodeForDisable s)
      then s' = s /\ effs = [ProfilePage.Toast ProfilePage.EnterCode]
      else s' = {| ProfilePage.isDisablingTotp := false;
                   ProfilePage.totpCodeForDisable := [] |}).
Proof.
  intros s' effs up_to_rpc. subst s' effs up_to_rpc.
  destruct s as [dis c], a as [lf cv un rp rf]. split_and!.
  - disable_cases; (split; [in_list | intros ((? & (? & ? & ? & ?) & ? & ?) & ?)]);
      simplify_eq/=.
    all: repeat match goal with u : unit |- _ => destruct u end.
    all: try (split_and!; eauto; fail).
    all: rewrite ?elem_of_cons; auto 10.
  - disable_cases; (split; [in_list | intros ((? & (? & ? & ? & ?) & ? & ?) & ? & ?)]);
      simplify_eq/=.
    all: repeat match goal with u : unit |- _ => destruct u end.
    all: try (split_and!; eauto; fail).
    all: rewrite ?elem_of_cons; auto 10.
  - disable_cases; in_list.
    all: eexists; rewrite !elem_of_cons; eauto.
  - unfold ProfilePage.handleDisableTotp. simpl.
    destruct (ProfilePage.blank c); [done|].
    by repeat case_match.
Qed.

(** The theorem at work: every step goes through. *)
Lemma disable_outcome_witness :
  ProfilePage.Toast ProfilePage.Disabled
  ∈ (ProfilePage.handleDisableTotp Cases.disable_fine Cases.code_typed).2.
Proof.
  pose proof (disable_outcome Cases.disable_fine Cases.code_typed) as H.
  cbv zeta in H. destruct H as (Hdisabled & _).
  apply Hdisabled. split_and!; [reflexivity | | reflexivity | reflexivity | reflexivity].
  eexists _, _. split; reflexivity.
Defined.

(** ** More on the TOTP setup dialog *)

(** Along a run the typed code holds no white space, and the factor the
    dialog holds is the one of an enrollment of the run. *)
Lemma run_code_factor evs s :
  run evs s ->
  Forall (fun c => is_space c = false) (verificationCode s)
  /\ (forall f, factorId s = Some f ->
        exists d, RunEffect (Ok d) ∈ evs /\ enroll_id d = f).
Proof.
  induction 1 as [|evs s ev Hrun [IHc IHf] Hen]; [by split|].
  assert (forall f, factorId s = Some f ->
            exists d, RunEffect (Ok d) ∈ evs ++ [ev] /\ enroll_id d = f) as IHf'.
  { intros f Hf. destruct (IHf f Hf) as (d & Hd & <-).
    exists d. split; [|done]. apply elem_of_app. by left. }
  clear IHf.
  destruct ev as [|a|value|a| | | |open].
  - by split.
  - destruct a as [d|e], s as [[] ld er f q k vc [] rc]; dialog_cases.
    all: split; [done|]; intros f' [= <-]; exists d; split; [|done].
    all: apply elem_of_app; right; by left.
  - split; [|exact IHf'].
    apply Forall_forall. intros c Hc. simpl in Hc. unfold onChangeCode in Hc. simpl in Hc.
    by apply list_elem_of_filter in Hc as [? _].
  - destruct s as [o ld er f q k vc st rc], a as [ch ve rp rf]; dialog_cases.
  - destruct s as [[] ld er f q k vc [] rc]; dialog_cases.
  - destruct s as [[] ld er f q k vc [] rc]; dialog_cases.
  - destruct s as [[] ld er f q k vc [] rc]; dialog_cases.
  - destruct open, s as [[] ld er f q k vc [] rc]; dialog_cases.
Qed.

(** X20: [handleVerifyCode] sets the profile flag only to true and only
    after the provider has answered both the challenge and the
    verification of the typed code without error, for the factor the
    dialog holds; nothing is sent unless a factor is held and the typed
    code has length 6.  An error that set_totp_enabled returns (rather
    than throws) does not stop the setup: the dialog ends in the state it
    would reach had the RPC succeeded, with one more toast ('Erreur
    partielle') right after the RPC. *)
Theorem verify_then_flag (a : verify_answers) (s : state) :
  let effs := (handleVerifyCode a s).2 in
  let fine := {| challenge := challenge a; verify := verify a;
                 rpc := Fine tt; refresh := refresh a |} in
  (effs <> [] ->
     is_Some (truthy (factorId s)) /\ js_length (verificationCode s) = 6)
  /\ (forall b, RpcSetTotpEnabled b ∈ effs ->
        b = true
        /\ exists f ch d after,
             truthy (factorId s) = Some f /\ challenge a = Ok ch /\ verify a = Ok d
             /\ effs = MfaChallenge f :: MfaVerify f ch (verificationCode s)
                         :: RpcSetTotpEnabled true :: after)
  /\ (forall e, rpc a = Returned e ->
        (handleVerifyCode a s).1 = (handleVerifyCode fine s).1
        /\ (RpcSetTotpEnabled true ∉ effs -> effs = (handleVerifyCode fine s).2)
        /\ (RpcSetTotpEnabled true ∈ effs ->
            exists pre post,
              (handleVerifyCode fine s).2 = pre ++ RpcSetTotpEnabled true :: post
              /\ effs = pre ++ RpcSetTotpEnabled true :: Toast PartialError :: post)).
Proof.
  intros effs fine. subst effs fine.
  destruct s as [o ld er f q k vc st rc], a as [ch ve rp rf].
  split_and!.
  - unfold handleVerifyCode. simpl.
    destruct (truthy f) as [fa|]; [|done].
    destruct (js_length vc =? 6) eqn:Hlen; [|done].
    intros _. split; [done | by apply N.eqb_eq].
  - intros b. unfold handleVerifyCode. simpl.
    destruct (truthy f) as [fa|]; [|in_list].
    destruct (js_length vc =? 6); [|in_list].
    destruct ch as [c|e]; [|in_list]. destruct ve as [d|e]; [|in_list].
    simpl. intros Hin.
    assert (b = true) as ->.
    { revert Hin. destruct rp as [[]|e|e]; simpl; [| |in_list].
      all: destruct rf; simpl; [|in_list].
      all: destruct (codes_of d) as [[|? ?]|]; simpl; in_list. }
    split; [done|]. exists fa, c, d.
    destruct rp as [[]|e|e]; simpl; [| |by eexists].
    all: destruct rf; simpl; [|by eexists].
    all: destruct (codes_of d) as [[|? ?]|]; simpl; by eexists.
  - intros e Hrp. simpl in Hrp. subst rp.
    unfold handleVerifyCode. simpl.
    destruct (truthy f) as [fa|]; [|split_and!; [done | done | in_list]].
    destruct (js_length vc =? 6); [|split_and!; [done | done | in_list]].
    destruct ch as [c|e']; [|split_and!; [done | done | in_list]].
    destruct ve as [d|e']; [|split_and!; [done | done | in_list]].
    simpl. destruct rf as [[]|e']; simpl.
    + destruct (codes_of d) as [[|? ?]|]; simpl.
      all: split_and!; [done | intros Hno; exfalso; apply Hno; rewrite !elem_of_cons; auto |].
      all: intros _; by eexists [_; _], _.
    + split_and!; [done | intros Hno; exfalso; apply Hno; rewrite !elem_of_cons; auto |].
      intros _; by eexists [_; _], _.
Qed.

(** The theorem at work: the verification of Samples goes through. *)
Lemma verify_then_flag_witness :
  is_Some (truthy (factorId (Samples.after Samples.setup_events)))
  /\ js_length (verificationCode (Samples.after Samples.setup_events)) = 6.
Proof.
  pose proof (verify_then_flag Samples.verified (Samples.after Samples.setup_events)) as H.
  cbv zeta in H. destruct H as (Hsent & _).
  apply Hsent. vm_compute. discriminate.
Defined.

(** X21: in a run of the dialog, every code handed to
    [supabase.auth.mfa.verify] comes from a click on Vérifier, has length
    6 and holds no white space; it is sent with the challenge the provider
    has just answered, for the factor of a successful enrollment earlier
    in the run.  The profile flag is touched by no other event than that
    click. *)
Theorem run_verify_calls (evs : list event) (s : state) (ev : event) :
  run evs s -> enabled s ev = true ->
  (forall f ch code, MfaVerify f ch code ∈ (handle ev s).2 ->
     (exists a, ev = ClickVerify a /\ challenge a = Ok ch)
     /\ js_length code = 6
     /\ Forall (fun c => is_space c = false) code
     /\ exists d, RunEffect (Ok d) ∈ evs /\ enroll_id d = f)
  /\ (forall b, RpcSetTotpEnabled b ∈ (handle ev s).2 ->
        b = true /\ exists a, ev = ClickVerify a).
Proof.
  intros Hrun Hen. destruct (run_code_factor evs s Hrun) as [Hcode Hfactor].
  split.
  - intros f ch code.
    destruct ev as [|a|value|a| | | |open].
    1-3, 5-8: try destruct open; destruct s as [[] ld er fa q k vc [] rc];
      dialog_cases; in_list.
    destruct s as [o ld er fa q k vc st rc], a as [c ve rp rf].
    simpl in Hcode, Hfactor |- *. unfold handleVerifyCode. simpl.
    destruct fa as [[|x fa]|]; simpl; [in_list| |in_list].
    destruct (js_length vc =? 6) eqn:Hlen; [|in_list].
    apply N.eqb_eq in Hlen.
    destruct (Hfactor _ eq_refl) as (d & Hd & Hid).
    intros Hin.
    assert (f = x :: fa /\ c = Ok ch /\ code = vc) as (-> & -> & ->).
    { revert Hin. destruct c as [cid|e]; [|in_list]. destruct ve as [vd|e]; [|in_list].
      destruct rp as [[]|?|?], rf, (codes_of vd) as [[|? ?]|]; simpl; in_list. }
    split_and!; [by eexists | done | done | by exists d].
  - intros b.
    destruct ev as [|a|value|a| | | |open].
    1-3, 5-8: try destruct open; destruct s as [[] ld er fa q k vc [] rc];
      dialog_cases; in_list.
    simpl. intros Hin. split; [|by eexists].
    destruct s as [o ld er fa q k vc st rc], a as [c ve rp rf].
    revert Hin. dialog_cases; in_list.
Qed.

(** The theorem at work: the dialog is opened, the enrollment succeeds,
    the code "123 456" is typed and Vérifier is clicked. *)
Lemma run_verify_calls_witness :
  js_length (txt "123456") = 6
  /\ exists d, RunEffect (Ok d) ∈ Samples.setup_events /\ enroll_id d = txt "factor-1".
Proof.
  pose proof (run_verify_calls Samples.setup_events (Samples.after Samples.setup_events)
                (ClickVerify Samples.verified)
                (run_after Samples.setup_events eq_refl) eq_refl) as [Hverify _].
  destruct (Hverify (txt "factor-1") (txt "challenge-1") (txt "123456")) as (_ & Hlen & _ & Hd).
  - apply (list_elem_of_lookup_2 _ 1%nat). reflexivity.
  - split; [exact Hlen | exact Hd].
Defined.

Lemma completed_renders s :
  step s = Completed -> error s = None ->
  renderContent s = Nothing /\ renderFooter s = NoFooter.
Proof.
  destruct s as [o [] er f q k vc st rc]; simpl; intros -> ->; by vm_compute.
Qed.

(** * The dialog with requests in flight *)

(** ** Serial schedules are the handlers run to their end *)

Lemma enabled_event_of s ev :
  Interleaving.enabled (Interleaving.World s []) (Interleaving.event_of ev) = enabled s ev.
Proof. by destruct ev. Qed.

Lemma serially_handle ev s :
  Interleaving.serially ev (Interleaving.World s [])
  = (Interleaving.World (handle ev s).1 [], (handle ev s).2).
Proof.
  unfold Interleaving.serially.
  destruct ev as [|a|value|a| | | |open]; try reflexivity.
  - destruct s as [[] ld er f q k vc [] rc], a as [d|e]; reflexivity.
  - destruct s as [o ld er f q k vc st rc], a as [ch ve rp rf].
    unfold handle, handleVerifyCode, Interleaving.event_of, Interleaving.react.
    cbn [Interleaving.dialog Interleaving.pending factorId verificationCode
         challenge verify rpc refresh].
    destruct (truthy f) as [fa|]; [|reflexivity].
    destruct (js_length vc =? 6); [|reflexivity].
    destruct ch as [c|e]; [|reflexivity].
    destruct ve as [d|e]; [|reflexivity].
    destruct rp as [[]|e|e]; try reflexivity.
    all: destruct rf as [[]|e']; try reflexivity.
    all: destruct (codes_of d) as [[|x l]|] eqn:Hc; cbn; rewrite ?Hc; reflexivity.
Qed.

(** A serial run is a run of the dialog. *)
Lemma serial_interleaved evs w :
  Interleaving.serial evs w -> exists evs', Interleaving.run evs' w.
Proof.
  assert (forall n ev pre w effs,
            Interleaving.run pre w ->
            exists evs', Interleaving.run evs' (Interleaving.settle n ev (w, effs)).1) as Hsettle.
  { induction n as [|n IH]; intros ev pre w0 effs Hrun; [by exists pre|].
    cbn [Interleaving.settle fst snd].
    destruct (Interleaving.pending w0) as [|t ts] eqn:Hp; [by exists pre|].
    destruct (Interleaving.answer_of ev t) as [a|] eqn:Ha; [|by exists pre].
    destruct (Interleaving.enabled w0 (Interleaving.Answered 0 a)) eqn:Hen.
    - eapply IH. by apply Interleaving.run_snoc.
    - assert ((Interleaving.react (Interleaving.Answered 0 a) w0).1 = w0) as Hsame.
      { revert Hen. unfold Interleaving.enabled, Interleaving.react.
        rewrite Hp. simpl. by destruct (Interleaving.resume t a _) as [[[? ?] [?|]]|]. }
      cbn zeta. rewrite Hsame. by eapply IH. }
  induction 1 as [|evs w ev _ [pre Hpre] Hen]; [exists []; constructor|].
  unfold Interleaving.serially.
  destruct (Interleaving.react (Interleaving.event_of ev) w) as [w1 effs] eqn:Hr.
  eapply Hsettle.
  replace w1 with (Interleaving.react (Interleaving.event_of ev) w).1 by by rewrite Hr.
  by apply Interleaving.run_snoc.
Qed.

(** The serial runs are the runs of [TotpSetupDialog.run]: no request is
    left pending between two events. *)
Lemma serial_run evs w :
  Interleaving.serial evs w <-> Interleaving.pending w = [] /\ run evs (Interleaving.dialog w).
Proof.
  split.
  - induction 1 as [|evs w ev _ [Hp Hrun] Hen]; [split; [done | constructor]|].
    destruct w as [s ts]. simpl in Hp, Hrun. subst ts.
    rewrite serially_handle. simpl. split; [done|].
    apply run_snoc; [done|]. by rewrite <- enabled_event_of.
  - destruct w as [s ts]. simpl. intros [-> Hrun].
    induction Hrun as [|evs s ev _ IH Hen]; [constructor|].
    replace (Interleaving.World (handle ev s).1 [])
      with (Interleaving.serially ev (Interleaving.World s [])).1
      by by rewrite serially_handle.
    apply Interleaving.serial_snoc; [done|]. by rewrite enabled_event_of.
Qed.

(** With the handlers run to their end, 'completed' is kept. *)
Lemma completed_stays (evs : list event) (s : state) (ev : event) :
  run evs s -> step s = Completed -> enabled s ev = true ->
  step (handle ev s).1 = Completed
  /\ (forall e, e ∈ (handle ev s).2 -> exists open, e = OnOpenChange open)
  /\ renderContent s = Nothing
  /\ renderFooter s = NoFooter
  /\ renderContent (handle ev s).1 = Nothing
  /\ renderFooter (handle ev s).1 = NoFooter.
Proof.
  intros Hrun Hst Hen.
  pose proof (run_no_error evs s Hrun (or_intror Hst)) as Herr.
  destruct (completed_renders s Hst Herr) as [Hc Hf].
  cut (step (handle ev s).1 = Completed /\ error (handle ev s).1 = None
       /\ forall e, e ∈ (handle ev s).2 -> exists open, e = OnOpenChange open).
  { intros (Hst' & Herr' & Heffs).
    destruct (completed_renders _ Hst' Herr') as [Hc' Hf']. done. }
  destruct ev as [|a|value|a| | | |open].
  - split_and!; [done | done | intros ?; in_list].
  - destruct s as [[] ld er f q k vc st rc]; simpl in *; subst.
    all: unfold useEffect; simpl; split_and!; try done; intros ?; in_list.
  - split_and!; [done | done | intros ?; in_list].
  - apply enabled_ClickVerify in Hen. congruence.
  - apply enabled_ClickCancel in Hen. congruence.
  - apply enabled_ClickSaved in Hen. congruence.
  - apply enabled_ClickClose in Hen as (_ & _ & Hsome).
    rewrite Herr in Hsome. by destruct Hsome.
  - destruct open, s as [[] ld er f q k vc st rc]; simpl in *; subst; try done.
    all: unfold dialogOnOpenChange; simpl; split_and!; try done; intros ?; in_list; eauto.
Qed.

(** X22: in a serial run (every request of the dialog is answered before
    the next event) the 'completed' step is final: no event the dialog
    offers changes the step, none calls the backend, no request is left
    pending, and the dialog, opened again, shows neither content nor
    footer (the component is not reset after a completed setup).  With
    requests in flight the step can leave 'completed': the answer of an
    enrollment sets it to 'verify' whatever it is. *)
Theorem completed_is_final (evs : list event) (w : Interleaving.world) (ev : event) :
  Interleaving.serial evs w -> step (Interleaving.dialog w) = Completed ->
  Interleaving.enabled w (Interleaving.event_of ev) = true ->
  let r := Interleaving.serially ev w in
  Interleaving.pending r.1 = []
  /\ step (Interleaving.dialog r.1) = Completed
  /\ (forall e, e ∈ r.2 -> exists open, e = OnOpenChange open)
  /\ renderContent (Interleaving.dialog w) = Nothing
  /\ renderFooter (Interleaving.dialog w) = NoFooter
  /\ renderContent (Interleaving.dialog r.1) = Nothing
  /\ renderFooter (Interleaving.dialog r.1) = NoFooter.
Proof.
  intros Hserial Hst Hen r. subst r.
  apply serial_run in Hserial as [Hp Hrun].
  destruct w as [s ts]. simpl in Hp, Hrun, Hst. subst ts.
  rewrite enabled_event_of in Hen. rewrite serially_handle. simpl.
  split; [done|]. by apply (completed_stays evs).
Qed.

(** The theorem at work: after a complete setup the dialog is opened
    again. *)
Lemma completed_is_final_witness :
  renderContent (handle OpenDialog (Samples.after Cases.completed_events)).1 = Nothing
  /\ renderFooter (handle OpenDialog (Samples.after Cases.completed_events)).1 = NoFooter.
Proof.
  pose proof (completed_is_final Cases.completed_events
                (Interleaving.World (Samples.after Cases.completed_events) []) OpenDialog
                (proj2 (serial_run Cases.completed_events
                          (Interleaving.World (Samples.after Cases.completed_events) []))
                   (conj eq_refl
                      (run_after Cases.completed_events ltac:(vm_compute; reflexivity))))
                ltac:(vm_compute; reflexivity) eq_refl)
    as (_ & _ & _ & _ & _ & Hc & Hf).
  rewrite serially_handle in Hc, Hf.
  split; [exact Hc | exact Hf].
Defined.

(** ** The create-user function *)


Ltac incomplete :=
  let H := fresh in
  intros H; decompose [ex and] H; simplify_eq/=;
  repeat match goal with H : is_Some None |- _ => by destruct H end.

(** The function calls the backend exactly for a complete request. *)
Lemma serve_complete e a req :
  (CreateUser.serve e a req).2 <> [] <-> exists p, Requests.complete e req p.
Proof.
  unfold Requests.complete, CreateUser.serve.
  destruct req as [m [p|]], e as [url key]; simpl.
  all: case_bool_decide as Hm; simpl.
  all: destruct (truthy url) as [u|] eqn:Hu; simpl.
  all: destruct (truthy key) as [k|] eqn:Hk; simpl.
  all: try (split; [done | incomplete]; fail).
  destruct p as [em pw fn un r]; simpl.
  destruct em as [[|c1 em]|], pw as [[|c2 pw]|], fn as [[|c3 fn]|], un as [[|c4 un]|],
    r as [[|c5 r]|]; simpl.
  all: try (split; [done | incomplete]; fail).
  split; [|by repeat case_match]. intros _. eexists. split_and!; eauto.
Qed.

(** From l.125 on: the calls and the answers of [CreateUser.serve]. *)
Lemma serve_validation
    (e : CreateUser.env) (a : CreateUser.answers) (req : CreateUser.request) :
  ((CreateUser.serve e a req).2 <> [] <-> exists p, Requests.complete e req p)
  /\ (forall p, Requests.complete e req p ->
        exists rest,
          (CreateUser.serve e a req).2
          = CreateUser.AuthAdminCreateUser (default [] (CreateUser.email p))
                                           (default [] (CreateUser.password p)) :: rest)
  /\ ((CreateUser.serve e a req).2 = [] ->
      (forall a', CreateUser.serve e a' req = CreateUser.serve e a req)
      /\ CreateUser.status_ (CreateUser.serve e a req).1 ∈ [200; 500; 400]
      /\ (CreateUser.status_ (CreateUser.serve e a req).1 = 200 <->
          CreateUser.method req = txt "OPTIONS")).
Proof.
  split; [apply serve_complete|].
  unfold Requests.complete, CreateUser.serve.
  destruct req as [m [p|]], e as [url key]; simpl.
  all: case_bool_decide as Hm; simpl.
  all: destruct (truthy url) as [u|] eqn:Hu; simpl.
  all: destruct (truthy key) as [k|] eqn:Hk; simpl.
  all: try (split;
    [ intros p'; incomplete
    | intros _; split_and!; [done | rewrite !elem_of_cons; auto | done] ]; fail).
  destruct p as [em pw fn un r]; simpl.
  destruct em as [[|c1 em]|], pw as [[|c2 pw]|], fn as [[|c3 fn]|], un as [[|c4 un]|],
    r as [[|c5 r]|]; simpl.
  all: try (split;
    [ intros p'; incomplete
    | intros _; split_and!; [done | rewrite !elem_of_cons; auto | done] ]; fail).
  split.
  - intros p' H. decompose [and] H. simplify_eq/=. repeat case_match; by eexists.
  - by repeat case_match.
Qed.

(** X23: the create-user function calls the backend exactly for a
    complete request (not a preflight, credentials present, a JSON body
    with the five fields not empty); its first call is then
    [auth.admin.createUser] with the payload's e-mail and password.  For
    any other request the outcome does not depend on the backend: the
    handler throws, returning no response, exactly when the body is the
    JSON value null, the method is not OPTIONS and the credentials are
    present; otherwise it answers with status 200 (exactly for a
    preflight), 500 (credentials) or 400. *)
Theorem create_user_validation
    (e : CreateUser.env) (a : CreateUser.answers) (req : EdgeFunction.http_request) :
  let r := EdgeFunction.handler e a req in
  (r.2 <> [] <-> exists p, EdgeFunction.complete e req p)
  /\ (forall p, EdgeFunction.complete e req p ->
        exists rest,
          r.2 = CreateUser.AuthAdminCreateUser (default [] (CreateUser.email p))
                                               (default [] (CreateUser.password p)) :: rest)
  /\ (r.2 = [] ->
      (forall a', EdgeFunction.handler e a' req = r)
      /\ (r.1 = EdgeFunction.Threw <->
          EdgeFunction.body req = EdgeFunction.JsonNull
          /\ EdgeFunction.method req <> txt "OPTIONS"
          /\ is_Some (truthy (CreateUser.supabaseUrl e))
          /\ is_Some (truthy (CreateUser.serviceRoleKey e)))
      /\ (forall resp, r.1 = EdgeFunction.Responded resp ->
            CreateUser.status_ resp ∈ [200; 500; 400]
            /\ (CreateUser.status_ resp = 200 <-> EdgeFunction.method req = txt "OPTIONS"))).
Proof.
  intros r. subst r. unfold EdgeFunction.complete, EdgeFunction.handler.
  destruct req as [m [| |p]]; simpl.
  - destruct (serve_validation e a {| CreateUser.method := m; CreateUser.json := None |})
      as (Hcalls & _ & Hnone).
    split_and!.
    + rewrite Hcalls. split; [intros (p & (_ & _ & _ & [=] & _)) | by intros (p & [=] & _)].
    + by intros p [[=] _].
    + intros Hno. destruct (Hnone Hno) as (Hsame & Hstatus & H200). split_and!.
      * intros a'. by rewrite (Hsame a').
      * split; [done | by intros ([=] & _)].
      * by intros resp [= <-].
  - case_bool_decide as Hm; simpl.
    { split_and!; [split; [done | by intros (p & [=] & _)] | by intros p [[=] _] |].
      intros _. split_and!; [done | split; [done | by intros (_ & ? & _)] |].
      intros resp [= <-]. simpl. split; [rewrite !elem_of_cons; auto | done]. }
    destruct (truthy (CreateUser.supabaseUrl e)) as [u|] eqn:Hu;
      destruct (truthy (CreateUser.serviceRoleKey e)) as [k|] eqn:Hk; simpl.
    all: split_and!; [split; [done | by intros (p & [=] & _)] | by intros p [[=] _] |].
    all: intros _; split_and!; [done | | ].
    all: try (intros resp [= <-]; simpl; split; [rewrite !elem_of_cons; auto | done]).
    all: try (by intros resp [=]).
    all: split; [done | intros (_ & _ & [? ?] & [? ?]); done].
  - destruct (serve_validation e a {| CreateUser.method := m; CreateUser.json := Some p |})
      as (Hcalls & Hfirst & Hnone).
    split_and!.
    + rewrite Hcalls. split.
      * intros (p' & Hp').
        assert (p' = p) as ->
          by (destruct Hp' as (_ & _ & _ & Hj & _); simpl in Hj; congruence).
        by exists p.
      * intros (p' & [= <-] & Hp'). by exists p.
    + intros p' ([= <-] & Hp'). by apply Hfirst.
    + intros Hno. destruct (Hnone Hno) as (Hsame & Hstatus & H200). split_and!.
      * intros a'. by rewrite (Hsame a').
      * split; [done | by intros ([=] & _)].
      * by intros resp [= <-].
Qed.

(** The theorem at work: dora's request is complete. *)
Lemma create_user_validation_witness :
  exists rest,
    (EdgeFunction.handler Samples.function_env Cases.created Cases.dora_request).2
    = CreateUser.AuthAdminCreateUser (txt "dora@example.org") (txt "secret1") :: rest.
Proof.
  destruct (create_user_validation Samples.function_env Cases.created
              Cases.dora_request) as (_ & Hfirst & _).
  apply (Hfirst Cases.dora). split; [reflexivity|].
  unfold Requests.complete. simpl.
  split_and!; try reflexivity; try (eexists; reflexivity).
  vm_compute. discriminate.
Defined.



(** ** The form that disables TOTP *)

Lemma handle_disable_step ev s :
  ProfilePage.at_most_6_digits (ProfilePage.totpCodeForDisable s) ->
  ProfilePage.isDisablingTotp s = false ->
  let r := DisableDialog.handle ev s in
  ProfilePage.at_most_6_digits (ProfilePage.totpCodeForDisable r.1)
  /\ ProfilePage.isDisablingTotp r.1 = false
  /\ (ProfilePage.Toast ProfilePage.EnterCode ∉ r.2)
  /\ (forall f code, ProfilePage.MfaChallengeAndVerify f code ∈ r.2 ->
        code <> [] /\ ProfilePage.at_most_6_digits code).
Proof.
  intros Hcode Hbusy r. subst r.
  assert (ProfilePage.at_most_6_digits []) as Hnil by (split; [simpl; lia | done]).
  destruct ev as [value| |a]; simpl.
  - split_and!; [apply (onChangeCode_shape value s) | done | in_list | intros ? ?; in_list].
  - split_and!; [done | done | in_list | intros ? ?; in_list].
  - unfold DisableDialog.actionDisabled. rewrite Hbusy. simpl.
    destruct (ProfilePage.blank (ProfilePage.totpCodeForDisable s)) eqn:Hblank.
    { split_and!; [done | done | in_list | intros ? ?; in_list]. }
    split_and!.
    + unfold ProfilePage.handleDisableTotp. rewrite Hblank. by repeat case_match.
    + unfold ProfilePage.handleDisableTotp. rewrite Hblank. by repeat case_match.
    + unfold ProfilePage.handleDisableTotp, ProfilePage.caught. rewrite Hblank.
      repeat case_match; simpl; in_list.
    + intros f code Hin. apply handleDisableTotp_passes_code in Hin as ->.
      split; [|done]. intros Hempty. by rewrite Hempty in Hblank.
Qed.

(** X25: from the page, [handleDisableTotp] is never run on a blank code:
    the button that starts it is disabled then, so its 'enter your code'
    toast is never shown, and every code handed to challengeAndVerify in
    any sequence of typing, cancelling and confirming has between 1 and 6
    characters, all of them digits. *)
Theorem disable_form_codes (evs : list DisableDialog.event) :
  let effs := (DisableDialog.run evs DisableDialog.initial).2 in
  (ProfilePage.Toast ProfilePage.EnterCode ∉ effs)
  /\ (forall f code, ProfilePage.MfaChallengeAndVerify f code ∈ effs ->
        code <> [] /\ ProfilePage.at_most_6_digits code).
Proof.
  intros effs. subst effs.
  assert (forall s,
            ProfilePage.at_most_6_digits (ProfilePage.totpCodeForDisable s) ->
            ProfilePage.isDisablingTotp s = false ->
            (ProfilePage.Toast ProfilePage.EnterCode ∉ (DisableDialog.run evs s).2)
            /\ (forall f code,
                  ProfilePage.MfaChallengeAndVerify f code ∈ (DisableDialog.run evs s).2 ->
                  code <> [] /\ ProfilePage.at_most_6_digits code)) as Hall.
  { induction evs as [|ev evs IH]; intros s Hcode Hbusy; simpl.
    - split; [in_list | intros ? ?; in_list].
    - destruct (handle_disable_step ev s Hcode Hbusy) as (Hcode' & Hbusy' & Hno & Hsent).
      destruct (IH _ Hcode' Hbusy') as [IHno IHsent].
      split.
      + rewrite elem_of_app. by intros [?|?].
      + intros f code. rewrite elem_of_app. intros [?|?]; eauto. }
  apply Hall; [|done]. split; [simpl; lia | done].
Qed.

(** The theorem at work: a first click on the disabled button, the code
    typed as "12 34-56x7", and a second click. *)
Lemma disable_form_codes_witness :
  txt "123456" <> [] /\ ProfilePage.at_most_6_digits (txt "123456").
Proof.
  pose proof (disable_form_codes (Cases.disable_events Cases.disable_fine)) as H.
  cbv zeta in H. destruct H as (_ & Hsent).
  apply (Hsent (txt "factor-1")).
  apply (list_elem_of_lookup_2 _ 1%nat). reflexivity.
Defined.

(** ** A late answer sets the step (C5) *)

(** C5: the claim lists the only transitions of the step, and closing
    the dialog in a step other than 'completed' is to reset it to
    'enroll'.  The code does not hold to it when a request is in flight:
    Annuler and the dialog's close request stay available while
    [handleVerifyCode] waits, and the rest of the handler sets the step
    whatever it has become.  In the run below the user cancels a pending
    verification: the dialog is closed and reset to 'enroll'; the answers
    then move the step from 'enroll' to 'recoveryCodes' in the closed
    dialog, which shows the codes when it is opened again.  In general the
    last answer of a verification sets the step to 'recoveryCodes' or
    'completed', and the answer of an enrollment sets it to 'verify',
    from every step. *)
Theorem dialog_step_late_answer :
  let before := Interleaving.after (Cases.cancelled ++ take 3 Cases.late_answers) in
  let last := Interleaving.Answered 0 (Interleaving.Refreshed (Ok tt)) in
  let closed := (Interleaving.react last before).1 in
  Interleaving.offered Interleaving.start (Cases.cancelled ++ Cases.late_answers) = true
  /\ Cases.late_answers = take 3 Cases.late_answers ++ [last]
  /\ step (Interleaving.dialog (Interleaving.after Cases.cancelled)) = Enroll
  /\ isOpen (Interleaving.dialog (Interleaving.after Cases.cancelled)) = false
  /\ step (Interleaving.dialog before) = Enroll
  /\ step (Interleaving.dialog closed) = RecoveryCodes
  /\ isOpen (Interleaving.dialog closed) = false
  /\ RpcSetTotpEnabled true ∈ Interleaving.did (Cases.cancelled ++ Cases.late_answers)
  /\ displayed_codes (Interleaving.dialog (Interleaving.react Interleaving.Opened closed).1)
     = Some Samples.codes
  /\ (forall s ts c cs x,
        step (Interleaving.dialog
                (Interleaving.react last
                   (Interleaving.World s
                      (Interleaving.AwaitRefresh
                         {| recovery_codes := Some (c :: cs); totp_recovery_codes := x |}
                       :: ts))).1)
        = RecoveryCodes)
  /\ (forall s ts,
        step (Interleaving.dialog
                (Interleaving.react last
                   (Interleaving.World s
                      (Interleaving.AwaitRefresh
                         {| recovery_codes := None; totp_recovery_codes := None |}
                       :: ts))).1)
        = Completed)
  /\ (forall s ts d,
        step (Interleaving.dialog
                (Interleaving.react (Interleaving.Answered 0 (Interleaving.Enrolled (Ok d)))
                   (Interleaving.World s (Interleaving.AwaitEnroll :: ts))).1)
        = Verify).
Proof.
  cbv zeta. split_and!; try (vm_compute; reflexivity); try done.
  apply (list_elem_of_lookup_2 _ 5%nat). vm_compute. reflexivity.
Qed.

(** ** Codes that are returned and not shown (C6) *)

(** C6: the claim has the codes shown exactly when the verification
    succeeds and returns them.  The code reads them only after the call
    of set_totp_enabled and the refresh of the profile (l.126-138), inside
    the same [try]: when the RPC throws or the refresh is rejected, the
    [catch] runs instead and the codes the provider has returned are
    dropped.  In the run below the verification succeeds and returns two
    codes, the profile flag is set, the refresh is rejected: the dialog
    is back on the form of the 'verify' step, shows no code and holds
    none.  In general a rejected refresh, and a thrown RPC, leave the step
    and the stored codes as they are, and the handler is over. *)
Theorem recovery_codes_dropped :
  let w := Interleaving.after Cases.refresh_rejected in
  Interleaving.offered Interleaving.start Cases.refresh_rejected = true
  /\ Cases.refresh_rejected !! 6%nat
     = Some (Interleaving.Answered 0 (Interleaving.Verified (verify Samples.verified)))
  /\ (exists d, verify Samples.verified = Ok d /\ codes_of d = Some Samples.codes)
  /\ RpcSetTotpEnabled true ∈ Interleaving.did Cases.refresh_rejected
  /\ Interleaving.pending w = []
  /\ step (Interleaving.dialog w) = Verify
  /\ recoveryCodes (Interleaving.dialog w) = []
  /\ displayed_codes (Interleaving.dialog w) = None
  /\ (exists qr key code, renderContent (Interleaving.dialog w) = VerifyForm qr key code)
  /\ (forall s ts d e,
        let w' := (Interleaving.react (Interleaving.Answered 0 (Interleaving.Refreshed (Err e)))
                     (Interleaving.World s (Interleaving.AwaitRefresh d :: ts))).1 in
        step (Interleaving.dialog w') = step s
        /\ recoveryCodes (Interleaving.dialog w') = recoveryCodes s
        /\ Interleaving.pending w' = ts)
  /\ (forall s ts d e,
        let w' := (Interleaving.react
                     (Interleaving.Answered 0 (Interleaving.RpcAnswered (Thrown e)))
                     (Interleaving.World s (Interleaving.AwaitRpc d :: ts))).1 in
        step (Interleaving.dialog w') = step s
        /\ recoveryCodes (Interleaving.dialog w') = recoveryCodes s
        /\ Interleaving.pending w' = ts).
Proof.
  cbv zeta. split_and!; try (vm_compute; reflexivity); try done.
  - eexists. split; reflexivity.
  - apply (list_elem_of_lookup_2 _ 3%nat). vm_compute. reflexivity.
  - eexists _, _, _. vm_compute. reflexivity.
Qed.
